(** * Route handlers of the restaurant back office, embedded in Rocq

    The repository is a set of Next.js route handlers.  Every handler reads
    the request, talks to two external collaborators (the Supabase identity
    provider and the relational store, reached through supabase-js or
    Prisma) and shapes a JSON response.

    The embedding keeps that shape.  A handler is a computation in a small
    state-and-exception monad [Async] over a [World]: the cookies of the
    request, the identities held by the provider, the tables of the store,
    the clock, and the behaviour of the environment (which external calls
    fail or throw, which writes other clients commit).  Each awaited call of
    the source is one operation of the monad and leaves one entry in the
    log of the world, so that "which calls were issued, with which result"
    is a statement about data. *)

From Stdlib Require Import ZArith QArith Lia Ascii String.
From stdpp Require Import base option list strings gmap stringmap pretty.

Local Open Scope string_scope.
Local Open Scope Z_scope.

(** ** JavaScript values the handlers rely on *)

Module JS.

(** Truthiness of a [string | undefined]: [undefined] and the empty
    string are falsy. *)
Definition truthy (v : option string) : bool :=
  match v with
  | Some s => negb (String.eqb s "")
  | None => false
  end.

(** Truthiness of an object reference: an object is never falsy. *)
Definition truthy_object {A} (o : A) : bool := true.

(** [a || b] on strings. *)
Definition or_else (a : string) (b : string) : string :=
  if String.eqb a "" then b else a.

(** A property of an object literal: [undefined] (dropped when the object
    is serialised), [null], or a value. *)
Inductive prop (A : Type) : Type :=
| undefined
| null
| val (a : A).
Global Arguments undefined {A}.
Global Arguments null {A}.
Global Arguments val {A} a.

(** A [string | undefined] read from a body, as a property. *)
Definition of_option {A} (o : option A) : prop A :=
  match o with
  | Some a => val a
  | None => undefined
  end.

(** Template-literal rendering [`${v}`] of a [string | undefined]. *)
Definition render (v : option string) : string :=
  match v with
  | Some s => s
  | None => "undefined"
  end.

(** [s.split(sep)] for a one-character separator.  The result is never
    empty: [split sep ""] is the one-element array holding [""]. *)
Fixpoint split (sep : Ascii.ascii) (s : string) : list string :=
  match s with
  | EmptyString => [EmptyString]
  | String c rest =>
      if Ascii.eqb c sep then EmptyString :: split sep rest
      else
        match split sep rest with
        | [] => [String c EmptyString]
        | piece :: pieces => String c piece :: pieces
        end
  end.

(** [self.findIndex(p)]: the index of the first element satisfying [p],
    [-1] when there is none. *)
Fixpoint findIndex {A} (p : A → bool) (self : list A) : Z :=
  match self with
  | [] => -1
  | x :: rest =>
      if p x then 0
      else
        let i := findIndex p rest in
        if i <? 0 then -1 else i + 1
  end.

(** [self.find(p)]. *)
Fixpoint find {A} (p : A → bool) (self : list A) : option A :=
  match self with
  | [] => None
  | x :: rest => if p x then Some x else find p rest
  end.

(** [self.filter((item, index, self) => p)]: the callback sees the
    element, its index and the whole array. *)
Fixpoint filter_from {A} (p : A → Z → list A → bool)
    (index : Z) (todo self : list A) : list A :=
  match todo with
  | [] => []
  | x :: rest =>
      if p x index self
      then x :: filter_from p (index + 1) rest self
      else filter_from p (index + 1) rest self
  end.

Definition filter {A} (p : A → Z → list A → bool) (self : list A) : list A :=
  filter_from p 0 self self.

(** [n.toString()] of an integral number. *)
Definition toString (n : Z) : string := pretty n.

End JS.

(** ** The world outside the handlers *)

(** An identity held by the identity provider. *)
Record Identity := {
  email : string;
  password : string;
  meta_company_code : string;
  meta_role : string;
}.

(** The session the provider resolves from the cookies of a request. *)
Record Session := {
  user_id : string;
  user_metadata_company_code : option string;
  access_token : string;
}.

(** A row of [Profiles]. *)
Record UserProfile := {
  id : string;
  company_code : string;
  company_id : option string;
  role : string;
  store_name : option string;
  group : option string;
}.

(** A row of [Ingredient]. *)
Record IngredientRow := {
  ingredient_id : Z;
  material_system_code : string;
  ingredient_name : string;
  date : string;
  quantity : Q;
  ingredient_store_id : string;
}.

(** A row of the catalog table behind [prisma.menuItem]. *)
Record MenuItem := {
  menu_id : Z;
  name : string;
  price : Q;
  status : bool;
  description : option string;
  K : bool;
  other : option string;
  updated_at : Z;
}.

(** A row of [StoreItem] and of [StoreMenuItem]. *)
Record StoreMenuItem := {
  store_menu_item_id : Z;
  item_menu_id : Z;
  menu_name : string;
  item_price : Q;
  item_status : bool;
  store_id : string;
  item_updated_at : Z;
}.

(** A row of [MenuCsv]. *)
Record MenuCsv := {
  menu_sys : string;
  menu_code : string;
}.

Record Tables := {
  Profiles : gmap string UserProfile;
  Ingredients : list IngredientRow;
  MenuItems : list MenuItem;
  StoreItems : list StoreMenuItem;
  StoreMenuItems : list StoreMenuItem;
  MenuCsvs : list MenuCsv;
}.

(** What the environment does to one external call: it lets the call
    through, makes the collaborator refuse it with an error, or has
    something thrown while the call is in flight.  A thrown value is an
    [Error] with a message, or something else ([None]).  What the caller
    sees of it depends on the client ([rejects]). *)
Inductive fault :=
| Quiet
| Fails (message : string)
| Throws (thrown : option string).

(** A write another client commits to the catalog. *)
Inductive writer :=
| DeleteNamed (n : string)
| InsertItem (row : MenuItem).

(** The payload of [from("Profiles").update(...)]. *)
Record ProfileUpdate := {
  upd_company_code : JS.prop string;
  upd_role : JS.prop string;
  upd_store_name : JS.prop string;
  upd_group : JS.prop string;
}.

(** The payload of [from("StoreMenuItem").update(...)]; [None] is a key
    left out of the object literal. *)
Record StoreMenuItemUpdate := {
  upd_item_status : option bool;
  upd_item_price : option Q;
  upd_item_updated_at : Z;
}.

(** The [data] of [prisma.menuItem.updateMany]; [None] is a key left out
    of the object literal. *)
Record MenuItemUpdate := {
  data_status : option bool;
  data_price : option Q;
  data_K : option bool;
  data_other : option (option string);
  data_updated_at : Z;
}.

(** The external calls the handlers await. *)
Inductive call :=
| GetSession
| ProfilesSelectSingle (columns : string) (of_id : string)
| ProfilesInsert (row : UserProfile)
| ProfilesUpdate (of_id : string) (payload : ProfileUpdate)
| ProfilesDelete (of_id : string)
| AuthAdminCreateUser (new_email new_password company new_role : string)
| AuthAdminUpdateUserById (of_id : string) (new_email new_password : option string)
| AuthAdminDeleteUser (of_id : string)
| IngredientSelect (of_store : string) (dates : list string)
| StoreItemSelect (of_store : string)
| MenuCsvSelect
| StoreMenuItemUpdate_eq (payload : StoreMenuItemUpdate) (of_store of_name : string)
| MenuItemFindFirst (of_name : string)
| MenuItemUpdateMany (of_name : string) (payload : MenuItemUpdate).

(** How a call ended, as its caller sees it. *)
Inductive outcome :=
| Ok
| Failed (message : string)
| Threw.

Definition event : Type := call * outcome.

Record World := {
  cookies : option Session;
  auth : gmap string Identity;
  db : Tables;
  now : Z;
  env : list fault;
  concurrent : list writer;
  log : list event;
}.

Definition with_cookies (c : option Session) (w : World) : World :=
  {| cookies := c; auth := auth w; db := db w; now := now w;
     env := env w; concurrent := concurrent w; log := log w |}.

Definition with_auth (a : gmap string Identity) (w : World) : World :=
  {| cookies := cookies w; auth := a; db := db w; now := now w;
     env := env w; concurrent := concurrent w; log := log w |}.

Definition with_db (d : Tables) (w : World) : World :=
  {| cookies := cookies w; auth := auth w; db := d; now := now w;
     env := env w; concurrent := concurrent w; log := log w |}.

Definition with_env (e : list fault) (w : World) : World :=
  {| cookies := cookies w; auth := auth w; db := db w; now := now w;
     env := e; concurrent := concurrent w; log := log w |}.

Definition with_concurrent (c : list writer) (w : World) : World :=
  {| cookies := cookies w; auth := auth w; db := db w; now := now w;
     env := env w; concurrent := c; log := log w |}.

Definition with_log (l : list event) (w : World) : World :=
  {| cookies := cookies w; auth := auth w; db := db w; now := now w;
     env := env w; concurrent := concurrent w; log := l |}.

(** Time passes between two requests: the clock of the world that serves
    the next one shows [t]. *)
Definition with_now (t : Z) (w : World) : World :=
  {| cookies := cookies w; auth := auth w; db := db w; now := t;
     env := env w; concurrent := concurrent w; log := log w |}.

Definition with_Profiles (p : gmap string UserProfile) (t : Tables) : Tables :=
  {| Profiles := p; Ingredients := Ingredients t; MenuItems := MenuItems t;
     StoreItems := StoreItems t; StoreMenuItems := StoreMenuItems t;
     MenuCsvs := MenuCsvs t |}.

Definition with_MenuItems (m : list MenuItem) (t : Tables) : Tables :=
  {| Profiles := Profiles t; Ingredients := Ingredients t; MenuItems := m;
     StoreItems := StoreItems t; StoreMenuItems := StoreMenuItems t;
     MenuCsvs := MenuCsvs t |}.

Definition with_StoreMenuItems (m : list StoreMenuItem) (t : Tables) : Tables :=
  {| Profiles := Profiles t; Ingredients := Ingredients t; MenuItems := MenuItems t;
     StoreItems := StoreItems t; StoreMenuItems := m;
     MenuCsvs := MenuCsvs t |}.

(** ** The monad of handlers *)

(** A computation either returns a value or throws; either way it leaves
    a world behind. *)
Inductive completion (A : Type) : Type :=
| Returned (a : A)
| Thrown (e : option string).
Arguments Returned {A} a.
Arguments Thrown {A} e.

Definition Async (A : Type) : Type := World → completion A * World.

Definition ret {A} (a : A) : Async A := λ w, (Returned a, w).

Definition bind {A B} (m : Async A) (k : A → Async B) : Async B :=
  λ w, match m w with
       | (Returned a, w') => k a w'
       | (Thrown e, w') => (Thrown e, w')
       end.

Definition throw {A} (e : option string) : Async A := λ w, (Thrown e, w).

(** [try { body } catch (error) { handler }]. *)
Definition try_catch {A} (body : Async A) (handler : option string → Async A)
    : Async A :=
  λ w, match body w with
       | (Returned a, w') => (Returned a, w')
       | (Thrown e, w') => handler e w'
       end.

Notation "'let*' x := m 'in' k" := (bind m (λ x, k))
  (at level 10, x pattern, m at level 200, k at level 200).

(** ** The collaborators *)

(** The [{ data, error }] pair supabase-js resolves with. *)
Record Error := { message : string }.

Record Result (A : Type) := {
  data : A;
  error : option Error;
}.
Arguments data {A} r.
Arguments error {A} r.

(** [data] of [auth.getSession()]: always an object, whose [session] is
    null when the cookies resolve to no session. *)
Record SessionData := { session : option Session }.

Record User := { uid : string }.

(** [data] of [auth.admin.createUser()]. *)
Record UserData := { user : option User }.

(** The environment's decision for the next call; once its list is used
    up it lets every call through. *)
Definition next_fault : Async fault :=
  λ w, (Returned (hd Quiet (env w)), with_env (tl (env w)) w).

Definition record (c : call) (o : outcome) : Async unit :=
  λ w, (Returned tt, with_log (log w ++ [(c, o)]) w).

(** Whether the promise of a call can reject.  The queries of the store's
    client ([from(table)...]) never do: the query builder of postgrest-js
    catches what its fetch throws and resolves it as an [error], as it
    does a refusal of the store, unless [throwOnError()] was asked for,
    which no handler does.  The client of the identity provider rethrows
    what is not an error of its own, and Prisma reports every failure by
    rejecting. *)
Definition rejects (c : call) : bool :=
  match c with
  | GetSession
  | AuthAdminCreateUser _ _ _ _
  | AuthAdminUpdateUserById _ _ _
  | AuthAdminDeleteUser _
  | MenuItemFindFirst _
  | MenuItemUpdateMany _ _ => true
  | ProfilesSelectSingle _ _
  | ProfilesInsert _
  | ProfilesUpdate _ _
  | ProfilesDelete _
  | IngredientSelect _ _
  | StoreItemSelect _
  | MenuCsvSelect
  | StoreMenuItemUpdate_eq _ _ _ => false
  end.

(** The [error.message] of a query whose fetch failed with [thrown]: the
    name of the error and its message.  The world does not keep the names
    of errors; [FetchError], which the client writes for an error without
    a name, stands for all of them. *)
Definition fetch_error (thrown : option string) : string :=
  String.append "FetchError: " (JS.render thrown).
Global Arguments fetch_error : simpl never.

(** One awaited call [c].  [go] is what the collaborator does when the
    environment lets the call through: it answers with a value or with an
    error message, and may change the world.  When something is thrown
    in flight, a call that can reject does; a query of the store's client
    resolves with the error of the fetch.  The call is logged with the
    way it ended, as its caller sees it. *)
Definition external {A} (c : call) (go : World → (A + string) * World)
    : Async (A + string) :=
  let* f := next_fault in
  match f with
  | Throws e =>
      if rejects c
      then let* _ := record c Threw in throw e
      else let* _ := record c (Failed (fetch_error e)) in
           ret (inr (fetch_error e))
  | Fails m => let* _ := record c (Failed m) in ret (inr m)
  | Quiet =>
      λ w, match go w with
           | (inl a, w') => (let* _ := record c Ok in ret (inl a)) w'
           | (inr m, w') => (let* _ := record c (Failed m) in ret (inr m)) w'
           end
  end.

(** A supabase-js answer whose [data] is null on error. *)
Definition nullable {A} (r : A + string) : Result (option A) :=
  match r with
  | inl a => {| data := Some a; error := None |}
  | inr m => {| data := None; error := Some {| message := m |} |}
  end.

Module Supabase.

(** [supabase.auth.getSession()]. *)
Definition auth_getSession : Async (Result SessionData) :=
  let* r := external GetSession (λ w, (inl (cookies w), w)) in
  ret match r with
       | inl s => {| data := {| session := s |}; error := None |}
       | inr m => {| data := {| session := None |};
                     error := Some {| message := m |} |}
       end.

(** [from("Profiles").select(columns).eq("id", id).single()]: an error
    unless exactly one row matches; [id] is the key of the table. *)
Definition Profiles_select_single {A} (columns : string)
    (project : UserProfile → A) (i : string) : Async (Result (option A)) :=
  let* r := external (ProfilesSelectSingle columns i) (λ w,
        match Profiles (db w) !! i with
        | Some p => (inl (project p), w)
        | None => (inr "JSON object requested, multiple (or no) rows returned", w)
        end) in
  ret (nullable r).

(** [from("Profiles").insert([row])]: refused when the key is taken.  As
    every query of the store's client it resolves and never rejects
    ([rejects]), so the [await] of the handler cannot throw here. *)
Definition Profiles_insert (row : UserProfile) : Async (Result (option unit)) :=
  let* r := external (ProfilesInsert row) (λ w,
        match Profiles (db w) !! id row with
        | Some _ => (inr "duplicate key value violates unique constraint", w)
        | None =>
            (inl tt, with_db (with_Profiles (<[id row := row]> (Profiles (db w))) (db w)) w)
        end) in
  ret (nullable r).

(** A column of the payload applied to a column that cannot be null:
    [undefined] keeps the old value. *)
Definition set_required (p : JS.prop string) (old : string) : option string :=
  match p with
  | JS.undefined => Some old
  | JS.null => None
  | JS.val v => Some v
  end.

(** The same for a column that can be null. *)
Definition set_nullable (p : JS.prop string) (old : option string) : option string :=
  match p with
  | JS.undefined => old
  | JS.null => None
  | JS.val v => Some v
  end.

Definition apply_ProfileUpdate (u : ProfileUpdate) (p : UserProfile)
    : option UserProfile :=
  match set_required (upd_company_code u) (company_code p),
        set_required (upd_role u) (role p) with
  | Some c, Some r =>
      Some {| id := id p; company_code := c; company_id := company_id p;
              role := r;
              store_name := set_nullable (upd_store_name u) (store_name p);
              group := set_nullable (upd_group u) (group p) |}
  | _, _ => None
  end.

(** [from("Profiles").update(payload).eq("id", id).select().single()]. *)
Definition Profiles_update_single (i : string) (u : ProfileUpdate)
    : Async (Result (option UserProfile)) :=
  let* r := external (ProfilesUpdate i u) (λ w,
        match Profiles (db w) !! i with
        | Some p =>
            match apply_ProfileUpdate u p with
            | Some p' =>
                (inl p', with_db (with_Profiles (<[i := p']> (Profiles (db w))) (db w)) w)
            | None => (inr "null value violates not-null constraint", w)
            end
        | None => (inr "JSON object requested, multiple (or no) rows returned", w)
        end) in
  ret (nullable r).

(** [from("Profiles").delete().eq("id", id)]. *)
Definition Profiles_delete (i : string) : Async (Result (option unit)) :=
  let* r := external (ProfilesDelete i) (λ w,
        (inl tt, with_db (with_Profiles (delete i (Profiles (db w))) (db w)) w)) in
  ret (nullable r).

Definition email_taken (e : string) (a : gmap string Identity) : bool :=
  bool_decide (map_Exists (λ _ i, email i = e) a).

(** [auth.admin.createUser(...)]: refused when the email is registered;
    otherwise the provider picks an id it does not hold yet. *)
Definition auth_admin_createUser (e pw company r : string) : Async (Result UserData) :=
  let* a := external (AuthAdminCreateUser e pw company r) (λ w,
        if email_taken e (auth w)
        then (inr "A user with this email address has already been registered", w)
        else
          let i := fresh_string "user" (auth w) in
          (inl {| uid := i |},
           with_auth (<[i := {| email := e; password := pw;
                                meta_company_code := company;
                                meta_role := r |}]> (auth w)) w)) in
  ret match a with
       | inl u => {| data := {| user := Some u |}; error := None |}
       | inr m => {| data := {| user := None |}; error := Some {| message := m |} |}
       end.

(** [auth.admin.updateUserById(id, { email?, password? })]. *)
Definition auth_admin_updateUserById (i : string) (e pw : option string)
    : Async (Result (option unit)) :=
  let* r := external (AuthAdminUpdateUserById i e pw) (λ w,
        match auth w !! i with
        | Some old =>
            (inl tt,
             with_auth (<[i := {| email := default (email old) e;
                                  password := default (password old) pw;
                                  meta_company_code := meta_company_code old;
                                  meta_role := meta_role old |}]> (auth w)) w)
        | None => (inr "User not found", w)
        end) in
  ret (nullable r).

(** [auth.admin.deleteUser(id)]. *)
Definition auth_admin_deleteUser (i : string) : Async (Result (option unit)) :=
  let* r := external (AuthAdminDeleteUser i) (λ w,
        match auth w !! i with
        | Some _ => (inl tt, with_auth (delete i (auth w)) w)
        | None => (inr "User not found", w)
        end) in
  ret (nullable r).

(** [from("Ingredient").select(...).eq("store_id", storeId).in("date", dates)];
    the filter value is sent in its string rendering. *)
Definition Ingredient_select (storeId : option string) (dates : list string)
    : Async (Result (option (list IngredientRow))) :=
  let* r := external (IngredientSelect (JS.render storeId) dates) (λ w,
        (inl (List.filter
                (λ row, String.eqb (ingredient_store_id row) (JS.render storeId)
                        && bool_decide (date row ∈ dates))
                (Ingredients (db w))), w)) in
  ret (nullable r).

(** [from("StoreItem").select("*").eq("store_id", store)]. *)
Definition StoreItem_select (store : string)
    : Async (Result (option (list StoreMenuItem))) :=
  let* r := external (StoreItemSelect store) (λ w,
        (inl (List.filter (λ row, String.eqb (store_id row) store)
                (StoreItems (db w))), w)) in
  ret (nullable r).

(** [from("MenuCsv").select("menu_sys, menu_code")]. *)
Definition MenuCsv_select : Async (Result (option (list MenuCsv))) :=
  let* r := external MenuCsvSelect (λ w, (inl (MenuCsvs (db w)), w)) in
  ret (nullable r).

Definition apply_StoreMenuItemUpdate (u : StoreMenuItemUpdate)
    (store n : string) (row : StoreMenuItem) : StoreMenuItem :=
  if String.eqb (store_id row) store && String.eqb (menu_name row) n
  then {| store_menu_item_id := store_menu_item_id row;
          item_menu_id := item_menu_id row;
          menu_name := menu_name row;
          item_price := default (item_price row) (upd_item_price u);
          item_status := default (item_status row) (upd_item_status u);
          store_id := store_id row;
          item_updated_at := upd_item_updated_at u |}
  else row.

(** [from("StoreMenuItem").update(payload).eq("store_id", store).eq("menu_name", n)]. *)
Definition StoreMenuItem_update (u : StoreMenuItemUpdate) (store n : string)
    : Async (Result (option unit)) :=
  let* r := external (StoreMenuItemUpdate_eq u store n) (λ w,
        (inl tt,
         with_db (with_StoreMenuItems
                    (map (apply_StoreMenuItemUpdate u store n) (StoreMenuItems (db w)))
                    (db w)) w)) in
  ret (nullable r).

End Supabase.


(** [Promise.all([a, b])]: both calls are dispatched; the store runs them
    one after the other and other clients may commit in between.  The
    promise rejects when either call does, with the reason of the first. *)
Definition apply_writer (rows : list MenuItem) (wr : writer) : list MenuItem :=
  match wr with
  | DeleteNamed n => List.filter (λ row, negb (String.eqb (name row) n)) rows
  | InsertItem row => rows ++ [row]
  end.

Definition commit_concurrent (w : World) : World :=
  with_concurrent []
    (with_db (with_MenuItems (foldl apply_writer (MenuItems (db w)) (concurrent w)) (db w)) w).

Definition promise_all {A B} (a : Async A) (b : Async B) : Async (A * B) :=
  λ w, match a w with
       | (ra, w1) =>
           match b (commit_concurrent w1) with
           | (rb, w2) =>
               match ra, rb with
               | Returned x, Returned y => (Returned (x, y), w2)
               | Thrown e, _ => (Thrown e, w2)
               | _, Thrown e => (Thrown e, w2)
               end
           end
       end.

(** [new Date()]: the time at which the request is served.  A handler
    reads the clock at most once; between two requests time passes
    ([with_now]). *)
Definition Date_now : Async Z := λ w, (Returned (now w), w).

(** [await request.json()]: throws on a body that is not JSON. *)
Definition request_json {A} (parsed : option A) : Async A :=
  match parsed with
  | Some body => ret body
  | None => throw (Some "Unexpected end of JSON input")
  end.

Module Prisma.

(** A rejected Prisma promise: Prisma reports every failure by throwing. *)
Definition unwrap {A} (m : Async (A + string)) : Async A :=
  let* r := m in
  match r with
  | inl a => ret a
  | inr m => throw (Some m)
  end.

(** [prisma.menuItem.findFirst({ where: { name } })]. *)
Definition menuItem_findFirst (n : string) : Async (option MenuItem) :=
  unwrap (external (MenuItemFindFirst n) (λ w,
    (inl (JS.find (λ row, String.eqb (name row) n) (MenuItems (db w))), w))).

Definition apply_MenuItemUpdate (u : MenuItemUpdate) (n : string)
    (row : MenuItem) : MenuItem :=
  if String.eqb (name row) n
  then {| menu_id := menu_id row;
          name := name row;
          price := default (price row) (data_price u);
          status := default (status row) (data_status u);
          description := description row;
          K := default (K row) (data_K u);
          other := default (other row) (data_other u);
          updated_at := data_updated_at u |}
  else row.

Record BatchPayload := { count : Z }.

(** [prisma.menuItem.updateMany({ where: { name }, data })]. *)
Definition menuItem_updateMany (n : string) (u : MenuItemUpdate)
    : Async BatchPayload :=
  unwrap (external (MenuItemUpdateMany n u) (λ w,
    let rows := MenuItems (db w) in
    (inl {| count := Z.of_nat (length (List.filter (λ row, String.eqb (name row) n) rows)) |},
     with_db (with_MenuItems (map (apply_MenuItemUpdate u n) rows) (db w)) w))).

End Prisma.

(** ** The handlers *)

Record NextResponse (B : Type) := {
  http_status : Z;
  json : B;
}.
Arguments http_status {B} n.
Arguments json {B} n.

(** *** /ingredients *)

Module Ingredients.

Record Ingredient := {
  out_ingredient_id : Z;
  out_material_system_code : string;
  out_name : string;
  out_date : string;
  out_quantity : Q;
}.

Definition selected (row : IngredientRow) : Ingredient :=
  {| out_ingredient_id := ingredient_id row;
     out_material_system_code := material_system_code row;
     out_name := ingredient_name row;
     out_date := date row;
     out_quantity := quantity row |}.

Inductive Body :=
| ErrorResponse (error : string)
| SuccessResponse (success : bool) (data : list Ingredient).

(** The request: [searchParams.get("weekDates")], null when the
    parameter is not in the query. *)
Record Request := { weekDates_param : option string }.

Definition createErrorResponse (msg : string) (st : Z) : NextResponse Body :=
  {| http_status := st; json := ErrorResponse msg |}.

Definition createSuccessResponse (b : Body) : NextResponse Body :=
  {| http_status := 200; json := b |}.

Definition GET (request : Request) : Async (NextResponse Body) :=
  try_catch
    ((* searchParams.get("weekDates")?.split(",") || [] *)
     let weekDates :=
       match weekDates_param request with
       | Some s => JS.split ","%char s
       | None => []
       end in
     if (length weekDates =? 0)%nat
     then ret (createErrorResponse "Please provide week dates to fetch ingredients" 400)
     else
       (* const { data: session } = await supabase.auth.getSession() *)
       let* r := Supabase.auth_getSession in
       let session_ := data r in
       if negb (JS.truthy_object session_)
       then ret (createErrorResponse
                   "Authentication required. Please log in to continue." 401)
       else
         let storeId :=
           match session session_ with
           | Some s => user_metadata_company_code s
           | None => None
           end in
         let* q := Supabase.Ingredient_select storeId weekDates in
         match error q with
         | Some _ =>
             ret (createErrorResponse
                    "Unable to fetch ingredients. Please try again later." 500)
         | None =>
             ret (createSuccessResponse
                    (SuccessResponse true (map selected (default [] (data q)))))
         end)
    (λ _, ret (createErrorResponse
                 "An unexpected error occurred while fetching ingredients" 500)).

End Ingredients.

(** *** /menu (the catalog) *)

Module Menu.

Record UpdateMenuItemRequest := {
  body_name : string;
  body_isActive : option bool;
  body_price : option Q;
  body_K : option bool;
  body_other : option (option string);
}.

Inductive Body :=
| ErrorResponse (error : string)
| SuccessResponse (success : bool) (updatedCount : Z).

Definition createErrorResponse (msg : string) (st : Z) : NextResponse Body :=
  {| http_status := st; json := ErrorResponse msg |}.

Definition createSuccessResponse (b : Body) : NextResponse Body :=
  {| http_status := 200; json := b |}.

Definition PUT (request : option UpdateMenuItemRequest) : Async (NextResponse Body) :=
  try_catch
    (let* body := request_json request in
     let* today := Date_now in
     let* found_updated :=
       promise_all
         (Prisma.menuItem_findFirst (body_name body))
         (Prisma.menuItem_updateMany (body_name body)
            {| data_status := body_isActive body;
               data_price := body_price body;
               data_K := body_K body;
               data_other := body_other body;
               data_updated_at := today |}) in
     let existingItem := found_updated.1 in
     let updatedItem := found_updated.2 in
     if negb (bool_decide (is_Some existingItem)) || (Prisma.count updatedItem =? 0)
     then ret (createErrorResponse "Available menu item not found" 404)
     else ret (createSuccessResponse
                 (SuccessResponse true (Prisma.count updatedItem))))
    (λ _, ret (createErrorResponse "Error updating available menu item" 500)).

End Menu.

(** *** /menu-items (the menu of one store) *)

Module MenuItems.

Record TransformedMenuItem := {
  out_id : Z;
  menuId : Z;
  out_menu_code : option string;
  out_name : string;
  out_price : Q;
  isActive : bool;
}.

Record UpdateMenuItemRequest := {
  body_name : string;
  body_isActive : option bool;
  body_price : option Q;
}.

(** [isActive] and [data] are left out of the JSON when undefined. *)
Inductive Body :=
| ErrorResponse (error : string)
| SuccessResponse (success : bool) (isActive_ : option bool)
    (data : option (list TransformedMenuItem)).

Definition createErrorResponse (msg : string) (st : Z) : NextResponse Body :=
  {| http_status := st; json := ErrorResponse msg |}.

Definition createSuccessResponse (b : Body) : NextResponse Body :=
  {| http_status := 200; json := b |}.

(** The session and profile checks, which [GET] and [PUT] both start
    with line for line: a rejection, or the store the caller belongs
    to when they pass. *)
Definition store_scope : Async (NextResponse Body + string) :=
  let* r := Supabase.auth_getSession in
  match error r, session (data r) with
  | None, Some s =>
      let* p := Supabase.Profiles_select_single "company_id" company_id (user_id s) in
      (* profileError || !profile?.company_id *)
      if bool_decide (is_Some (error p)) || negb (JS.truthy (mjoin (data p)))
      then ret (inl (createErrorResponse
                       "Store profile not found. Please contact support." 404))
      else
        let store := JS.render (mjoin (data p)) in
        if String.eqb store "admin"
        then ret (inl (createErrorResponse
               "Headquarters users should manage menus through the Available Menu page instead of the Menu Settings page."
               403))
        else ret (inr store)
  | _, _ =>
      ret (inl (createErrorResponse
                  "Authentication required. Please log in to continue." 401))
  end.

(** [menuItems.filter((item, index, self) =>
      index === self.findIndex((t) => t.menu_id === item.menu_id))]. *)
Definition uniqueMenuItems (menuItems : list StoreMenuItem) : list StoreMenuItem :=
  JS.filter
    (λ item index self,
       index =? JS.findIndex (λ t, item_menu_id t =? item_menu_id item) self)
    menuItems.

Definition transform (menuCsvs : option (list MenuCsv)) (item : StoreMenuItem)
    : TransformedMenuItem :=
  {| out_id := store_menu_item_id item;
     menuId := item_menu_id item;
     out_menu_code :=
       menu_code <$>
         (menuCsvs ≫=
            JS.find (λ csv, String.eqb (menu_sys csv) (JS.toString (item_menu_id item))));
     out_name := menu_name item;
     out_price := item_price item;
     isActive := item_status item |}.

Definition GET : Async (NextResponse Body) :=
  try_catch
    (let* scope := store_scope in
     match scope with
     | inl rejection => ret rejection
     | inr store =>
         let* both :=
           promise_all (Supabase.StoreItem_select store) Supabase.MenuCsv_select in
         let menuItems := data both.1 in
         let menuCsvs := data both.2 in
         let transformedItems :=
           map (transform menuCsvs) <$> (uniqueMenuItems <$> menuItems) in
         ret (createSuccessResponse (SuccessResponse true None transformedItems))
     end)
    (λ _, ret (createErrorResponse
                 "An unexpected error occurred while fetching menu items" 500)).

Definition PUT (request : option UpdateMenuItemRequest) : Async (NextResponse Body) :=
  try_catch
    (let* scope := store_scope in
     match scope with
     | inl rejection => ret rejection
     | inr store =>
         let* body := request_json request in
         let* today := Date_now in
         let* u :=
           Supabase.StoreMenuItem_update
             {| upd_item_status := negb <$> body_isActive body;
                upd_item_price := body_price body;
                upd_item_updated_at := today |}
             store (body_name body) in
         match error u with
         | Some _ =>
             ret (createErrorResponse
                    "Unable to update menu item. Please try again later." 500)
         | None =>
             ret (createSuccessResponse
                    (SuccessResponse true (negb <$> body_isActive body) None))
         end
     end)
    (λ _, ret (createErrorResponse
                 "An unexpected error occurred while updating the menu item" 500)).

End MenuItems.

(** *** /users *)

Module Users.

Record CreateUserRequest := {
  body_companyCode : option string;
  body_password : option string;
  body_role : option string;
  body_storeName : option string;
  body_group : option string;
}.

Inductive Body :=
| ErrorResponse (error : string)
| SuccessResponse (success : bool) (msg : option string) (userId : option string)
    (data : option (list UserProfile)).

Definition createErrorResponse (msg : string) (st : Z) : NextResponse Body :=
  {| http_status := st; json := ErrorResponse msg |}.

Definition createSuccessResponse (b : Body) : NextResponse Body :=
  {| http_status := 200; json := b |}.

Definition POST (request : option CreateUserRequest) : Async (NextResponse Body) :=
  try_catch
    (let* body := request_json request in
     if negb (JS.truthy (body_companyCode body))
        || negb (JS.truthy (body_password body))
        || negb (JS.truthy (body_role body))
     then ret (createErrorResponse "必須項目が不足しています" 400)
     else
       let companyCode := JS.render (body_companyCode body) in
       let password_ := JS.render (body_password body) in
       let role_ := JS.render (body_role body) in
       let* r := Supabase.auth_getSession in
       match session (data r) with
       | None => ret (createErrorResponse "認証が必要です" 401)
       | Some s =>
           let* currentUser := Supabase.Profiles_select_single "role" role (user_id s) in
           if bool_decide (is_Some (error currentUser))
              || match data currentUser with
                 | None => true
                 | Some r => negb (String.eqb r "admin")
                 end
           then ret (createErrorResponse "権限がありません" 403)
           else
             let* created :=
               Supabase.auth_admin_createUser
                 (companyCode ++ "@example.com") password_ companyCode role_ in
             match error created, user (data created) with
             | Some createUserError, _ =>
                 ret (createErrorResponse
                        (JS.or_else (message createUserError)
                           "ユーザーの作成に失敗しました") 400)
             | None, None =>
                 throw (Some "Cannot read properties of null (reading 'id')")
             | None, Some u =>
                 let userId := uid u in
                 let* inserted :=
                   Supabase.Profiles_insert
                     {| id := userId;
                        company_code := companyCode;
                        company_id := None;
                        role := role_;
                        store_name :=
                          if String.eqb role_ "store" then body_storeName body else None;
                        group := body_group body |} in
                 match error inserted with
                 | Some insertError =>
                     (* Rollback: delete the user if profile creation fails *)
                     let* _ := Supabase.auth_admin_deleteUser userId in
                     ret (createErrorResponse
                            (JS.or_else (message insertError)
                               "プロファイルの作成に失敗しました") 400)
                 | None =>
                     ret (createSuccessResponse
                            (SuccessResponse true (Some "ユーザーを作成しました")
                               (Some userId) None))
                 end
             end
       end)
    (λ _, ret (createErrorResponse "サーバーエラーが発生しました" 500)).

End Users.

(** *** /users/{userId} *)

Module UserById.

Record UpdateUserRequest := {
  body_company_code : option string;
  body_password : option string;
  body_role : option string;
  body_store_name : option string;
  body_group : option string;
}.

(** [details] is left out of the JSON when undefined. *)
Inductive Body :=
| ErrorResponse (error : string) (details : option string)
| SuccessResponse (success : bool) (data : option UserProfile).

Definition createErrorResponse (msg : string) (st : Z) (details : option string)
    : NextResponse Body :=
  {| http_status := st; json := ErrorResponse msg details |}.

Definition createSuccessResponse (b : Body) : NextResponse Body :=
  {| http_status := 200; json := b |}.

Definition DELETE (userId : string) : Async (NextResponse Body) :=
  try_catch
    ((* Fetch the user to be deleted *)
     let* userToDelete := Supabase.Profiles_select_single "role" role userId in
     match error userToDelete, data userToDelete with
     | None, Some target_role =>
         (* Prevent deletion if the user is 'admin' *)
         if String.eqb target_role "admin"
         then ret (createErrorResponse "本部ユーザーは削除できません" 403 None)
         else
           let* deleted := Supabase.auth_admin_deleteUser userId in
           match error deleted with
           | Some _ => ret (createErrorResponse "ユーザーの削除に失敗しました" 500 None)
           | None =>
               let* gone := Supabase.Profiles_delete userId in
               match error gone with
               | Some _ =>
                   ret (createErrorResponse "プロフィールの削除に失敗しました" 500 None)
               | None => ret (createSuccessResponse (SuccessResponse true None))
               end
           end
     | _, _ => ret (createErrorResponse "ユーザーの取得に失敗しました" 404 None)
     end)
    (λ thrown, ret (createErrorResponse "サーバーエラーが発生しました" 500 thrown)).

Definition PATCH (userId : string) (request : option UpdateUserRequest)
    : Async (NextResponse Body) :=
  try_catch
    (let* body := request_json request in
     let* r := Supabase.auth_getSession in
     match session (data r) with
     | None => ret (createErrorResponse "認証が必要です" 401 None)
     | Some s =>
         let* currentUser := Supabase.Profiles_select_single "role" role (user_id s) in
         if bool_decide (is_Some (error currentUser))
            || match data currentUser with
               | None => true
               | Some r => negb (String.eqb r "admin")
               end
         then ret (createErrorResponse "権限がありません" 403 None)
         else
           (* Update auth user if email or password is provided *)
           let authUpdate_email :=
             if JS.truthy (body_company_code body)
             then Some (JS.render (body_company_code body) ++ "@example.com")
             else None in
           let authUpdate_password :=
             if JS.truthy (body_password body) then body_password body else None in
           let* auth_failed :=
             if bool_decide (is_Some authUpdate_email)
                || bool_decide (is_Some authUpdate_password)
             then
               let* updated :=
                 Supabase.auth_admin_updateUserById userId
                   authUpdate_email authUpdate_password in
               ret (bool_decide (is_Some (error updated)))
             else ret false in
           if auth_failed
           then ret (createErrorResponse "認証情報の更新に失敗しました" 500 None)
           else
             (* Prepare update data for Profiles table *)
             let updateData :=
               {| upd_company_code := JS.of_option (body_company_code body);
                  upd_role := JS.of_option (body_role body);
                  upd_store_name :=
                    if bool_decide (body_role body = Some "store")
                    then JS.of_option (body_store_name body)
                    else JS.null;
                  upd_group := JS.of_option (body_group body) |} in
             let* updated := Supabase.Profiles_update_single userId updateData in
             match error updated with
             | Some updateProfileError =>
                 ret (createErrorResponse "プロフィールの更新に失敗しました" 500
                        (Some (message updateProfileError)))
             | None =>
                 ret (createSuccessResponse (SuccessResponse true (data updated)))
             end
     end)
    (λ thrown, ret (createErrorResponse "サーバーエラーが発生しました" 500 thrown)).

End UserById.

(** ** The vocabulary of the specification

    Definitions that follow the words of the specification rather than the
    code; the theorems compare the handlers with them. *)

Module Spec.

(** "Deduplicates by [menu_id] (first occurrence kept, subsequent
    duplicates dropped, order-preserving)": walk the rows in fetch
    order, remembering the [menu_id]s already seen. *)
Fixpoint first_occurrences (seen : list Z) (rows : list StoreMenuItem)
    : list StoreMenuItem :=
  match rows with
  | [] => []
  | r :: rest =>
      if bool_decide (item_menu_id r ∈ seen)
      then first_occurrences seen rest
      else r :: first_occurrences (item_menu_id r :: seen) rest
  end.

(** "The effective role (from patch, or existing if unspecified)". *)
Definition effective_role (patch_role : option string) (existing : UserProfile)
    : string :=
  default (role existing) patch_role.

(** "[store_name] is forced to null unless the effective role is
    [store]": under a [store] role the name of the patch is written, and
    the existing name stays when the patch has none. *)
Definition store_name_after (patch_role patch_store_name : option string)
    (existing : UserProfile) : option string :=
  if String.eqb (effective_role patch_role existing) "store"
  then match patch_store_name with
       | Some s => Some s
       | None => store_name existing
       end
  else None.

End Spec.

(** The callback [(t) => t.menu_id === item.menu_id]. *)
Definition same_menu_id (item t : StoreMenuItem) : bool :=
  item_menu_id t =? item_menu_id item.

(** The response a run ended with. *)
Definition response {A} (r : completion A * World) : option A :=
  match r.1 with
  | Returned a => Some a
  | Thrown _ => None
  end.

(** ** Concrete worlds *)

Module Sample.

Definition no_tables : Tables :=
  {| Profiles := ∅; Ingredients := []; MenuItems := []; StoreItems := [];
     StoreMenuItems := []; MenuCsvs := [] |}.

Definition empty_world : World :=
  {| cookies := None; auth := ∅; db := no_tables; now := 1000;
     env := []; concurrent := []; log := [] |}.

(** The catalog *)

Definition ramen : MenuItem :=
  {| menu_id := 1; name := "Ramen"; price := Qmake 9 1; status := true;
     description := Some "Shoyu"; K := false; other := None; updated_at := 5 |}.

Definition gyoza : MenuItem :=
  {| menu_id := 2; name := "Gyoza"; price := Qmake 4 1; status := true;
     description := None; K := true; other := None; updated_at := 7 |}.

Definition catalog_world : World :=
  with_db (with_MenuItems [ramen; gyoza] no_tables) empty_world.

(** Another client deletes the row while the two statements of the
    update are in flight. *)
Definition race_world : World :=
  with_concurrent [DeleteNamed "Ramen"] catalog_world.

Definition price_only : Menu.UpdateMenuItemRequest :=
  {| Menu.body_name := "Ramen"; Menu.body_isActive := None;
     Menu.body_price := Some (Qmake 25 2); Menu.body_K := None;
     Menu.body_other := None |}.

(** The users *)

Definition hq_session : Session :=
  {| user_id := "hq"; user_metadata_company_code := Some "admin";
     access_token := "token" |}.

Definition hq_profile : UserProfile :=
  {| id := "hq"; company_code := "admin"; company_id := Some "admin";
     role := "admin"; store_name := None; group := None |}.

Definition shop_profile : UserProfile :=
  {| id := "u1"; company_code := "S1"; company_id := Some "S1";
     role := "store"; store_name := Some "Shop A"; group := None |}.

Definition identity_of (p : UserProfile) : Identity :=
  {| email := String.append (company_code p) "@example.com"; password := "secret";
     meta_company_code := company_code p; meta_role := role p |}.

(** Headquarters is logged in; one store user exists. *)
Definition users_world : World :=
  {| cookies := Some hq_session;
     auth := {[ "hq" := identity_of hq_profile; "u1" := identity_of shop_profile ]};
     db := with_Profiles {[ "hq" := hq_profile; "u1" := shop_profile ]} no_tables;
     now := 1000; env := []; concurrent := []; log := [] |}.

Definition new_store_user : Users.CreateUserRequest :=
  {| Users.body_companyCode := Some "S2"; Users.body_password := Some "pw";
     Users.body_role := Some "store"; Users.body_storeName := Some "Shop B";
     Users.body_group := None |}.

(** The store refuses the insertion of the profile. *)
Definition insert_fails : list fault :=
  [Quiet; Quiet; Quiet; Fails "permission denied for table Profiles"].

Definition insert_fails_world : World :=
  with_env insert_fails users_world.

(** ... and the provider then refuses to delete the new identity. *)
Definition delete_fails_world : World :=
  with_env (insert_fails ++ [Fails "Database error deleting user"])%list users_world.

Definition new_store_profile : UserProfile :=
  {| id := "user"; company_code := "S2"; company_id := None; role := "store";
     store_name := Some "Shop B"; group := None |}.

(** A patch that only names a group. *)
Definition group_only : UserById.UpdateUserRequest :=
  {| UserById.body_company_code := None; UserById.body_password := None;
     UserById.body_role := None; UserById.body_store_name := None;
     UserById.body_group := Some "B" |}.

(** The menu of a store *)

Definition store_item (i menu : Z) (n store : string) : StoreMenuItem :=
  {| store_menu_item_id := i; item_menu_id := menu; menu_name := n;
     item_price := Qmake 9 1; item_status := true; store_id := store;
     item_updated_at := 5 |}.

Definition with_store_menu (items menu : list StoreMenuItem)
    (csvs : list MenuCsv) (t : Tables) : Tables :=
  {| Profiles := Profiles t; Ingredients := Ingredients t;
     MenuItems := MenuItems t; StoreItems := items; StoreMenuItems := menu;
     MenuCsvs := csvs |}.

(** The store user is logged in; the fetch of the store's items holds
    the [menu_id] 1 twice. *)
Definition menu_world : World :=
  with_cookies
    (Some {| user_id := "u1"; user_metadata_company_code := Some "S1";
             access_token := "token" |})
    (with_db
       (with_store_menu
          [ store_item 10 1 "Ramen" "S1"; store_item 11 2 "Gyoza" "S1";
            store_item 12 1 "Ramen (copy)" "S1"; store_item 13 3 "Udon" "S2" ]
          [ store_item 20 1 "Ramen" "S1"; store_item 21 1 "Ramen" "S2" ]
          [ {| menu_sys := "1"; menu_code := "R-01" |} ]
          (db users_world))
       users_world).

Definition deactivate_ramen : MenuItems.UpdateMenuItemRequest :=
  {| MenuItems.body_name := "Ramen"; MenuItems.body_isActive := Some true;
     MenuItems.body_price := None |}.

(** The kitchen *)

Definition flour : IngredientRow :=
  {| ingredient_id := 1; material_system_code := "M-001";
     ingredient_name := "Flour"; date := "2024-01-01"; quantity := Qmake 3 1;
     ingredient_store_id := "S1" |}.

Definition shop_session : Session :=
  {| user_id := "u1"; user_metadata_company_code := Some "S1";
     access_token := "token" |}.

Definition with_Ingredients (rows : list IngredientRow) (t : Tables) : Tables :=
  {| Profiles := Profiles t; Ingredients := rows; MenuItems := MenuItems t;
     StoreItems := StoreItems t; StoreMenuItems := StoreMenuItems t;
     MenuCsvs := MenuCsvs t |}.

(** The store user is logged in. *)
Definition kitchen_world : World :=
  with_cookies (Some shop_session)
    (with_db (with_Ingredients [flour] (db users_world)) users_world).

(** Nobody is logged in. *)
Definition anonymous_world : World :=
  with_cookies None kitchen_world.

End Sample.

From stdpp Require Import sorting.

Local Open Scope Z_scope.

(** ** The handlers that list and log in *)

(** An awaited call of the handlers below.  The environment decides as
    for every call and the collaborator answers; the log of the world
    keeps the calls declared in [call], so this one leaves no entry. *)
Definition consult {A} (go : World → (A + string) * World) : Async (A + string) :=
  let* f := next_fault in
  match f with
  | Throws e => throw e
  | Fails m => ret (inr m)
  | Quiet => λ w, match go w with
                  | (r, w') => (Returned r, w')
                  end
  end.

(** The same for a query of the store's client, which resolves a failed
    fetch as an error and does not reject ([rejects]). *)
Definition consult_store {A} (go : World → (A + string) * World)
    : Async (A + string) :=
  try_catch (consult go) (λ thrown, ret (inr (fetch_error thrown))).

(** [orderBy: { menu_id: "asc" }]. *)
Definition by_menu_id (a b : MenuItem) : Prop := menu_id a ≤ menu_id b.

#[global] Instance by_menu_id_dec a b : Decision (by_menu_id a b).
Proof. unfold by_menu_id. apply _. Defined.

(** *** GET /menu (the catalog) *)

Module Catalog.

Record TransformedMenuItem := {
  out_id : Z;
  out_menu_code : option string;
  out_name : string;
  out_price : Q;
  isActive : bool;
  out_description : option string;
  out_K : bool;
  out_other : option string;
}.

(** [updatedCount] belongs to the answer of [PUT]; [GET] sets [data]. *)
Inductive Body :=
| ErrorResponse (error : string)
| SuccessResponse (success : bool) (data : list TransformedMenuItem).

Definition createErrorResponse (msg : string) (st : Z) : NextResponse Body :=
  {| http_status := st; json := ErrorResponse msg |}.

Definition createSuccessResponse (b : Body) : NextResponse Body :=
  {| http_status := 200; json := b |}.

(** [prisma.menuItem.findMany({ orderBy: { menu_id: "asc" }, select })]. *)
Definition menuItem_findMany : Async (list MenuItem) :=
  Prisma.unwrap (consult (λ w,
    (inl (merge_sort by_menu_id (MenuItems (db w))), w))).

(** [prisma.menuCsv.findMany({ select })]; the model of Prisma names the
    code column [menu_system_code]. *)
Definition menuCsv_findMany : Async (list MenuCsv) :=
  Prisma.unwrap (consult (λ w, (inl (MenuCsvs (db w)), w))).

Definition transform (menuCsvs : list MenuCsv) (item : MenuItem)
    : TransformedMenuItem :=
  {| out_id := menu_id item;
     out_menu_code :=
       menu_code <$>
         JS.find (λ csv, String.eqb (menu_sys csv) (JS.toString (menu_id item)))
           menuCsvs;
     out_name := name item;
     out_price := price item;
     isActive := status item;
     out_description := description item;
     out_K := K item;
     out_other := other item |}.

Definition GET : Async (NextResponse Body) :=
  try_catch
    (let* both := promise_all menuItem_findMany menuCsv_findMany in
     let menuItems := both.1 in
     let menuCsvs := both.2 in
     let transformedItems := map (transform menuCsvs) menuItems in
     ret (createSuccessResponse (SuccessResponse true transformedItems)))
    (λ _, ret (createErrorResponse "Error fetching available menu items" 500)).

End Catalog.

(** *** GET /users *)

Module UserList.

(** The columns of [select("id, company_code, role, store_name, group")]:
    [company_id] is not selected and is absent from the rows returned. *)
Definition selected (p : UserProfile) : UserProfile :=
  {| id := id p; company_code := company_code p; company_id := None;
     role := role p; store_name := store_name p; group := group p |}.

(** [from("Profiles").select("id, company_code, role, store_name, group")]. *)
Definition Profiles_select : Async (Result (option (list UserProfile))) :=
  let* r := consult_store (λ w,
        (inl (map (λ kv, selected kv.2) (map_to_list (Profiles (db w)))), w)) in
  ret (nullable r).

Definition GET : Async (NextResponse Users.Body) :=
  try_catch
    (let* r := Profiles_select in
     match error r with
     | Some _ => ret (Users.createErrorResponse "ユーザーの取得に失敗しました" 500)
     | None =>
         ret (Users.createSuccessResponse
                (Users.SuccessResponse true None None (data r)))
     end)
    (λ _, ret (Users.createErrorResponse "サーバーエラーが発生しました" 500)).

End UserList.

(** *** POST /login *)

Module Login.

Record LoginRequest := {
  body_email : string;
  body_password : string;
}.

Inductive Body :=
| ErrorResponse (error : string)
| LoginResponse (companyCode token : string).

Definition createErrorResponse (msg : string) (st : Z) : NextResponse Body :=
  {| http_status := st; json := ErrorResponse msg |}.

Definition createSuccessResponse (b : Body) : NextResponse Body :=
  {| http_status := 200; json := b |}.

(** [data] of [auth.signInWithPassword()]. *)
Record AuthData := {
  auth_user : option User;
  auth_session : option Session;
}.

Section Provider.

(** The access token the provider issues for a user. *)
Variable issue : string → string.

Definition credentials (e pw : string) (entry : string * Identity) : bool :=
  String.eqb (email entry.2) e && String.eqb (password entry.2) pw.

Definition session_of (entry : string * Identity) : Session :=
  {| user_id := entry.1;
     user_metadata_company_code := Some (meta_company_code entry.2);
     access_token := issue entry.1 |}.

(** [supabase.auth.signInWithPassword({ email, password })]: the provider
    looks for an identity with these credentials; the route-handler client
    stores the session it gets in the cookies. *)
Definition auth_signInWithPassword (e pw : string) : Async (Result AuthData) :=
  let* r := consult (λ w,
        match JS.find (credentials e pw) (map_to_list (auth w)) with
        | Some entry =>
            (inl (session_of entry), with_cookies (Some (session_of entry)) w)
        | None => (inr "Invalid login credentials", w)
        end) in
  ret match r with
      | inl s =>
          {| data := {| auth_user := Some {| uid := user_id s |};
                        auth_session := Some s |};
             error := None |}
      | inr m =>
          {| data := {| auth_user := None; auth_session := None |};
             error := Some {| message := m |} |}
      end.

Definition POST (request : option LoginRequest) : Async (NextResponse Body) :=
  try_catch
    (let* body := request_json request in
     (* Authenticate user *)
     let* signed :=
       auth_signInWithPassword (body_email body) (body_password body) in
     match error signed with
     | Some _ => ret (createErrorResponse "Authentication failed" 401)
     | None =>
         match auth_user (data signed), auth_session (data signed) with
         | Some u, Some s =>
             (* Fetch user profile *)
             let* profile :=
               Supabase.Profiles_select_single "company_code" company_code (uid u) in
             if bool_decide (is_Some (error profile))
                || negb (JS.truthy (data profile))
             then ret (createErrorResponse "Company code not found" 404)
             else
               ret (createSuccessResponse
                      (LoginResponse (JS.render (data profile)) (access_token s)))
         | _, _ => throw (Some "Cannot read properties of null (reading 'id')")
         end
     end)
    (λ _, ret (createErrorResponse "Internal server error" 500)).

End Provider.

End Login.

(** ** More concrete worlds *)

Module Scenario.

Definition issue (i : string) : string := String.append "jwt-" i.

(** Nobody is logged in; the users of [Sample.users_world] exist. *)
Definition logged_out : World := with_cookies None Sample.menu_world.

Definition shop_login : Login.LoginRequest :=
  {| Login.body_email := "S1@example.com"; Login.body_password := "secret" |}.

Definition wrong_password : Login.LoginRequest :=
  {| Login.body_email := "S1@example.com"; Login.body_password := "guess" |}.

(** The identity of the store user has lost its profile. *)
Definition profile_lost : World :=
  with_db (with_Profiles (delete "u1" (Profiles (db logged_out))) (db logged_out))
    logged_out.

Definition clerk : Users.CreateUserRequest :=
  {| Users.body_companyCode := Some "S3"; Users.body_password := Some "pw3";
     Users.body_role := Some "clerk"; Users.body_storeName := Some "ignored";
     Users.body_group := Some "G" |}.

(** A request for a company code whose email is registered. *)
Definition taken_code : Users.CreateUserRequest :=
  {| Users.body_companyCode := Some "S1"; Users.body_password := Some "pw";
     Users.body_role := Some "store"; Users.body_storeName := None;
     Users.body_group := None |}.


(** A profile was left over under the id the provider hands out next, and
    the provider will refuse the compensating delete. *)
Definition stale_profile : UserProfile :=
  {| id := "user"; company_code := "S0"; company_id := Some "S0";
     role := "store"; store_name := Some "Shop 0"; group := None |}.

Definition stale_profile_world : World :=
  with_env [Quiet; Quiet; Quiet; Quiet; Fails "Database error deleting user"]
    (with_db
       (with_Profiles (<["user" := stale_profile]> (Profiles (db Sample.users_world)))
          (db Sample.users_world))
       Sample.users_world).

(** A profile whose identity is gone. *)
Definition ghost_profile : UserProfile :=
  {| id := "ghost"; company_code := "S7"; company_id := Some "S7";
     role := "store"; store_name := Some "Shop G"; group := None |}.

Definition ghost_world : World :=
  with_db
    (with_Profiles (<["ghost" := ghost_profile]> (Profiles (db Sample.users_world)))
       (db Sample.users_world))
    Sample.users_world.

(** The store refuses to delete a profile. *)
Definition profile_delete_fails : World :=
  with_env [Quiet; Quiet; Fails "permission denied for table Profiles"]
    Sample.users_world.

(** The store user, not headquarters, is logged in. *)
Definition shop_logged_in : World :=
  with_cookies (Some Sample.shop_session) Sample.users_world.

(** The provider refuses to change credentials. *)
Definition credentials_refused : World :=
  with_env [Quiet; Quiet; Fails "Password should be at least 6 characters"]
    Sample.users_world.

(** The store refuses the update of the profile. *)
Definition profile_update_fails : World :=
  with_env [Quiet; Quiet; Quiet; Fails "permission denied for table Profiles"]
    Sample.users_world.

Definition rename_shop : UserById.UpdateUserRequest :=
  {| UserById.body_company_code := Some "S9"; UserById.body_password := Some "new";
     UserById.body_role := Some "store"; UserById.body_store_name := Some "Shop Z";
     UserById.body_group := None |}.

Definition udon : MenuItem :=
  {| menu_id := 3; name := "Udon"; price := Qmake 7 1; status := false;
     description := None; K := false; other := Some "seasonal"; updated_at := 9 |}.

(** A catalog stored out of order, with a code for [menu_id] 2 only. *)
Definition unsorted_catalog : World :=
  with_db
    {| Profiles := ∅; Ingredients := [];
       MenuItems := [udon; Sample.ramen; Sample.gyoza];
       StoreItems := []; StoreMenuItems := [];
       MenuCsvs := [ {| menu_sys := "2"; menu_code := "G-02" |};
                     {| menu_sys := "02"; menu_code := "wrong" |} ] |}
    Sample.empty_world.

End Scenario.

(** ** Invariants *)

(** Every identity held by the provider has a profile. *)
Definition paired (w : World) : Prop :=
  ∀ i, is_Some (auth w !! i) → is_Some (Profiles (db w) !! i).

(** The caller is an administrator: the cookies resolve to a session
    whose user has a profile with the role "admin". *)
Definition caller_is_admin (w : World) : Prop :=
  ∃ s p, cookies w = Some s
         ∧ Profiles (db w) !! user_id s = Some p
         ∧ role p = "admin".

(** A relation between the world before and the world after that every
    run of a computation satisfies. *)
Definition preserves {A} (R : relation World) (m : Async A) : Prop :=
  ∀ w, R w (m w).2.

(** Nothing but the log and the environment changed. *)
Definition same_state (w w' : World) : Prop :=
  cookies w' = cookies w ∧ auth w' = auth w ∧ db w' = db w
  ∧ concurrent w' = concurrent w ∧ now w' = now w.

(** The computation read the world, and other clients may have written
    to the catalog meanwhile: the cookies and the identities are as they
    were, and so are the tables when no other client was writing. *)
Definition read_only (w w' : World) : Prop :=
  cookies w' = cookies w ∧ auth w' = auth w ∧ now w' = now w
  ∧ (concurrent w = [] → db w' = db w ∧ concurrent w' = []).

(** Only the identity and the profile of [i] may differ, and they neither
    appear nor disappear; the identity keeps its metadata and the profile
    its [id] and [company_id]. *)
Definition touches_only (i : string) (w w' : World) : Prop :=
  (∀ j, j ≠ i → auth w' !! j = auth w !! j
                ∧ Profiles (db w') !! j = Profiles (db w) !! j)
  ∧ option_Forall2
      (λ old new, meta_company_code new = meta_company_code old
                  ∧ meta_role new = meta_role old)
      (auth w !! i) (auth w' !! i)
  ∧ option_Forall2
      (λ old new, id new = id old ∧ company_id new = company_id old)
      (Profiles (db w) !! i) (Profiles (db w') !! i)
  ∧ db w' = with_Profiles (Profiles (db w')) (db w).

(** * Properties *)

Local Open Scope list_scope.

(** ** Stepping through a handler *)

Ltac wsimpl :=
  repeat (progress (cbn;
    unfold with_cookies, with_auth, with_db, with_env, with_log, with_now,
      with_concurrent, with_Profiles, with_MenuItems, with_StoreMenuItems,
      commit_concurrent)).

Ltac run_handler :=
  unfold try_catch, bind, ret, throw, external, next_fault, record, nullable;
  wsimpl.

(** One case distinction on what the next call meets: the decision of
    the environment, a row that is there or not, a comparison. *)
Ltac case_step :=
  match goal with
  | |- context [hd Quiet ?e] =>
      is_var e; let f := fresh "f" in destruct e as [|f ?]; [|destruct f]
  | |- context [match ?x with Some _ => _ | None => _ end] =>
      let H := fresh "Hcase" in destruct x eqn:H
  | |- context [Supabase.email_taken ?e ?a] =>
      let H := fresh "Htaken" in destruct (Supabase.email_taken e a) eqn:H
  | |- context [JS.truthy ?x] =>
      let H := fresh "Hcase" in destruct x eqn:H
  | |- context [JS.render ?x] =>
      let H := fresh "Hcase" in destruct x eqn:H
  | |- context [String.eqb ?a ?b] =>
      let H := fresh "Heqb" in destruct (String.eqb a b) eqn:H
  end; wsimpl.

(** ** Arrays *)

Section Arrays.
Context {A : Type}.
Implicit Types (p : A → bool) (l : list A).

Lemma findIndex_bounds p l :
  -1 ≤ JS.findIndex p l < Z.of_nat (length l).
Proof.
  induction l as [|x l IH]; cbn [JS.findIndex length]; [lia|].
  destruct (p x); [lia|].
  destruct (Z.ltb_spec (JS.findIndex p l) 0); lia.
Qed.

(** No element satisfies [p] exactly when the search answers [-1]. *)
Lemma findIndex_miss p l :
  JS.findIndex p l < 0 ↔ Forall (λ x, p x = false) l.
Proof.
  induction l as [|x l IH]; cbn.
  - split; [constructor|lia].
  - destruct (p x) eqn:Hx.
    + split; [lia|]. intros [? _]%Forall_cons. congruence.
    + pose proof (findIndex_bounds p l).
      destruct (JS.findIndex p l <? 0) eqn:E.
      * apply Z.ltb_lt in E. split; [|lia].
        intros _. constructor; [done|]. by apply IH.
      * apply Z.ltb_ge in E. split; [lia|].
        intros [_ Hl%IH]%Forall_cons. lia.
Qed.

Lemma findIndex_app p l1 l2 :
  JS.findIndex p (l1 ++ l2) =
    if JS.findIndex p l1 <? 0
    then if JS.findIndex p l2 <? 0 then -1
         else Z.of_nat (length l1) + JS.findIndex p l2
    else JS.findIndex p l1.
Proof.
  induction l1 as [|x l1 IH].
  - cbn [app JS.findIndex length]. pose proof (findIndex_bounds p l2).
    destruct (Z.ltb_spec (JS.findIndex p l2) 0); cbn; lia.
  - cbn [app JS.findIndex length]. destruct (p x); [done|].
    rewrite IH. pose proof (findIndex_bounds p l1).
    pose proof (findIndex_bounds p l2).
    destruct (JS.findIndex p l1 <? 0) eqn:E1;
      destruct (JS.findIndex p l2 <? 0) eqn:E2;
      repeat match goal with
             | H : (_ <? _) = true |- _ => apply Z.ltb_lt in H
             | H : (_ <? _) = false |- _ => apply Z.ltb_ge in H
             | |- context [?a <? ?b] => destruct (Z.ltb_spec a b)
             end; lia.
Qed.

End Arrays.

(** ** Deduplication of the store menu *)

Section Dedup.
Implicit Types (rows pre todo : list StoreMenuItem) (seen : list Z).

Lemma same_menu_id_miss item pre :
  Forall (λ t, same_menu_id item t = false) pre
  ↔ item_menu_id item ∉ map item_menu_id pre.
Proof.
  unfold same_menu_id. induction pre as [|t pre IH]; cbn.
  - split; [intros _; apply not_elem_of_nil|constructor].
  - rewrite Forall_cons, not_elem_of_cons, IH, Z.eqb_neq. intuition congruence.
Qed.

(** The callback of the source keeps the row at [index] exactly when no
    earlier row of the array has its [menu_id]. *)
Lemma keeps_first_only pre item rest :
  (Z.of_nat (length pre)
     =? JS.findIndex (same_menu_id item) (pre ++ item :: rest))
  = bool_decide (item_menu_id item ∉ map item_menu_id pre).
Proof.
  assert (same_menu_id item item = true) as Hself by apply Z.eqb_refl.
  rewrite findIndex_app. cbn [JS.findIndex]. rewrite Hself. cbn.
  pose proof (findIndex_bounds (same_menu_id item) pre) as Hb.
  destruct (Z.ltb_spec (JS.findIndex (same_menu_id item) pre) 0) as [Hlt|Hge].
  - rewrite bool_decide_eq_true_2.
    + apply Z.eqb_eq. lia.
    + apply same_menu_id_miss, findIndex_miss. lia.
  - rewrite bool_decide_eq_false_2.
    + apply Z.eqb_neq. lia.
    + rewrite <- same_menu_id_miss, <- findIndex_miss. lia.
Qed.

Lemma filter_from_first_occurrences todo : ∀ pre seen,
  (∀ k, k ∈ seen ↔ k ∈ map item_menu_id pre) →
  JS.filter_from
    (λ item index self, index =? JS.findIndex (same_menu_id item) self)
    (Z.of_nat (length pre)) todo (pre ++ todo)
  = Spec.first_occurrences seen todo.
Proof.
  induction todo as [|item rest IH]; intros pre seen Hseen; [done|].
  cbn [JS.filter_from Spec.first_occurrences].
  rewrite keeps_first_only.
  replace (Z.of_nat (length pre) + 1) with (Z.of_nat (length (pre ++ [item])))
    by (rewrite length_app; cbn; lia).
  replace (pre ++ item :: rest) with ((pre ++ [item]) ++ rest)
    by (by rewrite <- app_assoc).
  destruct (decide (item_menu_id item ∈ seen)) as [Hin|Hout].
  - rewrite (bool_decide_eq_true_2 _ Hin).
    rewrite bool_decide_eq_false_2 by (rewrite <- Hseen; tauto).
    apply IH. intros k. rewrite map_app, elem_of_app, <- Hseen. cbn.
    rewrite list_elem_of_singleton. intuition (subst; auto).
  - rewrite (bool_decide_eq_false_2 _ Hout).
    rewrite bool_decide_eq_true_2 by (by rewrite <- Hseen).
    f_equal. apply IH. intros k.
    rewrite map_app, elem_of_app, elem_of_cons, <- Hseen. cbn.
    rewrite list_elem_of_singleton. intuition (subst; auto).
Qed.

(** The filter of the source computes the deduplication of the
    specification. *)
Lemma uniqueMenuItems_first_occurrences rows :
  MenuItems.uniqueMenuItems rows = Spec.first_occurrences [] rows.
Proof.
  unfold MenuItems.uniqueMenuItems, JS.filter.
  apply (filter_from_first_occurrences rows [] []). done.
Qed.

Lemma first_occurrences_fresh rows : ∀ seen r,
  r ∈ Spec.first_occurrences seen rows → item_menu_id r ∉ seen.
Proof.
  induction rows as [|x rows IH]; intros seen r; cbn.
  - by intros ?%elem_of_nil.
  - case_bool_decide as Hx; [by apply IH|].
    intros [->|Hr%IH]%elem_of_cons; [done|].
    by apply not_elem_of_cons in Hr as [_ ?].
Qed.

Lemma first_occurrences_NoDup rows : ∀ seen,
  NoDup (map item_menu_id (Spec.first_occurrences seen rows)).
Proof.
  induction rows as [|x rows IH]; intros seen; cbn; [constructor|].
  case_bool_decide as Hx; [apply IH|].
  cbn. constructor; [|apply IH].
  intros (r & Hid & Hr%first_occurrences_fresh)%list_elem_of_fmap.
  apply Hr. rewrite <- Hid. left.
Qed.

Lemma first_occurrences_sublist rows : ∀ seen,
  sublist (Spec.first_occurrences seen rows) rows.
Proof.
  induction rows as [|x rows IH]; intros seen; cbn; [constructor|].
  case_bool_decide; [apply sublist_cons|apply sublist_skip]; apply IH.
Qed.

Lemma first_occurrences_complete rows : ∀ seen r,
  r ∈ rows → item_menu_id r ∉ seen →
  item_menu_id r ∈ map item_menu_id (Spec.first_occurrences seen rows).
Proof.
  induction rows as [|x rows IH]; intros seen r; cbn.
  - by intros ?%elem_of_nil.
  - intros [->|Hr]%elem_of_cons Hseen.
    + rewrite bool_decide_eq_false_2 by done. cbn. left.
    + case_bool_decide as Hx; [by apply IH|].
      cbn. destruct (decide (item_menu_id r = item_menu_id x)) as [->|Hne].
      * left.
      * right. apply IH; [done|]. rewrite not_elem_of_cons. done.
Qed.

(** A kept row is the first row of the fetch with its [menu_id]. *)
Lemma first_occurrences_first rows : ∀ seen r,
  r ∈ Spec.first_occurrences seen rows →
  JS.find (same_menu_id r) rows = Some r.
Proof.
  induction rows as [|x rows IH]; intros seen r; cbn.
  - by intros ?%elem_of_nil.
  - unfold same_menu_id at 1.
    case_bool_decide as Hx.
    + intros Hr. pose proof (first_occurrences_fresh _ _ _ Hr) as Hfresh.
      destruct (Z.eqb_spec (item_menu_id x) (item_menu_id r)) as [E|_];
        [congruence|by eapply IH].
    + intros [->|Hr]%elem_of_cons; [by rewrite Z.eqb_refl|].
      pose proof (first_occurrences_fresh _ _ _ Hr) as Hfresh.
      apply not_elem_of_cons in Hfresh as [Hne _].
      destruct (Z.eqb_spec (item_menu_id x) (item_menu_id r)) as [E|_];
        [congruence|by eapply IH].
Qed.

End Dedup.

(** ** The store menu: listing *)

Lemma transform_menuId menuCsvs kept :
  map MenuItems.menuId (map (MenuItems.transform menuCsvs) kept)
  = map item_menu_id kept.
Proof. rewrite map_map. by apply map_ext. Qed.

Lemma uniqueMenuItems_records menuCsvs rows :
  let kept := Spec.first_occurrences [] rows in
  let recs := map (MenuItems.transform menuCsvs) (MenuItems.uniqueMenuItems rows) in
  recs = map (MenuItems.transform menuCsvs) kept
  ∧ NoDup (map MenuItems.menuId recs)
  ∧ sublist kept rows
  ∧ (∀ r, r ∈ kept → JS.find (same_menu_id r) rows = Some r)
  ∧ (∀ r, r ∈ rows → item_menu_id r ∈ map MenuItems.menuId recs)
  ∧ length recs = length kept.
Proof.
  cbn zeta. rewrite uniqueMenuItems_first_occurrences, transform_menuId.
  split_and!.
  - done.
  - apply first_occurrences_NoDup.
  - apply first_occurrences_sublist.
  - apply first_occurrences_first.
  - intros r Hr. apply first_occurrences_complete; [done|apply not_elem_of_nil].
  - by rewrite length_map.
Qed.

(** C7.  Whenever [GET /menu-items] succeeds with data, the data is the
    rows of the caller's store, deduplicated by [menu_id] and transformed
    one by one: no two records share a [menu_id]; the kept rows are a
    subsequence of the fetched rows, in fetch order; a kept row is the
    first fetched row with its [menu_id]; every fetched [menu_id] is
    represented; and there is one record for each kept row. *)
Theorem listStoreMenu_deduplicates w recs :
  json <$> response (MenuItems.GET w)
    = Some (MenuItems.SuccessResponse true None (Some recs)) →
  ∃ s p store menuCsvs,
    cookies w = Some s
    ∧ Profiles (db w) !! user_id s = Some p
    ∧ company_id p = Some store
    ∧ let rows :=
        List.filter (λ row, String.eqb (store_id row) store) (StoreItems (db w)) in
      let kept := Spec.first_occurrences [] rows in
      recs = map (MenuItems.transform menuCsvs) kept
      ∧ NoDup (map MenuItems.menuId recs)
      ∧ sublist kept rows
      ∧ (∀ r, r ∈ kept → JS.find (same_menu_id r) rows = Some r)
      ∧ (∀ r, r ∈ rows → item_menu_id r ∈ map MenuItems.menuId recs)
      ∧ length recs = length kept.
Proof.
  destruct w as [c a d n e cc l].
  unfold response, MenuItems.GET, MenuItems.store_scope, promise_all,
    Supabase.auth_getSession, Supabase.Profiles_select_single,
    Supabase.StoreItem_select, Supabase.MenuCsv_select.
  run_handler.
  repeat case_step; try discriminate.
  all: intros [= <-].
  all: do 4 eexists.
  all: split; [reflexivity|split; [eassumption|split; [eassumption|]]].
  all: apply uniqueMenuItems_records.
Qed.

(** A fetch that holds the [menu_id] 1 twice. *)
Lemma listStoreMenu_deduplicates_witness :
  let recs :=
    [ {| MenuItems.out_id := 10; MenuItems.menuId := 1;
         MenuItems.out_menu_code := Some "R-01"; MenuItems.out_name := "Ramen";
         MenuItems.out_price := Qmake 9 1; MenuItems.isActive := true |};
      {| MenuItems.out_id := 11; MenuItems.menuId := 2;
         MenuItems.out_menu_code := None; MenuItems.out_name := "Gyoza";
         MenuItems.out_price := Qmake 9 1; MenuItems.isActive := true |} ] in
  json <$> response (MenuItems.GET Sample.menu_world)
    = Some (MenuItems.SuccessResponse true None (Some recs))
  ∧ NoDup (map MenuItems.menuId recs).
Proof.
  cbn zeta. split; [reflexivity|].
  destruct (listStoreMenu_deduplicates Sample.menu_world _ eq_refl)
    as (s & p & store & menuCsvs & _ & _ & _ & H).
  cbn zeta in H. destruct H as (_ & Hnodup & _). exact Hnodup.
Defined.

(** What passing the session and store checks means: the cookies resolve
    to a session, the profile of its user names a store that is neither
    empty nor "admin", and the checks changed nothing. *)
Lemma store_scope_passes w store w1 :
  MenuItems.store_scope w = (Returned (inr store), w1) →
  ∃ s p,
    cookies w = Some s
    ∧ Profiles (db w) !! user_id s = Some p
    ∧ company_id p = Some store
    ∧ store ≠ "" ∧ store ≠ "admin"
    ∧ db w1 = db w ∧ auth w1 = auth w ∧ now w1 = now w
    ∧ log w1 = log w ++ [(GetSession, Ok);
                         (ProfilesSelectSingle "company_id" (user_id s), Ok)].
Proof.
  destruct w as [c a d n e cc l].
  unfold MenuItems.store_scope, Supabase.auth_getSession,
    Supabase.Profiles_select_single.
  run_handler.
  repeat case_step; try discriminate.
  all: intros [= <- <-]; do 2 eexists; cbn.
  all: rewrite <- ?app_assoc; cbn [app].
  all: split_and!; try done; by apply String.eqb_neq.
Qed.

(** ** The store menu: updating *)




(** ** The catalog: updating *)

(** C6 (amended).  When the store answers both statements of
    [PUT /menu], the handler reports success, with the count of rows
    affected, exactly when the lookup by name finds a row and that count
    is not 0; otherwise, that is when no row has the name or when the
    count is 0, it answers 404. *)
Theorem updateMenuItem_success_needs_a_count w body :
  hd Quiet (env w) = Quiet →
  hd Quiet (tl (env w)) = Quiet →
  let n := Menu.body_name body in
  let found := JS.find (λ row, String.eqb (name row) n) (MenuItems (db w)) in
  let affected :=
    Z.of_nat (length (List.filter (λ row, String.eqb (name row) n)
                        (foldl apply_writer (MenuItems (db w)) (concurrent w)))) in
  response (Menu.PUT (Some body) w)
  = Some (if bool_decide (is_Some found) && negb (affected =? 0)
          then Menu.createSuccessResponse (Menu.SuccessResponse true affected)
          else Menu.createErrorResponse "Available menu item not found" 404).
Proof.
  intros H1 H2. cbn zeta.
  unfold response, Menu.PUT, promise_all, Prisma.menuItem_findFirst,
    Prisma.menuItem_updateMany, Prisma.unwrap, Date_now, request_json.
  destruct w as [c a d t e cc l]; cbn in H1, H2.
  run_handler. rewrite H1. wsimpl. rewrite H2. wsimpl.
  destruct (JS.find _ (MenuItems d)) as [row|]; wsimpl; [|done].
  by destruct (Z.of_nat _ =? 0).
Qed.

(** A price update of the one row named "Ramen". *)
Lemma updateMenuItem_success_needs_a_count_witness :
  hd Quiet (env Sample.catalog_world) = Quiet
  ∧ hd Quiet (tl (env Sample.catalog_world)) = Quiet
  ∧ response (Menu.PUT (Some Sample.price_only) Sample.catalog_world)
    = Some (Menu.createSuccessResponse (Menu.SuccessResponse true 1)).
Proof.
  split; [reflexivity|split; [reflexivity|]].
  exact (updateMenuItem_success_needs_a_count
           Sample.catalog_world Sample.price_only eq_refl eq_refl).
Defined.

(** C6, as stated, fails: the lookup finds the row named "Ramen", another
    client deletes it before the update runs, the update affects 0 rows,
    and the handler answers 404 instead of a success with count 0. *)
Lemma updateMenuItem_found_but_zero_rows :
  (Prisma.menuItem_findFirst "Ramen" Sample.race_world).1
  = Returned (Some Sample.ramen)
  ∧ response (Menu.PUT (Some Sample.price_only) Sample.race_world)
    = Some (Menu.createErrorResponse "Available menu item not found" 404).
Proof. split; reflexivity. Qed.

Lemma apply_MenuItemUpdate_price_only n p t row :
  let u := {| data_status := None; data_price := Some p; data_K := None;
              data_other := None; data_updated_at := t |} in
  let row' := Prisma.apply_MenuItemUpdate u n row in
  menu_id row' = menu_id row
  ∧ name row' = name row
  ∧ status row' = status row
  ∧ description row' = description row
  ∧ K row' = K row
  ∧ other row' = other row
  ∧ (name row = n → price row' = p ∧ updated_at row' = t)
  ∧ (name row ≠ n → row' = row).
Proof.
  cbn zeta. unfold Prisma.apply_MenuItemUpdate.
  destruct (String.eqb_spec (name row) n); cbn; split_and!; done.
Qed.

(** C10 (amended).  A [PUT /menu] call whose patch contains only [price],
    run while no other client writes to the catalog and answered by the
    store, leaves the table row for row as it was, except that the rows
    with the given name get the new [price] and, as [updated_at], the
    time of the call: [menu_id], [name], [status], [description], [K] and
    [other] of every row are unchanged, and rows with another name are
    unchanged altogether. *)
Theorem updateMenuItem_price_only_frame w body p :
  Menu.body_isActive body = None →
  Menu.body_price body = Some p →
  Menu.body_K body = None →
  Menu.body_other body = None →
  concurrent w = [] →
  hd Quiet (tl (env w)) = Quiet →
  let n := Menu.body_name body in
  let after := MenuItems (db (Menu.PUT (Some body) w).2) in
  length after = length (MenuItems (db w))
  ∧ ∀ (i : nat) row, MenuItems (db w) !! i = Some row →
      ∃ row', after !! i = Some row'
        ∧ menu_id row' = menu_id row
        ∧ name row' = name row
        ∧ status row' = status row
        ∧ description row' = description row
        ∧ K row' = K row
        ∧ other row' = other row
        ∧ (name row = n → price row' = p ∧ updated_at row' = now w)
        ∧ (name row ≠ n → row' = row).
Proof.
  intros Ha Hp HK Ho Hcc Hq. cbn zeta.
  assert (MenuItems (db (Menu.PUT (Some body) w).2)
          = map (Prisma.apply_MenuItemUpdate
                   {| data_status := None; data_price := Some p; data_K := None;
                      data_other := None; data_updated_at := now w |}
                   (Menu.body_name body))
              (MenuItems (db w))) as ->.
  { unfold Menu.PUT, promise_all, Prisma.menuItem_findFirst,
      Prisma.menuItem_updateMany, Prisma.unwrap, Date_now, request_json.
    destruct w as [c a d t e cc l]; cbn in Hcc, Hq. subst cc.
    run_handler. rewrite Ha, Hp, HK, Ho.
    destruct e as [|f e]; [|destruct f]; cbn in Hq; wsimpl;
      rewrite ?Hq; wsimpl;
      repeat match goal with
             | |- context [match ?x with Some _ => _ | None => _ end] =>
                 destruct x; wsimpl
             | |- context [if ?b then _ else _] => destruct b; wsimpl
             end; reflexivity. }
  split; [by rewrite length_map|].
  intros i row Hi. eexists. split.
  - rewrite list_lookup_fmap, Hi. reflexivity.
  - apply apply_MenuItemUpdate_price_only.
Qed.

(** C10, as stated, fails: a patch with only [price] also rewrites
    [updated_at] of the matched row. *)
Lemma updateMenuItem_price_only_touches_updated_at :
  MenuItems (db Sample.catalog_world) = [Sample.ramen; Sample.gyoza]
  ∧ MenuItems (db (Menu.PUT (Some Sample.price_only) Sample.catalog_world).2)
    = [ {| menu_id := 1; name := "Ramen"; price := Qmake 25 2; status := true;
           description := Some "Shoyu"; K := false; other := None;
           updated_at := 1000 |};
        Sample.gyoza ]
  ∧ updated_at Sample.ramen = 5.
Proof. split_and!; reflexivity. Qed.

(** The same price update, seen from the table. *)
Lemma updateMenuItem_price_only_frame_witness :
  Menu.body_isActive Sample.price_only = None
  ∧ Menu.body_price Sample.price_only = Some (Qmake 25 2)
  ∧ Menu.body_K Sample.price_only = None
  ∧ Menu.body_other Sample.price_only = None
  ∧ concurrent Sample.catalog_world = []
  ∧ hd Quiet (tl (env Sample.catalog_world)) = Quiet
  ∧ length (MenuItems (db (Menu.PUT (Some Sample.price_only)
                             Sample.catalog_world).2))
    = length (MenuItems (db Sample.catalog_world)).
Proof.
  do 6 (split; [reflexivity|]).
  destruct (updateMenuItem_price_only_frame Sample.catalog_world Sample.price_only
              (Qmake 25 2) eq_refl eq_refl eq_refl eq_refl eq_refl eq_refl)
    as [Hlen _].
  exact Hlen.
Defined.

(** ** Users: deleting *)

(** Whatever the environment does, deleting an administrator issues one
    call, the load of the target profile, and changes nothing. *)
Lemma deleteUser_admin_never_deleted userId w p :
  Profiles (db w) !! userId = Some p →
  role p = "admin" →
  ∃ o,
    log (UserById.DELETE userId w).2
    = log w ++ [(ProfilesSelectSingle "role" userId, o)]
    ∧ auth (UserById.DELETE userId w).2 = auth w
    ∧ db (UserById.DELETE userId w).2 = db w.
Proof.
  destruct w as [c a d n e cc l]; cbn. intros Hp Hr.
  unfold UserById.DELETE, Supabase.Profiles_select_single. run_handler.
  destruct e as [|[] e]; wsimpl; rewrite ?Hp; wsimpl; rewrite ?Hr; wsimpl.
  all: eexists; split_and!; reflexivity.
Qed.

(** C2.  When the target profile exists with the role "admin" and the
    store answers the load of that profile, [DELETE /users/{userId}]
    answers 403, the load is the only call it issues (neither delete is
    invoked), and the identities and the tables are left as they were: the
    profile and the identity of the target are still resolvable. *)
Theorem deleteUser_admin_is_refused userId w p :
  Profiles (db w) !! userId = Some p →
  role p = "admin" →
  hd Quiet (env w) = Quiet →
  response (UserById.DELETE userId w)
  = Some (UserById.createErrorResponse "本部ユーザーは削除できません" 403 None)
  ∧ log (UserById.DELETE userId w).2
    = log w ++ [(ProfilesSelectSingle "role" userId, Ok)]
  ∧ auth (UserById.DELETE userId w).2 = auth w
  ∧ db (UserById.DELETE userId w).2 = db w
  ∧ Profiles (db (UserById.DELETE userId w).2) !! userId = Some p
  ∧ auth (UserById.DELETE userId w).2 !! userId = auth w !! userId.
Proof.
  destruct w as [c a d n e cc l]; cbn. intros Hp Hr Hq.
  unfold response, UserById.DELETE, Supabase.Profiles_select_single. run_handler.
  rewrite Hq; wsimpl. rewrite Hp; wsimpl. rewrite Hr; wsimpl.
  split_and!; done.
Qed.

(** Headquarters cannot be deleted. *)
Lemma deleteUser_admin_is_refused_witness :
  Profiles (db Sample.users_world) !! "hq" = Some Sample.hq_profile
  ∧ role Sample.hq_profile = "admin"
  ∧ hd Quiet (env Sample.users_world) = Quiet
  ∧ response (UserById.DELETE "hq" Sample.users_world)
    = Some (UserById.createErrorResponse "本部ユーザーは削除できません" 403 None)
  ∧ auth (UserById.DELETE "hq" Sample.users_world).2 = auth Sample.users_world
  ∧ db (UserById.DELETE "hq" Sample.users_world).2 = db Sample.users_world.
Proof.
  destruct (deleteUser_admin_is_refused "hq" Sample.users_world Sample.hq_profile
              eq_refl eq_refl eq_refl) as (Hresp & _ & Hauth & Hdb & _).
  split_and!; [reflexivity..|exact Hresp|exact Hauth|exact Hdb].
Defined.

(** C3.  [DELETE /users/{userId}] does not look at the caller.  Run with
    any other cookies it gives the same response and has the same effects;
    the first call it issues is the load of the target profile, and it
    issues nothing but that load and the two deletes of the target (no
    session lookup, no load of the caller's profile); and it answers 403
    exactly when the store answers that load with a target whose role is
    "admin". *)
Theorem deleteUser_ignores_the_caller userId w c :
  (UserById.DELETE userId (with_cookies c w)).1 = (UserById.DELETE userId w).1
  ∧ (UserById.DELETE userId (with_cookies c w)).2
    = with_cookies c (UserById.DELETE userId w).2
  ∧ (∃ o rest,
       log (UserById.DELETE userId w).2
       = log w ++ (ProfilesSelectSingle "role" userId, o) :: rest
       ∧ Forall (λ ev : event, ev.1 = AuthAdminDeleteUser userId
                               ∨ ev.1 = ProfilesDelete userId) rest)
  ∧ (http_status <$> response (UserById.DELETE userId w) = Some 403
     ↔ hd Quiet (env w) = Quiet
       ∧ ∃ p, Profiles (db w) !! userId = Some p ∧ role p = "admin").
Proof.
  destruct w as [c0 a d n e cc l]; cbn.
  unfold response, UserById.DELETE, Supabase.Profiles_select_single,
    Supabase.auth_admin_deleteUser, Supabase.Profiles_delete.
  run_handler.
  repeat case_step.
  all: repeat split; try reflexivity.
  all: rewrite <- ?app_assoc; cbn.
  all: try (do 2 eexists; split; [reflexivity|]; repeat constructor; cbn; auto; fail).
  all: try (eexists; split; [reflexivity|]; by apply String.eqb_eq).
  all: try (intros [? (p & [= <-] & Hr)]; try discriminate;
            apply String.eqb_neq in Heqb; congruence).
  all: try (intros [? (p & [=] & Hr)]; discriminate).
  all: try discriminate.
Qed.

(** ** Users: updating *)

(** C4 (amended).  When [PATCH /users/{userId}] succeeds, the profile it
    returns is the row now stored for [userId], written with a payload
    whose [store_name] is null unless the role given in the patch is
    "store"; so the stored [store_name] is null unless the patch itself
    carries [role = "store"], in which case it is the name of the patch,
    or the previous name when the patch has none.  The existing role plays
    no part: a patch that omits [role] sets [store_name] to null. *)
Theorem updateUser_store_name_follows_patch_role userId body w updatedProfile :
  json <$> response (UserById.PATCH userId (Some body) w)
    = Some (UserById.SuccessResponse true (Some updatedProfile)) →
  ∃ old updateData,
    Profiles (db w) !! userId = Some old
    ∧ Profiles (db (UserById.PATCH userId (Some body) w).2) !! userId
      = Some updatedProfile
    ∧ last (log (UserById.PATCH userId (Some body) w).2)
      = Some (ProfilesUpdate userId updateData, Ok)
    ∧ upd_store_name updateData
      = (if bool_decide (UserById.body_role body = Some "store")
         then JS.of_option (UserById.body_store_name body)
         else JS.null)
    ∧ store_name updatedProfile
      = (if bool_decide (UserById.body_role body = Some "store")
         then match UserById.body_store_name body with
              | Some s => Some s
              | None => store_name old
              end
         else None).
Proof.
  destruct w as [c a d n e cc l].
  unfold response, UserById.PATCH, Supabase.auth_getSession,
    Supabase.Profiles_select_single, Supabase.auth_admin_updateUserById,
    Supabase.Profiles_update_single, request_json.
  run_handler.
  repeat case_step; try discriminate.
  all: intros [= <-]; do 2 eexists.
  all: split; [reflexivity|].
  all: split; [apply lookup_insert_eq|].
  all: split; [apply last_snoc|].
  all: split; [reflexivity|].
  all: destruct (UserById.body_role body); cbn in *; simplify_eq; cbn.
  all: by repeat case_bool_decide.
Qed.

(** A patch that only names a group, applied to a store user. *)
Lemma updateUser_store_name_follows_patch_role_witness :
  json <$> response (UserById.PATCH "u1" (Some Sample.group_only) Sample.users_world)
    = Some (UserById.SuccessResponse true
              (Some {| id := "u1"; company_code := "S1"; company_id := Some "S1";
                       role := "store"; store_name := None; group := Some "B" |}))
  ∧ Profiles (db (UserById.PATCH "u1" (Some Sample.group_only) Sample.users_world).2)
      !! "u1"
    = Some {| id := "u1"; company_code := "S1"; company_id := Some "S1";
              role := "store"; store_name := None; group := Some "B" |}.
Proof.
  split; [reflexivity|].
  destruct (updateUser_store_name_follows_patch_role
              "u1" Sample.group_only Sample.users_world _ eq_refl)
    as (old & updateData & _ & Hstored & _).
  exact Hstored.
Defined.

(** C4, as stated, fails: the target has the role "store" and a store
    name, the patch omits [role] (so the effective role is "store" and the
    name should stay), and the update nulls the name. *)
Lemma updateUser_omitted_role_clears_store_name :
  Profiles (db Sample.users_world) !! "u1" = Some Sample.shop_profile
  ∧ Spec.effective_role (UserById.body_role Sample.group_only) Sample.shop_profile
    = "store"
  ∧ Spec.store_name_after (UserById.body_role Sample.group_only)
      (UserById.body_store_name Sample.group_only) Sample.shop_profile
    = Some "Shop A"
  ∧ ∃ updatedProfile,
      json <$> response (UserById.PATCH "u1" (Some Sample.group_only) Sample.users_world)
        = Some (UserById.SuccessResponse true (Some updatedProfile))
      ∧ store_name updatedProfile = None.
Proof. split_and!; try reflexivity. eexists. split; reflexivity. Qed.

(** ** Users: creating *)

Local Arguments fresh_string : simpl never.

Lemma log_unchanged (l evs : list event) : l = l ++ evs → evs = [].
Proof. intros H. apply (app_inv_head l). by rewrite app_nil_r. Qed.

(** The events of a run, read off the log it leaves. *)
Ltac events_of H :=
  first [apply app_inv_head in H | apply log_unchanged in H]; subst.

Ltac member_of H :=
  repeat (apply elem_of_cons in H as [H|H]; [try discriminate|]);
  try (apply elem_of_nil in H; contradiction).

(** C1 (amended).  In every run of [POST /users] in which the insertion
    of the profile fails, whatever made it fail, the insertion resolved
    with an error and did not throw; the session and the administrator
    check passed, the identity was created in this run (its id was not
    held before), and the last call issued is the delete of that identity;
    the tables are left as they were.  When the delete succeeds the
    answer is 400 with the message of the insert error (or the default
    text when it is empty) and the identities are those held before the
    call.  The result of the delete is not checked: when the provider
    refuses it the answer is the same 400 (and 500 should the call
    throw), and the new identity stays with the provider as it was
    created.  No profile was written for it: it is without a profile
    unless a row already held its id before the call. *)
Theorem createUser_compensates request w row o_insert evs :
  log (Users.POST request w).2 = log w ++ evs →
  (ProfilesInsert row, o_insert) ∈ evs →
  o_insert ≠ Ok →
  ∃ s companyCode pw r m o,
    o_insert = Failed m
    ∧ evs = [ (GetSession, Ok);
              (ProfilesSelectSingle "role" (user_id s), Ok);
              (AuthAdminCreateUser (String.append companyCode "@example.com")
                 pw companyCode r, Ok);
              (ProfilesInsert row, Failed m);
              (AuthAdminDeleteUser (id row), o) ]
    ∧ auth w !! id row = None
    ∧ db (Users.POST request w).2 = db w
    ∧ match o with
      | Ok =>
          response (Users.POST request w)
          = Some (Users.createErrorResponse
                    (JS.or_else m "プロファイルの作成に失敗しました") 400)
          ∧ auth (Users.POST request w).2 = auth w
      | Failed _ =>
          response (Users.POST request w)
          = Some (Users.createErrorResponse
                    (JS.or_else m "プロファイルの作成に失敗しました") 400)
          ∧ auth (Users.POST request w).2
            = <[id row := {| email := String.append companyCode "@example.com";
                             password := pw;
                             meta_company_code := companyCode;
                             meta_role := r |}]> (auth w)
          ∧ Profiles (db (Users.POST request w).2) !! id row
            = Profiles (db w) !! id row
      | Threw =>
          response (Users.POST request w)
          = Some (Users.createErrorResponse "サーバーエラーが発生しました" 500)
          ∧ auth (Users.POST request w).2
            = <[id row := {| email := String.append companyCode "@example.com";
                             password := pw;
                             meta_company_code := companyCode;
                             meta_role := r |}]> (auth w)
          ∧ Profiles (db (Users.POST request w).2) !! id row
            = Profiles (db w) !! id row
      end.
Proof.
  destruct w as [c a d n e cc l].
  unfold response, Users.POST, Supabase.auth_getSession,
    Supabase.Profiles_select_single, Supabase.auth_admin_createUser,
    Supabase.Profiles_insert, Supabase.auth_admin_deleteUser, request_json.
  destruct request as [body|]; run_handler.
  all: repeat case_step.
  all: rewrite <- ?app_assoc; cbn [app].
  all: intros Hl Hin Hfailed; events_of Hl; member_of Hin.
  all: simplify_eq.
  all: try match goal with
           | H : <[_:=_]> _ !! _ = None |- _ =>
               rewrite lookup_insert_eq in H; discriminate
           end.
  all: do 6 eexists.
  all: split; [reflexivity|].
  all: split; [reflexivity|]; cbn.
  all: split; [apply fresh_string_fresh|].
  all: split; [reflexivity|].
  all: split; [reflexivity|].
  all: rewrite ?lookup_insert_eq, ?delete_insert_eq; eauto.
  all: apply delete_id, fresh_string_fresh.
Qed.

(** The run in which the store refuses the profile and the provider
    deletes the identity. *)
Lemma createUser_compensates_witness :
  let evs :=
    [ (GetSession, Ok);
      (ProfilesSelectSingle "role" "hq", Ok);
      (AuthAdminCreateUser "S2@example.com" "pw" "S2" "store", Ok);
      (ProfilesInsert Sample.new_store_profile,
       Failed "permission denied for table Profiles");
      (AuthAdminDeleteUser "user", Ok) ] in
  log (Users.POST (Some Sample.new_store_user) Sample.insert_fails_world).2
  = log Sample.insert_fails_world ++ evs
  ∧ (ProfilesInsert Sample.new_store_profile,
     Failed "permission denied for table Profiles") ∈ evs
  ∧ auth Sample.insert_fails_world !! "user" = None
  ∧ db (Users.POST (Some Sample.new_store_user) Sample.insert_fails_world).2
    = db Sample.insert_fails_world.
Proof.
  cbn zeta.
  assert (log (Users.POST (Some Sample.new_store_user) Sample.insert_fails_world).2
          = log Sample.insert_fails_world ++
              [ (GetSession, Ok);
                (ProfilesSelectSingle "role" "hq", Ok);
                (AuthAdminCreateUser "S2@example.com" "pw" "S2" "store", Ok);
                (ProfilesInsert Sample.new_store_profile,
                 Failed "permission denied for table Profiles");
                (AuthAdminDeleteUser "user", Ok) ]) as Hlog by reflexivity.
  assert ((ProfilesInsert Sample.new_store_profile,
           Failed "permission denied for table Profiles")
          ∈ [ (GetSession, Ok);
              (ProfilesSelectSingle "role" "hq", Ok);
              (AuthAdminCreateUser "S2@example.com" "pw" "S2" "store", Ok);
              (ProfilesInsert Sample.new_store_profile,
               Failed "permission denied for table Profiles");
              (AuthAdminDeleteUser "user", Ok) ]) as Hin
    by (do 3 apply list_elem_of_further; apply list_elem_of_here).
  assert (Failed "permission denied for table Profiles" ≠ Ok) as Hfailed
    by discriminate.
  destruct (createUser_compensates _ _ _ _ _ Hlog Hin Hfailed)
    as (_ & _ & _ & _ & _ & _ & _ & _ & Hfresh & Hdb & _).
  split; [exact Hlog|]. split; [exact Hin|]. split; [exact Hfresh|exact Hdb].
Defined.

(** C1, as stated, fails: the identity is created, the insertion of the
    profile is refused, the provider refuses the compensating delete as
    well, and the handler still answers 400 while the new identity stays
    resolvable without a profile. *)
Lemma createUser_orphan_identity_can_persist :
  response (Users.POST (Some Sample.new_store_user) Sample.delete_fails_world)
  = Some (Users.createErrorResponse "permission denied for table Profiles" 400)
  ∧ log (Users.POST (Some Sample.new_store_user) Sample.delete_fails_world).2
    = [ (GetSession, Ok);
        (ProfilesSelectSingle "role" "hq", Ok);
        (AuthAdminCreateUser "S2@example.com" "pw" "S2" "store", Ok);
        (ProfilesInsert Sample.new_store_profile,
         Failed "permission denied for table Profiles");
        (AuthAdminDeleteUser "user", Failed "Database error deleting user") ]
  ∧ auth Sample.delete_fails_world !! "user" = None
  ∧ auth (Users.POST (Some Sample.new_store_user) Sample.delete_fails_world).2 !! "user"
    = Some {| email := "S2@example.com"; password := "pw";
              meta_company_code := "S2"; meta_role := "store" |}
  ∧ Profiles (db (Users.POST (Some Sample.new_store_user) Sample.delete_fails_world).2)
      !! "user" = None.
Proof. split_and!; reflexivity. Qed.

(** ** Ingredients *)

Lemma split_not_empty sep s : JS.split sep s ≠ [].
Proof.
  destruct s as [|ch s]; cbn; [done|].
  destruct (Ascii.eqb ch sep); [done|]. by destruct (JS.split sep s).
Qed.

(** Without the parameter the request is rejected before any call. *)
Lemma listIngredients_absent_weekDates w :
  Ingredients.GET {| Ingredients.weekDates_param := None |} w
  = (Returned (Ingredients.createErrorResponse
                 "Please provide week dates to fetch ingredients" 400), w).
Proof. reflexivity. Qed.

(** With the parameter, whatever its value, the answer is never 400: the
    array of dates has at least one element. *)
Lemma listIngredients_present_weekDates_never_400 s w :
  ∃ resp,
    response (Ingredients.GET {| Ingredients.weekDates_param := Some s |} w)
    = Some resp
    ∧ http_status resp ≠ 400.
Proof.
  destruct w as [c a d n e cc l].
  unfold response, Ingredients.GET, Supabase.auth_getSession,
    Supabase.Ingredient_select.
  cbn [Ingredients.weekDates_param].
  pose proof (split_not_empty ","%char s) as Hs.
  destruct (JS.split ","%char s) as [|d0 ds]; [done|]. clear Hs.
  run_handler.
  repeat case_step; eexists; (split; [reflexivity|]); cbn; lia.
Qed.

(** No request is answered 401: the session check of the handler tests an
    object that is always there. *)
Lemma listIngredients_never_401 request w :
  http_status <$> response (Ingredients.GET request w) ≠ Some 401.
Proof.
  destruct w as [c a d n e cc l], request as [[s|]]; [|by cbn].
  unfold response, Ingredients.GET, Supabase.auth_getSession,
    Supabase.Ingredient_select.
  cbn [Ingredients.weekDates_param].
  destruct (JS.split ","%char s) as [|d0 ds]; [by cbn|].
  run_handler.
  repeat case_step; cbn; discriminate.
Qed.

(** C8 fails on the code.  [GET /ingredients?weekDates=] has the
    parameter present and empty; splitting the empty string gives one
    empty date, the length check passes, the query is issued and the
    answer is a success with an empty data list, not a 400. *)
Theorem listIngredients_empty_weekDates_is_accepted :
  JS.split ","%char "" = [""]
  ∧ response (Ingredients.GET {| Ingredients.weekDates_param := Some "" |}
                Sample.kitchen_world)
    = Some {| http_status := 200; json := Ingredients.SuccessResponse true [] |}
  ∧ log (Ingredients.GET {| Ingredients.weekDates_param := Some "" |}
           Sample.kitchen_world).2
    = [(GetSession, Ok); (IngredientSelect "S1" [""], Ok)].
Proof. split_and!; reflexivity. Qed.

(** C9 fails on the code.  With a date and no session, the handler does
    not answer 401: it queries [Ingredient] for the store "undefined" and
    answers with a success. *)
Theorem listIngredients_without_session_queries :
  cookies Sample.anonymous_world = None
  ∧ response (Ingredients.GET {| Ingredients.weekDates_param := Some "2024-01-01" |}
                Sample.anonymous_world)
    = Some {| http_status := 200; json := Ingredients.SuccessResponse true [] |}
  ∧ log (Ingredients.GET {| Ingredients.weekDates_param := Some "2024-01-01" |}
           Sample.anonymous_world).2
    = [(GetSession, Ok); (IngredientSelect "undefined" ["2024-01-01"], Ok)].
Proof. split_and!; reflexivity. Qed.

(** The same request with the store user logged in. *)
Example listIngredients_with_session :
  response (Ingredients.GET {| Ingredients.weekDates_param := Some "2024-01-01" |}
              Sample.kitchen_world)
  = Some {| http_status := 200;
            json := Ingredients.SuccessResponse true
                      [Ingredients.selected Sample.flour] |}.
Proof. reflexivity. Qed.

(** * Further properties of the handlers *)

(** ** Stepping, continued *)

Ltac run_more :=
  unfold consult_store, try_catch, bind, ret, throw, external, consult,
    next_fault, record,
    nullable, request_json, Date_now;
  wsimpl.

(** Close a goal whose hypotheses say that a non-administrator passed the
    administrator check. *)
Ltac not_admin H :=
  exfalso; eapply H; [reflexivity|eassumption|]; by apply String.eqb_eq.

(** ** Users: creating *)

(** X1.  [POST /users] with [companyCode], [password] or [role] missing
    or empty answers 400 at once: no call is issued and the world is
    exactly as it was. *)
Theorem createUser_rejects_missing_fields body w :
  JS.truthy (Users.body_companyCode body)
  && JS.truthy (Users.body_password body)
  && JS.truthy (Users.body_role body) = false →
  Users.POST (Some body) w
  = (Returned (Users.createErrorResponse "必須項目が不足しています" 400), w).
Proof.
  intros H. unfold Users.POST, try_catch, bind, request_json, ret.
  destruct (JS.truthy (Users.body_companyCode body)),
    (JS.truthy (Users.body_password body)),
    (JS.truthy (Users.body_role body)); cbn in *; done.
Qed.

Lemma createUser_rejects_missing_fields_witness :
  JS.truthy (Users.body_companyCode
               {| Users.body_companyCode := Some "S5"; Users.body_password := Some "";
                  Users.body_role := Some "store"; Users.body_storeName := None;
                  Users.body_group := None |})
  && JS.truthy (Some "") && JS.truthy (Some "store") = false
  ∧ Users.POST
      (Some {| Users.body_companyCode := Some "S5"; Users.body_password := Some "";
               Users.body_role := Some "store"; Users.body_storeName := None;
               Users.body_group := None |}) Sample.users_world
    = (Returned (Users.createErrorResponse "必須項目が不足しています" 400),
       Sample.users_world).
Proof.
  split; [reflexivity|].
  apply createUser_rejects_missing_fields. reflexivity.
Defined.

(** When the caller is not an administrator, [POST /users] never answers
    200 and leaves the identities and the tables as they were. *)
Lemma createUser_only_by_admin request w :
  ¬ caller_is_admin w →
  auth (Users.POST request w).2 = auth w
  ∧ db (Users.POST request w).2 = db w
  ∧ ∃ st, http_status <$> response (Users.POST request w) = Some st
          ∧ (st = 400 ∨ st = 401 ∨ st = 403 ∨ st = 500).
Proof.
  intros Hna.
  assert (∀ s p, cookies w = Some s → Profiles (db w) !! user_id s = Some p →
                 role p = "admin" → False) as H.
  { intros s p ? ? ?. apply Hna. by exists s, p. }
  clear Hna. destruct w as [c a d n e cc l]; cbn in H.
  unfold response, Users.POST, Supabase.auth_getSession,
    Supabase.Profiles_select_single, Supabase.auth_admin_createUser,
    Supabase.Profiles_insert, Supabase.auth_admin_deleteUser.
  destruct request as [body|]; run_more.
  all: repeat first [not_admin H | case_step].
  all: split_and!; try reflexivity; eexists; (split; [reflexivity|]); auto.
Qed.

(** X2.  When [POST /users] answers with a success and a [userId], the
    caller is an administrator, no identity had the email of the new user,
    and that id was held neither by the provider nor by [Profiles]
    before; the provider now holds an identity under it with the email
    [companyCode@example.com], the password and the metadata of the
    request; and [Profiles] holds a row under the same id whose
    [store_name] is the requested one when the role is "store" and null
    otherwise.  Nothing else is changed. *)
Theorem createUser_success request w msg userId :
  json <$> response (Users.POST request w)
    = Some (Users.SuccessResponse true msg (Some userId) None) →
  ∃ body companyCode pw r,
    request = Some body
    ∧ Users.body_companyCode body = Some companyCode
    ∧ Users.body_password body = Some pw
    ∧ Users.body_role body = Some r
    ∧ caller_is_admin w
    ∧ (∀ i ident, auth w !! i = Some ident →
         email ident ≠ String.append companyCode "@example.com")
    ∧ auth w !! userId = None
    ∧ Profiles (db w) !! userId = None
    ∧ auth (Users.POST request w).2
      = <[userId := {| email := String.append companyCode "@example.com";
                       password := pw;
                       meta_company_code := companyCode;
                       meta_role := r |}]> (auth w)
    ∧ db (Users.POST request w).2
      = with_Profiles
          (<[userId := {| id := userId;
                          company_code := companyCode;
                          company_id := None;
                          role := r;
                          store_name :=
                            if String.eqb r "store"
                            then Users.body_storeName body else None;
                          group := Users.body_group body |}]>
             (Profiles (db w)))
          (db w).
Proof.
  destruct w as [c a d n e cc l].
  unfold response, caller_is_admin, Users.POST, Supabase.auth_getSession,
    Supabase.Profiles_select_single, Supabase.auth_admin_createUser,
    Supabase.Profiles_insert, Supabase.auth_admin_deleteUser.
  destruct request as [body|]; run_more; [|discriminate].
  repeat case_step; try discriminate.
  all: intros [= <- <-]; do 4 eexists.
  all: split; [reflexivity|]; do 3 (split; [eassumption|]).
  all: repeat match goal with
              | H : String.eqb ?x ?y = _ |- context [String.eqb ?x ?y] => rewrite H
              end.
  all: split_and!; try reflexivity; try eassumption.
  all: try apply fresh_string_fresh.
  all: try (do 2 eexists; split_and!;
            [reflexivity|eassumption|by apply String.eqb_eq]).
  all: intros i ident Hi Hmail.
  all: apply bool_decide_eq_false in Htaken; apply Htaken.
  all: by exists i, ident.
Qed.

Lemma createUser_success_witness :
  json <$> response (Users.POST (Some Sample.new_store_user) Sample.users_world)
    = Some (Users.SuccessResponse true (Some "ユーザーを作成しました") (Some "user") None)
  ∧ auth (Users.POST (Some Sample.new_store_user) Sample.users_world).2 !! "user"
    = Some {| email := "S2@example.com"; password := "pw";
              meta_company_code := "S2"; meta_role := "store" |}.
Proof.
  split; [reflexivity|].
  destruct (createUser_success (Some Sample.new_store_user) Sample.users_world
              _ _ eq_refl)
    as (body & cc & pw & r & [= <-] & [= <-] & [= <-] & [= <-]
        & _ & _ & _ & _ & Hauth & _).
  rewrite Hauth. apply lookup_insert_eq.
Defined.

(** X3.  When the provider refuses to create the identity, [POST /users]
    answers 400 with the message of the provider (or the default text
    when that message is empty); the refused call is the last one it
    issues, so no profile is inserted, and nothing is changed. *)
Theorem createUser_provider_refuses request w evs e pw company r m :
  log (Users.POST request w).2 = log w ++ evs →
  (AuthAdminCreateUser e pw company r, Failed m) ∈ evs →
  response (Users.POST request w)
  = Some (Users.createErrorResponse
            (JS.or_else m "ユーザーの作成に失敗しました") 400)
  ∧ last evs = Some (AuthAdminCreateUser e pw company r, Failed m)
  ∧ auth (Users.POST request w).2 = auth w
  ∧ db (Users.POST request w).2 = db w.
Proof.
  destruct w as [c a d n e0 cc l].
  unfold response, Users.POST, Supabase.auth_getSession,
    Supabase.Profiles_select_single, Supabase.auth_admin_createUser,
    Supabase.Profiles_insert, Supabase.auth_admin_deleteUser.
  destruct request as [body|]; run_more.
  all: repeat case_step.
  all: rewrite <- ?app_assoc; cbn [app].
  all: intros Hl Hin; events_of Hl; member_of Hin.
  all: simplify_eq.
  all: split_and!; reflexivity.
Qed.

Lemma createUser_provider_refuses_witness :
  let refused :=
    (AuthAdminCreateUser "S1@example.com" "pw" "S1" "store",
     Failed "A user with this email address has already been registered") in
  log (Users.POST (Some Scenario.taken_code) Sample.users_world).2
  = log Sample.users_world
    ++ [(GetSession, Ok); (ProfilesSelectSingle "role" "hq", Ok); refused]
  ∧ refused ∈ [(GetSession, Ok); (ProfilesSelectSingle "role" "hq", Ok); refused]
  ∧ response (Users.POST (Some Scenario.taken_code) Sample.users_world)
    = Some (Users.createErrorResponse
              "A user with this email address has already been registered" 400).
Proof.
  cbn zeta.
  assert ((AuthAdminCreateUser "S1@example.com" "pw" "S1" "store",
           Failed "A user with this email address has already been registered")
          ∈ [(GetSession, Ok); (ProfilesSelectSingle "role" "hq", Ok);
             (AuthAdminCreateUser "S1@example.com" "pw" "S1" "store",
              Failed "A user with this email address has already been registered")])
    as Hin by (do 2 apply list_elem_of_further; apply list_elem_of_here).
  split; [reflexivity|]. split; [exact Hin|].
  match type of Hin with
  | _ ∈ ?evs =>
      destruct (createUser_provider_refuses (Some Scenario.taken_code)
                  Sample.users_world evs _ _ _ _ _ eq_refl Hin) as [Hresp _]
  end.
  exact Hresp.
Defined.




(** Why the identity that stays after a refused rollback need not be
    without a profile: a row left over under the id the provider hands
    out makes the insertion fail on its key, and it is still there when
    the provider refuses the delete. *)
Example createUser_stale_profile_survives :
  log (Users.POST (Some Sample.new_store_user) Scenario.stale_profile_world).2
  = [ (GetSession, Ok);
      (ProfilesSelectSingle "role" "hq", Ok);
      (AuthAdminCreateUser "S2@example.com" "pw" "S2" "store", Ok);
      (ProfilesInsert Sample.new_store_profile,
       Failed "duplicate key value violates unique constraint");
      (AuthAdminDeleteUser "user", Failed "Database error deleting user") ]
  ∧ auth (Users.POST (Some Sample.new_store_user)
            Scenario.stale_profile_world).2 !! "user"
    = Some {| email := "S2@example.com"; password := "pw";
              meta_company_code := "S2"; meta_role := "store" |}
  ∧ Profiles (db (Users.POST (Some Sample.new_store_user)
                    Scenario.stale_profile_world).2) !! "user"
    = Some Scenario.stale_profile.
Proof. split_and!; vm_compute; reflexivity. Qed.

(** ** The pairing of identities and profiles *)

Lemma paired_insert (a : gmap string Identity) (p : gmap string UserProfile)
    i x y :
  (∀ j, is_Some (a !! j) → is_Some (p !! j)) →
  ∀ j, is_Some (<[i:=x]> a !! j) → is_Some (<[i:=y]> p !! j).
Proof.
  intros H j. rewrite !lookup_insert_is_Some. intros [->|[? ?]]; auto.
Qed.

Lemma paired_delete (a : gmap string Identity) (p : gmap string UserProfile) i :
  (∀ j, is_Some (a !! j) → is_Some (p !! j)) →
  ∀ j, is_Some (delete i a !! j) → is_Some (delete i p !! j).
Proof.
  intros H j. rewrite !lookup_delete_is_Some. intros [? ?]; auto.
Qed.

Lemma paired_delete_l (a : gmap string Identity) (p : gmap string UserProfile) i :
  (∀ j, is_Some (a !! j) → is_Some (p !! j)) →
  ∀ j, is_Some (delete i a !! j) → is_Some (p !! j).
Proof. intros H j. rewrite lookup_delete_is_Some. intros [? ?]; auto. Qed.

Lemma paired_update (a : gmap string Identity) (p : gmap string UserProfile) i x :
  is_Some (a !! i) →
  (∀ j, is_Some (a !! j) → is_Some (p !! j)) →
  ∀ j, is_Some (<[i:=x]> a !! j) → is_Some (p !! j).
Proof.
  intros Hi H j. rewrite lookup_insert_is_Some. intros [<-|[? ?]]; auto.
Qed.

Lemma paired_update_r (a : gmap string Identity) (p : gmap string UserProfile) i y :
  (∀ j, is_Some (a !! j) → is_Some (p !! j)) →
  ∀ j, is_Some (a !! j) → is_Some (<[i:=y]> p !! j).
Proof.
  intros H j Hj. rewrite lookup_insert_is_Some.
  destruct (decide (i = j)); auto.
Qed.

(** X5.  With an environment that lets every call through, [POST /users]
    keeps the pairing: if every identity had a profile before the call,
    every identity has one after it, whether the user was created, the
    request was refused, or the insertion failed and was rolled back. *)
Theorem createUser_keeps_pairing request w :
  env w = [] →
  paired w →
  paired (Users.POST request w).2.
Proof.
  destruct w as [c a d n e cc l]; unfold paired; cbn. intros -> H.
  unfold Users.POST, Supabase.auth_getSession,
    Supabase.Profiles_select_single, Supabase.auth_admin_createUser,
    Supabase.Profiles_insert, Supabase.auth_admin_deleteUser.
  destruct request as [body|]; run_more; [|done].
  repeat case_step; try done.
  all: try (by apply paired_insert).
  all: try (rewrite delete_insert_eq, delete_id by apply fresh_string_fresh; done).
  all: match goal with
       | H : <[_:=_]> _ !! _ = None |- _ => by rewrite lookup_insert_eq in H
       end.
Qed.

Lemma createUser_keeps_pairing_witness :
  env Sample.users_world = []
  ∧ paired Sample.users_world
  ∧ paired (Users.POST (Some Sample.new_store_user) Sample.users_world).2.
Proof.
  assert (paired Sample.users_world) as Hp.
  { intros i Hi. unfold Sample.users_world in Hi; cbn in Hi.
    apply lookup_insert_is_Some' in Hi as [<-|Hi]; [by eexists|].
    destruct Hi as [x [<- _]%lookup_singleton_Some]. by eexists. }
  split; [reflexivity|]. split; [exact Hp|].
  exact (createUser_keeps_pairing (Some Sample.new_store_user) Sample.users_world
           eq_refl Hp).
Defined.

(** ** Users: deleting *)

Ltac unfold_DELETE :=
  unfold response, UserById.DELETE, Supabase.Profiles_select_single,
    Supabase.auth_admin_deleteUser, Supabase.Profiles_delete.

(** X6.  When [DELETE /users/{userId}] answers with a success, the target
    had a profile whose role is not "admin" and an identity; both are
    removed, and every other identity and profile, and every other table,
    is left as it was. *)
Theorem deleteUser_success userId w :
  json <$> response (UserById.DELETE userId w)
    = Some (UserById.SuccessResponse true None) →
  (∃ p, Profiles (db w) !! userId = Some p ∧ role p ≠ "admin")
  ∧ is_Some (auth w !! userId)
  ∧ auth (UserById.DELETE userId w).2 = delete userId (auth w)
  ∧ db (UserById.DELETE userId w).2
    = with_Profiles (delete userId (Profiles (db w))) (db w).
Proof.
  destruct w as [c a d n e cc l]. unfold_DELETE. run_more.
  repeat case_step; try discriminate.
  all: intros _; split_and!; try reflexivity; eauto.
  all: eexists; split; [reflexivity|]; by apply String.eqb_neq.
Qed.

Lemma deleteUser_success_witness :
  json <$> response (UserById.DELETE "u1" Sample.users_world)
    = Some (UserById.SuccessResponse true None)
  ∧ auth (UserById.DELETE "u1" Sample.users_world).2 !! "u1" = None
  ∧ Profiles (db (UserById.DELETE "u1" Sample.users_world).2) !! "u1" = None.
Proof.
  split; [reflexivity|].
  destruct (deleteUser_success "u1" Sample.users_world eq_refl)
    as (_ & _ & Hauth & Hdb).
  rewrite Hauth, Hdb. split; apply lookup_delete_eq.
Defined.

(** X7.  When the provider does not delete the identity, whether it
    refuses or holds no identity under that id, [DELETE /users/{userId}]
    answers 500 and stops before the profile: that delete is the last
    call it issues, and the identities and the tables are as they were.
    A profile whose identity is gone can therefore not be deleted through
    this handler. *)
Theorem deleteUser_identity_failure_keeps_profile userId w evs i m :
  log (UserById.DELETE userId w).2 = log w ++ evs →
  (AuthAdminDeleteUser i, Failed m) ∈ evs →
  response (UserById.DELETE userId w)
  = Some (UserById.createErrorResponse "ユーザーの削除に失敗しました" 500 None)
  ∧ i = userId
  ∧ last evs = Some (AuthAdminDeleteUser userId, Failed m)
  ∧ auth (UserById.DELETE userId w).2 = auth w
  ∧ db (UserById.DELETE userId w).2 = db w.
Proof.
  destruct w as [c a d n e cc l]. unfold_DELETE. run_more.
  repeat case_step.
  all: rewrite <- ?app_assoc; cbn [app].
  all: intros Hl Hin; events_of Hl; member_of Hin.
  all: simplify_eq.
  all: split_and!; reflexivity.
Qed.

Lemma deleteUser_identity_failure_keeps_profile_witness :
  let evs := [ (ProfilesSelectSingle "role" "ghost", Ok);
               (AuthAdminDeleteUser "ghost", Failed "User not found") ] in
  log (UserById.DELETE "ghost" Scenario.ghost_world).2
  = log Scenario.ghost_world ++ evs
  ∧ (AuthAdminDeleteUser "ghost", Failed "User not found") ∈ evs
  ∧ response (UserById.DELETE "ghost" Scenario.ghost_world)
    = Some (UserById.createErrorResponse "ユーザーの削除に失敗しました" 500 None)
  ∧ Profiles (db (UserById.DELETE "ghost" Scenario.ghost_world).2) !! "ghost"
    = Some Scenario.ghost_profile.
Proof.
  cbn zeta.
  assert ((AuthAdminDeleteUser "ghost", Failed "User not found")
          ∈ [ (ProfilesSelectSingle "role" "ghost", Ok);
              (AuthAdminDeleteUser "ghost", Failed "User not found") ]) as Hin
    by (apply list_elem_of_further, list_elem_of_here).
  split; [reflexivity|]. split; [exact Hin|].
  match type of Hin with
  | _ ∈ ?evs =>
      destruct (deleteUser_identity_failure_keeps_profile "ghost"
                  Scenario.ghost_world evs _ _ eq_refl Hin)
        as (Hresp & _ & _ & _ & Hdb)
  end.
  split; [exact Hresp|]. rewrite Hdb. reflexivity.
Defined.

(** X8.  When the delete of the profile fails after the identity was
    deleted, [DELETE /users/{userId}] answers 500 and restores nothing:
    the identity is gone and the tables, the profile among them, are as
    they were. *)
Theorem deleteUser_profile_failure_is_reported userId w evs i m :
  log (UserById.DELETE userId w).2 = log w ++ evs →
  (ProfilesDelete i, Failed m) ∈ evs →
  response (UserById.DELETE userId w)
  = Some (UserById.createErrorResponse "プロフィールの削除に失敗しました" 500 None)
  ∧ i = userId
  ∧ is_Some (auth w !! userId)
  ∧ auth (UserById.DELETE userId w).2 = delete userId (auth w)
  ∧ db (UserById.DELETE userId w).2 = db w
  ∧ is_Some (Profiles (db w) !! userId).
Proof.
  destruct w as [c a d n e cc l]. unfold_DELETE. run_more.
  repeat case_step.
  all: rewrite <- ?app_assoc; cbn [app].
  all: intros Hl Hin; events_of Hl; member_of Hin.
  all: simplify_eq.
  all: split_and!; try reflexivity; eauto.
Qed.

Lemma deleteUser_profile_failure_is_reported_witness :
  let evs := [ (ProfilesSelectSingle "role" "u1", Ok);
               (AuthAdminDeleteUser "u1", Ok);
               (ProfilesDelete "u1", Failed "permission denied for table Profiles") ] in
  log (UserById.DELETE "u1" Scenario.profile_delete_fails).2
  = log Scenario.profile_delete_fails ++ evs
  ∧ (ProfilesDelete "u1", Failed "permission denied for table Profiles") ∈ evs
  ∧ auth (UserById.DELETE "u1" Scenario.profile_delete_fails).2 !! "u1" = None
  ∧ Profiles (db (UserById.DELETE "u1" Scenario.profile_delete_fails).2) !! "u1"
    = Some Sample.shop_profile.
Proof.
  cbn zeta.
  assert ((ProfilesDelete "u1", Failed "permission denied for table Profiles")
          ∈ [ (ProfilesSelectSingle "role" "u1", Ok);
              (AuthAdminDeleteUser "u1", Ok);
              (ProfilesDelete "u1", Failed "permission denied for table Profiles") ])
    as Hin by (do 2 apply list_elem_of_further; apply list_elem_of_here).
  split; [reflexivity|]. split; [exact Hin|].
  match type of Hin with
  | _ ∈ ?evs =>
      destruct (deleteUser_profile_failure_is_reported "u1"
                  Scenario.profile_delete_fails evs _ _ eq_refl Hin)
        as (_ & _ & _ & Hauth & Hdb & _)
  end.
  rewrite Hauth, Hdb. split; [apply lookup_delete_eq|reflexivity].
Defined.

(** A target without a profile: when the store answers the load
    and holds no profile under [userId], [DELETE /users/{userId}] answers
    404 and changes nothing, even if the provider holds an identity under
    that id. *)
Theorem deleteUser_without_profile userId w :
  Profiles (db w) !! userId = None →
  hd Quiet (env w) = Quiet →
  response (UserById.DELETE userId w)
  = Some (UserById.createErrorResponse "ユーザーの取得に失敗しました" 404 None)
  ∧ auth (UserById.DELETE userId w).2 = auth w
  ∧ db (UserById.DELETE userId w).2 = db w.
Proof.
  destruct w as [c a d n e cc l]; cbn. intros Hp Hq. unfold_DELETE. run_more.
  rewrite Hq; wsimpl. rewrite Hp; wsimpl. done.
Qed.

Lemma deleteUser_without_profile_witness :
  Profiles (db Sample.users_world) !! "nobody" = None
  ∧ hd Quiet (env Sample.users_world) = Quiet
  ∧ response (UserById.DELETE "nobody" Sample.users_world)
    = Some (UserById.createErrorResponse "ユーザーの取得に失敗しました" 404 None).
Proof.
  split; [reflexivity|]. split; [reflexivity|].
  destruct (deleteUser_without_profile "nobody" Sample.users_world
              eq_refl eq_refl) as [Hresp _].
  exact Hresp.
Defined.

(** [DELETE /users/{userId}] keeps the pairing whatever the environment
    does. *)
Lemma deleteUser_keeps_pairing userId w :
  paired w →
  paired (UserById.DELETE userId w).2.
Proof.
  destruct w as [c a d n e cc l]; unfold paired; cbn. intros H.
  unfold_DELETE. run_more.
  repeat case_step; try done.
  all: first [by apply paired_delete | by apply paired_delete_l].
Qed.

(** ** Users: updating *)

Ltac unfold_PATCH :=
  unfold response, UserById.PATCH, Supabase.auth_getSession,
    Supabase.Profiles_select_single, Supabase.auth_admin_updateUserById,
    Supabase.Profiles_update_single.

(** When the caller is not an administrator, [PATCH /users/{userId}]
    answers 401, 403 or 500 and leaves the identities and the tables as
    they were. *)
Lemma updateUser_only_by_admin userId request w :
  ¬ caller_is_admin w →
  auth (UserById.PATCH userId request w).2 = auth w
  ∧ db (UserById.PATCH userId request w).2 = db w
  ∧ ∃ st, http_status <$> response (UserById.PATCH userId request w) = Some st
          ∧ (st = 401 ∨ st = 403 ∨ st = 500).
Proof.
  intros Hna.
  assert (∀ s p, cookies w = Some s → Profiles (db w) !! user_id s = Some p →
                 role p = "admin" → False) as H.
  { intros s p ? ? ?. apply Hna. by exists s, p. }
  clear Hna. destruct w as [c a d n e cc l]; cbn in H.
  unfold_PATCH. destruct request as [body|]; run_more.
  all: repeat first [not_admin H | case_step].
  all: split_and!; try reflexivity; eexists; (split; [reflexivity|]); auto.
Qed.

(** X9.  When the provider refuses the change of credentials, [PATCH
    /users/{userId}] answers 500 and attempts no change of the profile:
    the refused call is the last one issued, and the identities and the
    tables are as they were. *)
Theorem updateUser_credentials_refused userId request w evs i e pw m :
  log (UserById.PATCH userId request w).2 = log w ++ evs →
  (AuthAdminUpdateUserById i e pw, Failed m) ∈ evs →
  response (UserById.PATCH userId request w)
  = Some (UserById.createErrorResponse "認証情報の更新に失敗しました" 500 None)
  ∧ i = userId
  ∧ last evs = Some (AuthAdminUpdateUserById userId e pw, Failed m)
  ∧ auth (UserById.PATCH userId request w).2 = auth w
  ∧ db (UserById.PATCH userId request w).2 = db w.
Proof.
  destruct w as [c a d n e0 cc l]. unfold_PATCH.
  destruct request as [body|]; run_more.
  all: repeat case_step.
  all: rewrite <- ?app_assoc; cbn [app].
  all: intros Hl Hin; events_of Hl; member_of Hin.
  all: simplify_eq.
  all: split_and!; reflexivity.
Qed.

Lemma updateUser_credentials_refused_witness :
  let refused :=
    (AuthAdminUpdateUserById "u1" (Some "S9@example.com") (Some "new"),
     Failed "Password should be at least 6 characters") in
  let evs := [(GetSession, Ok); (ProfilesSelectSingle "role" "hq", Ok); refused] in
  log (UserById.PATCH "u1" (Some Scenario.rename_shop) Scenario.credentials_refused).2
  = log Scenario.credentials_refused ++ evs
  ∧ refused ∈ evs
  ∧ db (UserById.PATCH "u1" (Some Scenario.rename_shop)
          Scenario.credentials_refused).2
    = db Scenario.credentials_refused.
Proof.
  cbn zeta.
  assert ((AuthAdminUpdateUserById "u1" (Some "S9@example.com") (Some "new"),
           Failed "Password should be at least 6 characters")
          ∈ [ (GetSession, Ok); (ProfilesSelectSingle "role" "hq", Ok);
              (AuthAdminUpdateUserById "u1" (Some "S9@example.com") (Some "new"),
               Failed "Password should be at least 6 characters") ]) as Hin
    by (do 2 apply list_elem_of_further; apply list_elem_of_here).
  split; [reflexivity|]. split; [exact Hin|].
  match type of Hin with
  | _ ∈ ?evs =>
      destruct (updateUser_credentials_refused "u1" (Some Scenario.rename_shop)
                  Scenario.credentials_refused evs _ _ _ _ eq_refl Hin)
        as (_ & _ & _ & _ & Hdb)
  end.
  exact Hdb.
Defined.

(** ** What every run preserves *)

Section Preserves.
Context (R : relation World) `{!Reflexive R, !Transitive R}.

Lemma preserves_ret {A} (a : A) : preserves R (ret a).
Proof. intros w. cbn. reflexivity. Qed.

Lemma preserves_throw {A} e : preserves R (@throw A e).
Proof. intros w. cbn. reflexivity. Qed.

Lemma preserves_bind {A B} (m : Async A) (k : A → Async B) :
  preserves R m → (∀ a, preserves R (k a)) → preserves R (bind m k).
Proof.
  intros Hm Hk w. unfold bind. specialize (Hm w).
  destruct (m w) as [[a|e] w1]; cbn in *; [|done].
  etrans; [exact Hm|apply Hk].
Qed.

Lemma preserves_try_catch {A} (body : Async A) handler :
  preserves R body → (∀ e, preserves R (handler e)) →
  preserves R (try_catch body handler).
Proof.
  intros Hm Hk w. unfold try_catch. specialize (Hm w).
  destruct (body w) as [[a|e] w1]; cbn in *; [done|].
  etrans; [exact Hm|apply Hk].
Qed.

Lemma preserves_request_json {A} (parsed : option A) :
  preserves R (request_json parsed).
Proof. destruct parsed; [apply preserves_ret|apply preserves_throw]. Qed.

Lemma preserves_Date_now : preserves R Date_now.
Proof. intros w. cbn. reflexivity. Qed.

(** A relation that does not look at the log and the environment. *)
Hypothesis R_log : ∀ w l, R w (with_log l w).
Hypothesis R_env : ∀ w e, R w (with_env e w).

Lemma preserves_next_fault : preserves R next_fault.
Proof. intros w. cbn. apply R_env. Qed.

Lemma preserves_record c o : preserves R (record c o).
Proof. intros w. cbn. apply R_log. Qed.

Lemma preserves_external {A} c (go : World → (A + string) * World) :
  (∀ w, R w (go w).2) → preserves R (external c go).
Proof.
  intros Hgo. unfold external. apply preserves_bind; [apply preserves_next_fault|].
  intros [| |]; [| |destruct (rejects c)]; repeat first
    [ apply preserves_bind; [|intros ?] | apply preserves_record
    | apply preserves_ret | apply preserves_throw ].
  intros w. specialize (Hgo w). destruct (go w) as [[a|m] w1]; cbn in *.
  all: etrans; [exact Hgo|apply R_log].
Qed.

Lemma preserves_consult {A} (go : World → (A + string) * World) :
  (∀ w, R w (go w).2) → preserves R (consult go).
Proof.
  intros Hgo. unfold consult. apply preserves_bind; [apply preserves_next_fault|].
  intros [| |]; [|apply preserves_ret|apply preserves_throw].
  intros w. specialize (Hgo w). by destruct (go w).
Qed.

Lemma preserves_consult_store {A} (go : World → (A + string) * World) :
  (∀ w, R w (go w).2) → preserves R (consult_store go).
Proof.
  intros Hgo. apply preserves_try_catch; [by apply preserves_consult|].
  intros ?. apply preserves_ret.
Qed.

Lemma preserves_unwrap {A} (m : Async (A + string)) :
  preserves R m → preserves R (Prisma.unwrap m).
Proof.
  intros Hm. unfold Prisma.unwrap. apply preserves_bind; [done|].
  intros [|]; [apply preserves_ret|apply preserves_throw].
Qed.

(** The calls that read. *)

Lemma preserves_getSession : preserves R Supabase.auth_getSession.
Proof.
  unfold Supabase.auth_getSession.
  apply preserves_bind; [|intros ?; apply preserves_ret].
  apply preserves_external. intros w. cbn. reflexivity.
Qed.

Lemma preserves_Profiles_select_single {A} columns (project : UserProfile → A) i :
  preserves R (Supabase.Profiles_select_single columns project i).
Proof.
  unfold Supabase.Profiles_select_single.
  apply preserves_bind; [|intros ?; apply preserves_ret].
  apply preserves_external. intros w. destruct (Profiles (db w) !! i); cbn; reflexivity.
Qed.

Lemma preserves_Ingredient_select storeId dates :
  preserves R (Supabase.Ingredient_select storeId dates).
Proof.
  unfold Supabase.Ingredient_select.
  apply preserves_bind; [|intros ?; apply preserves_ret].
  apply preserves_external. intros w. cbn. reflexivity.
Qed.

Lemma preserves_StoreItem_select store :
  preserves R (Supabase.StoreItem_select store).
Proof.
  unfold Supabase.StoreItem_select.
  apply preserves_bind; [|intros ?; apply preserves_ret].
  apply preserves_external. intros w. cbn. reflexivity.
Qed.

Lemma preserves_MenuCsv_select : preserves R Supabase.MenuCsv_select.
Proof.
  unfold Supabase.MenuCsv_select.
  apply preserves_bind; [|intros ?; apply preserves_ret].
  apply preserves_external. intros w. cbn. reflexivity.
Qed.

Lemma preserves_promise_all {A B} (a : Async A) (b : Async B) :
  (∀ w, R w (commit_concurrent w)) →
  preserves R a → preserves R b → preserves R (promise_all a b).
Proof.
  intros Hc Ha Hb w. unfold promise_all. specialize (Ha w).
  destruct (a w) as [ra w1]; cbn in *.
  specialize (Hb (commit_concurrent w1)).
  destruct (b (commit_concurrent w1)) as [rb w2]; cbn in *.
  assert (R w w2) by (etrans; [exact Ha|]; etrans; [apply Hc|exact Hb]).
  by destruct ra, rb.
Qed.

End Preserves.

(** One step of a proof that a handler preserves a relation: follow the
    structure of the handler.  [side] closes the conditions on the
    relation. *)
Ltac preserve_rule :=
  first
    [ apply preserves_ret | apply preserves_throw
    | apply preserves_request_json | apply preserves_Date_now
    | apply preserves_getSession
    | apply preserves_Profiles_select_single
    | apply preserves_Ingredient_select
    | apply preserves_StoreItem_select
    | apply preserves_MenuCsv_select
    | apply preserves_unwrap
    | apply preserves_consult_store
    | apply preserves_consult
    | apply preserves_try_catch
    | apply preserves_bind
    | apply preserves_promise_all
    | match goal with
      | |- preserves _ (if ?b then _ else _) => destruct b
      | |- preserves _ (match ?x with _ => _ end) => destruct x
      end ].

Ltac preserve_step side :=
  preserve_rule;
  try match goal with
      | |- Reflexive _ => apply _
      | |- Transitive _ => apply _
      | |- ∀ _, preserves _ _ => intros ?
      | |- preserves _ _ => idtac
      | |- _ => solve [side]
      end.

Global Instance same_state_refl : Reflexive same_state.
Proof. by intros w. Qed.

Global Instance same_state_trans : Transitive same_state.
Proof.
  intros w1 w2 w3 (?&?&?&?&?) (?&?&?&?&?). unfold same_state.
  split_and!; congruence.
Qed.

Global Instance read_only_refl : Reflexive read_only.
Proof. by intros w. Qed.

Global Instance read_only_trans : Transitive read_only.
Proof.
  intros w1 w2 w3 (?&?&?&H12) (?&?&?&H23). unfold read_only.
  split_and!; try congruence.
  intros Hc. destruct (H12 Hc) as [? Hc2]. destruct (H23 Hc2) as [? ?].
  split; congruence.
Qed.

(** ** The handlers that only read *)

Lemma read_only_log w l : read_only w (with_log l w).
Proof. by destruct w. Qed.

Lemma read_only_env w e : read_only w (with_env e w).
Proof. by destruct w. Qed.

Lemma read_only_commit w : read_only w (commit_concurrent w).
Proof.
  destruct w as [c a d n e cc l]. unfold read_only; cbn.
  split_and!; try done. intros ->. cbn. by destruct d.
Qed.

Ltac read_only_side :=
  first [ apply read_only_log | apply read_only_env | apply read_only_commit
        | intros ?; cbn; reflexivity ].

Ltac read_only_step := preserve_step read_only_side.

(** X10.  The four handlers that list ([GET /ingredients], [GET
    /menu-items], [GET /menu] and [GET /users]) only read: whatever the
    request, the session and the environment, the cookies and the
    identities are as they were after the call, and so is every table
    when no other client was writing meanwhile. *)
Theorem listing_handlers_only_read request w :
  read_only w (Ingredients.GET request w).2
  ∧ read_only w (MenuItems.GET w).2
  ∧ read_only w (Catalog.GET w).2
  ∧ read_only w (UserList.GET w).2.
Proof.
  split_and!.
  - revert w. change (preserves read_only (Ingredients.GET request)).
    unfold Ingredients.GET. repeat read_only_step.
  - revert w. change (preserves read_only MenuItems.GET).
    unfold MenuItems.GET, MenuItems.store_scope. repeat read_only_step.
  - revert w. change (preserves read_only Catalog.GET).
    unfold Catalog.GET, Catalog.menuItem_findMany, Catalog.menuCsv_findMany.
    repeat read_only_step.
  - revert w. change (preserves read_only UserList.GET).
    unfold UserList.GET, UserList.Profiles_select.
    repeat read_only_step.
Qed.

(** ** Users: what an update can touch *)

Section TouchesOnly.
Context (i : string).

Global Instance touches_only_refl : Reflexive (touches_only i).
Proof.
  intros w. unfold touches_only. split_and!; [done| | |by destruct w as [? ? []]].
  all: by destruct (_ !! i); constructor.
Qed.

Global Instance touches_only_trans : Transitive (touches_only i).
Proof.
  intros w1 w2 w3 (H1 & Ha1 & Hp1 & Hd1) (H2 & Ha2 & Hp2 & Hd2).
  unfold touches_only. split_and!.
  - intros j Hj. destruct (H1 j Hj), (H2 j Hj). split; congruence.
  - destruct Ha1; inversion Ha2; subst; constructor. intuition congruence.
  - destruct Hp1; inversion Hp2; subst; constructor. intuition congruence.
  - rewrite Hd2, Hd1. by destruct (db w1).
Qed.

Lemma touches_only_log w l : touches_only i w (with_log l w).
Proof. apply (touches_only_refl w). Qed.

Lemma touches_only_env w e : touches_only i w (with_env e w).
Proof. apply (touches_only_refl w). Qed.

Lemma touches_only_updateUserById e pw :
  preserves (touches_only i) (Supabase.auth_admin_updateUserById i e pw).
Proof.
  unfold Supabase.auth_admin_updateUserById.
  apply preserves_bind; [apply _| |intros ?; apply preserves_ret; apply _].
  apply preserves_external;
    [apply _..|apply touches_only_log|apply touches_only_env|].
  intros w. destruct (auth w !! i) as [old|] eqn:Hi; cbn; [|reflexivity].
  destruct w as [c a d n e0 cc l]; unfold touches_only; cbn in *.
  split_and!.
  - intros j Hj. by rewrite lookup_insert_ne.
  - rewrite Hi, lookup_insert_eq. by constructor.
  - by destruct (Profiles d !! i); constructor.
  - by destruct d.
Qed.

Lemma touches_only_Profiles_update u :
  preserves (touches_only i) (Supabase.Profiles_update_single i u).
Proof.
  unfold Supabase.Profiles_update_single.
  apply preserves_bind; [apply _| |intros ?; apply preserves_ret; apply _].
  apply preserves_external;
    [apply _..|apply touches_only_log|apply touches_only_env|].
  intros w. destruct (Profiles (db w) !! i) as [old|] eqn:Hi; cbn; [|reflexivity].
  destruct (Supabase.apply_ProfileUpdate u old) as [new|] eqn:Hu; cbn; [|reflexivity].
  destruct w as [c a d n e0 cc l]; unfold touches_only; cbn in *.
  split_and!.
  - intros j Hj. by rewrite lookup_insert_ne.
  - by destruct (a !! i); constructor.
  - rewrite Hi, lookup_insert_eq. constructor.
    unfold Supabase.apply_ProfileUpdate in Hu.
    repeat match type of Hu with
           | context [match ?x with _ => _ end] => destruct x; try discriminate
           end.
    by simplify_eq.
  - done.
Qed.

End TouchesOnly.

Ltac touches_only_side :=
  first [ apply touches_only_log | apply touches_only_env ].

(** X11.  [PATCH /users/{userId}] touches the target only, whatever the
    patch and the environment: the identity and the profile of every
    other id are as they were; the target keeps its identity (with its
    metadata) and its profile (with its [id] and [company_id]) if it had
    them and gets none if it had none; and the other tables do not
    change. *)
Theorem updateUser_touches_only_the_target userId request w :
  touches_only userId w (UserById.PATCH userId request w).2.
Proof.
  revert w. change (preserves (touches_only userId) (UserById.PATCH userId request)).
  unfold UserById.PATCH.
  repeat first [ apply touches_only_updateUserById
               | apply touches_only_Profiles_update
               | preserve_step touches_only_side ].
Qed.

(** [PATCH /users/{userId}] keeps the pairing whatever the environment
    does: it creates and removes neither identities nor profiles. *)
Lemma updateUser_keeps_pairing userId request w :
  paired w →
  paired (UserById.PATCH userId request w).2.
Proof.
  intros H j.
  destruct (updateUser_touches_only_the_target userId request w)
    as (Hother & Ha & Hp & _).
  destruct (decide (j = userId)) as [->|Hj].
  - intros Hj. specialize (H userId).
    destruct Ha as [old new _|]; [|by destruct Hj].
    destruct Hp as [? ? _|]; [eauto|]. destruct H; [eauto|done].
  - destruct (Hother j Hj) as [-> ->]. apply H.
Qed.

(** ** Users: credentials *)

(** X12.  When [PATCH /users/{userId}] succeeds, the credentials of the
    target follow the patch: a non-empty [company_code] makes
    [company_code@example.com] the email of the identity, a non-empty
    [password] replaces the password, and a field that is absent or empty
    leaves the old value.  A patch with neither leaves the identities
    untouched (the target need not even have one). *)
Theorem updateUser_credentials userId body w updatedProfile :
  json <$> response (UserById.PATCH userId (Some body) w)
    = Some (UserById.SuccessResponse true (Some updatedProfile)) →
  let new_email :=
    if JS.truthy (UserById.body_company_code body)
    then Some (String.append (JS.render (UserById.body_company_code body))
                 "@example.com")
    else None in
  let new_password :=
    if JS.truthy (UserById.body_password body)
    then UserById.body_password body else None in
  if bool_decide (is_Some new_email) || bool_decide (is_Some new_password)
  then ∃ old,
         auth w !! userId = Some old
         ∧ auth (UserById.PATCH userId (Some body) w).2
           = <[userId := {| email := default (email old) new_email;
                            password := default (password old) new_password;
                            meta_company_code := meta_company_code old;
                            meta_role := meta_role old |}]> (auth w)
  else auth (UserById.PATCH userId (Some body) w).2 = auth w.
Proof.
  destruct w as [c a d n e cc l]. unfold_PATCH. run_more.
  repeat case_step; try discriminate.
  all: intros _; try reflexivity; eexists; split; reflexivity.
Qed.

Lemma updateUser_credentials_witness :
  json <$> response (UserById.PATCH "u1" (Some Scenario.rename_shop)
                       Sample.users_world)
    = Some (UserById.SuccessResponse true
              (Some {| id := "u1"; company_code := "S9"; company_id := Some "S1";
                       role := "store"; store_name := Some "Shop Z";
                       group := None |}))
  ∧ auth (UserById.PATCH "u1" (Some Scenario.rename_shop) Sample.users_world).2
      !! "u1"
    = Some {| email := "S9@example.com"; password := "new";
              meta_company_code := "S1"; meta_role := "store" |}.
Proof.
  split; [reflexivity|].
  destruct (updateUser_credentials "u1" Scenario.rename_shop Sample.users_world
              _ eq_refl) as (old & Hold & Hauth).
  rewrite Hauth, lookup_insert_eq. vm_compute in Hold. by injection Hold as <-.
Defined.

(** X13.  When the update of the profile fails, [PATCH /users/{userId}]
    answers 500 with the message of the store as details and undoes
    nothing: the tables are as they were, and a change of credentials
    made just before stays with the provider. *)
Theorem updateUser_profile_failure_keeps_credentials userId request w evs i u m :
  log (UserById.PATCH userId request w).2 = log w ++ evs →
  (ProfilesUpdate i u, Failed m) ∈ evs →
  response (UserById.PATCH userId request w)
  = Some (UserById.createErrorResponse "プロフィールの更新に失敗しました" 500 (Some m))
  ∧ i = userId
  ∧ db (UserById.PATCH userId request w).2 = db w
  ∧ ∀ e pw o, (AuthAdminUpdateUserById userId e pw, o) ∈ evs →
      ∃ old, auth w !! userId = Some old
             ∧ auth (UserById.PATCH userId request w).2
               = <[userId := {| email := default (email old) e;
                                password := default (password old) pw;
                                meta_company_code := meta_company_code old;
                                meta_role := meta_role old |}]> (auth w).
Proof.
  destruct w as [c a d n e0 cc l]. unfold_PATCH.
  destruct request as [body|]; run_more.
  all: repeat case_step.
  all: rewrite <- ?app_assoc; cbn [app].
  all: intros Hl Hin; events_of Hl; member_of Hin.
  all: simplify_eq.
  all: split_and!; try reflexivity.
  all: intros e pw o Hin; member_of Hin; simplify_eq.
  all: eexists; split; [first [eassumption|reflexivity]|reflexivity].
Qed.

Lemma updateUser_profile_failure_keeps_credentials_witness :
  let failed :=
    (ProfilesUpdate "u1"
       {| upd_company_code := JS.val "S9"; upd_role := JS.val "store";
          upd_store_name := JS.val "Shop Z"; upd_group := JS.undefined |},
     Failed "permission denied for table Profiles") in
  let evs :=
    [ (GetSession, Ok); (ProfilesSelectSingle "role" "hq", Ok);
      (AuthAdminUpdateUserById "u1" (Some "S9@example.com") (Some "new"), Ok);
      failed ] in
  log (UserById.PATCH "u1" (Some Scenario.rename_shop)
         Scenario.profile_update_fails).2
  = log Scenario.profile_update_fails ++ evs
  ∧ failed ∈ evs
  ∧ db (UserById.PATCH "u1" (Some Scenario.rename_shop)
          Scenario.profile_update_fails).2
    = db Scenario.profile_update_fails
  ∧ auth (UserById.PATCH "u1" (Some Scenario.rename_shop)
            Scenario.profile_update_fails).2 !! "u1"
    = Some {| email := "S9@example.com"; password := "new";
              meta_company_code := "S1"; meta_role := "store" |}.
Proof.
  cbn zeta.
  assert ((ProfilesUpdate "u1"
             {| upd_company_code := JS.val "S9"; upd_role := JS.val "store";
                upd_store_name := JS.val "Shop Z"; upd_group := JS.undefined |},
           Failed "permission denied for table Profiles")
          ∈ [ (GetSession, Ok); (ProfilesSelectSingle "role" "hq", Ok);
              (AuthAdminUpdateUserById "u1" (Some "S9@example.com") (Some "new"), Ok);
              (ProfilesUpdate "u1"
                 {| upd_company_code := JS.val "S9"; upd_role := JS.val "store";
                    upd_store_name := JS.val "Shop Z"; upd_group := JS.undefined |},
               Failed "permission denied for table Profiles") ]) as Hin
    by (do 3 apply list_elem_of_further; apply list_elem_of_here).
  split; [reflexivity|]. split; [exact Hin|].
  match type of Hin with
  | _ ∈ ?evs =>
      destruct (updateUser_profile_failure_keeps_credentials "u1"
                  (Some Scenario.rename_shop) Scenario.profile_update_fails
                  evs _ _ _ eq_refl Hin) as (_ & _ & Hdb & _)
  end.
  split; [exact Hdb|reflexivity].
Defined.

(** ** Privileged callers, and the pairing, across the user handlers *)

(** X14.  Only an administrator creates or updates users: when the caller
    is not an administrator (no session, no profile, or another role),
    [POST /users] and [PATCH /users/{userId}] leave the identities and the
    tables as they were and answer with an error (400, 401, 403 or 500),
    whatever the request and whatever the environment does. *)
Theorem only_admins_create_and_update userId created patch w :
  ¬ caller_is_admin w →
  (auth (Users.POST created w).2 = auth w
   ∧ db (Users.POST created w).2 = db w
   ∧ ∃ st, http_status <$> response (Users.POST created w) = Some st
           ∧ (st = 400 ∨ st = 401 ∨ st = 403 ∨ st = 500))
  ∧ (auth (UserById.PATCH userId patch w).2 = auth w
     ∧ db (UserById.PATCH userId patch w).2 = db w
     ∧ ∃ st, http_status <$> response (UserById.PATCH userId patch w) = Some st
             ∧ (st = 401 ∨ st = 403 ∨ st = 500)).
Proof.
  intros Hna. split.
  - by apply createUser_only_by_admin.
  - by apply updateUser_only_by_admin.
Qed.

Lemma only_admins_create_and_update_witness :
  ¬ caller_is_admin Scenario.shop_logged_in
  ∧ db (Users.POST (Some Sample.new_store_user) Scenario.shop_logged_in).2
    = db Scenario.shop_logged_in
  ∧ db (UserById.PATCH "hq" (Some Scenario.rename_shop) Scenario.shop_logged_in).2
    = db Scenario.shop_logged_in.
Proof.
  assert (¬ caller_is_admin Scenario.shop_logged_in) as Hna.
  { intros (s & p & [= <-] & Hp & Hr). vm_compute in Hp.
    injection Hp as <-. discriminate. }
  split; [exact Hna|].
  destruct (only_admins_create_and_update "hq" (Some Sample.new_store_user)
              (Some Scenario.rename_shop) Scenario.shop_logged_in Hna)
    as ((_ & Hdb1 & _) & (_ & Hdb2 & _)).
  split; [exact Hdb1|exact Hdb2].
Defined.

(** X15.  [DELETE] and [PATCH /users/{userId}] keep the pairing whatever
    the environment does: if every identity had a profile before the
    call, every identity has one after it.  [DELETE] removes the identity
    first, so a failure in between leaves a profile without identity,
    never an identity without profile; [PATCH] creates and removes
    neither. *)
Theorem delete_and_update_keep_pairing userId patch w :
  paired w →
  paired (UserById.DELETE userId w).2
  ∧ paired (UserById.PATCH userId patch w).2.
Proof.
  intros H. split.
  - by apply deleteUser_keeps_pairing.
  - by apply updateUser_keeps_pairing.
Qed.

Lemma delete_and_update_keep_pairing_witness :
  paired Scenario.profile_delete_fails
  ∧ paired (UserById.DELETE "u1" Scenario.profile_delete_fails).2
  ∧ paired (UserById.PATCH "u1" (Some Scenario.rename_shop)
              Scenario.profile_delete_fails).2.
Proof.
  assert (paired Scenario.profile_delete_fails) as Hp.
  { intros i Hi. unfold Scenario.profile_delete_fails, Sample.users_world in Hi.
    cbn in Hi.
    apply lookup_insert_is_Some' in Hi as [<-|Hi]; [by eexists|].
    destruct Hi as [x [<- _]%lookup_singleton_Some]. by eexists. }
  split; [exact Hp|].
  exact (delete_and_update_keep_pairing "u1" (Some Scenario.rename_shop)
           Scenario.profile_delete_fails Hp).
Defined.

(** ** The store menu: who gets in *)

Lemma same_state_log w l : same_state w (with_log l w).
Proof. by destruct w. Qed.

Lemma same_state_env w e : same_state w (with_env e w).
Proof. by destruct w. Qed.

Ltac same_state_side := first [ apply same_state_log | apply same_state_env ].

(** The session and profile checks change nothing. *)
Lemma store_scope_same_state : preserves same_state MenuItems.store_scope.
Proof. unfold MenuItems.store_scope. repeat preserve_step same_state_side. Qed.

(** Both handlers answer with the rejection of the checks. *)
Lemma store_handlers_rejected w rejection w1 request :
  MenuItems.store_scope w = (Returned (inl rejection), w1) →
  MenuItems.GET w = (Returned rejection, w1)
  ∧ MenuItems.PUT request w = (Returned rejection, w1).
Proof.
  intros H. unfold MenuItems.GET, MenuItems.PUT, try_catch, bind.
  rewrite H. done.
Qed.

Ltac reject_case :=
  let H := fresh "Hboth" in
  intros H; split_and!; intros; repeat destruct_or?; simplify_eq;
  try (apply H; eauto).

(** X16.  Who may use the store menu, when the provider and the store
    answer the two checks: without a session [GET] and [PUT /menu-items]
    answer 401; with a session whose user has no profile, or a profile
    whose [company_id] is null or empty, they answer 404; with the
    [company_id] "admin" they answer 403.  In all three cases nothing is
    read from or written to the store's menu and the world is as it
    was. *)
Theorem store_menu_rejections request w :
  hd Quiet (env w) = Quiet →
  hd Quiet (tl (env w)) = Quiet →
  let scope :=
    match cookies w with
    | None => None
    | Some s => Some (Profiles (db w) !! user_id s ≫= company_id)
    end in
  let both st :=
    http_status <$> response (MenuItems.GET w) = Some st
    ∧ http_status <$> response (MenuItems.PUT request w) = Some st
    ∧ same_state w (MenuItems.GET w).2
    ∧ same_state w (MenuItems.PUT request w).2 in
  (scope = None → both 401)
  ∧ (scope = Some None ∨ scope = Some (Some "") → both 404)
  ∧ (scope = Some (Some "admin") → both 403).
Proof.
  intros H1 H2. cbn zeta.
  pose proof (store_scope_same_state w) as Hsame.
  assert (∀ st,
    (∃ m w1, MenuItems.store_scope w
             = (Returned (inl (MenuItems.createErrorResponse m st)), w1)) →
    http_status <$> response (MenuItems.GET w) = Some st
    ∧ http_status <$> response (MenuItems.PUT request w) = Some st
    ∧ same_state w (MenuItems.GET w).2
    ∧ same_state w (MenuItems.PUT request w).2) as Hboth.
  { intros st (m & w1 & Hs). rewrite Hs in Hsame.
    destruct (store_handlers_rejected w _ w1 request Hs) as [-> ->].
    by unfold response. }
  destruct w as [c a d n e cc l]; cbn in *.
  unfold MenuItems.store_scope, Supabase.auth_getSession,
    Supabase.Profiles_select_single in Hboth.
  revert Hboth. run_more. rewrite H1; wsimpl.
  destruct c as [s|]; wsimpl; [|reject_case].
  rewrite H2; wsimpl.
  destruct (Profiles d !! user_id s) as [p|]; wsimpl; [|reject_case].
  destruct (company_id p) as [store|]; wsimpl; [|reject_case].
  destruct (String.eqb_spec store ""); wsimpl; [subst; reject_case|].
  destruct (String.eqb_spec store "admin"); wsimpl; [subst; reject_case|].
  reject_case.
Qed.

Lemma store_menu_rejections_witness :
  hd Quiet (env Sample.users_world) = Quiet
  ∧ hd Quiet (tl (env Sample.users_world)) = Quiet
  ∧ http_status <$> response (MenuItems.GET Sample.users_world) = Some 403
  ∧ http_status <$> response (MenuItems.PUT (Some Sample.deactivate_ramen)
                                Sample.users_world) = Some 403.
Proof.
  split; [reflexivity|]. split; [reflexivity|].
  destruct (store_menu_rejections (Some Sample.deactivate_ramen)
              Sample.users_world eq_refl eq_refl) as (_ & _ & Hadmin).
  destruct (Hadmin eq_refl) as (Hget & Hput & _). by split.
Defined.

(** ** The store menu: what an update can touch *)

Lemma apply_StoreMenuItemUpdate_keys u store n row :
  let row' := Supabase.apply_StoreMenuItemUpdate u store n row in
  store_menu_item_id row' = store_menu_item_id row
  ∧ item_menu_id row' = item_menu_id row
  ∧ menu_name row' = menu_name row
  ∧ store_id row' = store_id row
  ∧ (row' ≠ row → store_id row = store ∧ menu_name row = n).
Proof.
  cbn zeta. unfold Supabase.apply_StoreMenuItemUpdate.
  destruct (String.eqb_spec (store_id row) store),
    (String.eqb_spec (menu_name row) n); cbn; split_and!; done.
Qed.

(** X17.  [PUT /menu-items] can change rows of [StoreMenuItem] only, and
    among them only rows of the caller's own store that carry the
    requested name; of such a row it keeps the ids, the name and the
    store.  Every other row, every other table, the identities and the
    cookies are as they were, whatever the request and whatever the
    environment does. *)
Theorem updateStoreMenuItem_frame request w :
  cookies (MenuItems.PUT request w).2 = cookies w
  ∧ auth (MenuItems.PUT request w).2 = auth w
  ∧ db (MenuItems.PUT request w).2
    = with_StoreMenuItems (StoreMenuItems (db (MenuItems.PUT request w).2)) (db w)
  ∧ length (StoreMenuItems (db (MenuItems.PUT request w).2))
    = length (StoreMenuItems (db w))
  ∧ ∀ (k : nat) row, StoreMenuItems (db w) !! k = Some row →
      ∃ row', StoreMenuItems (db (MenuItems.PUT request w).2) !! k = Some row'
        ∧ store_menu_item_id row' = store_menu_item_id row
        ∧ item_menu_id row' = item_menu_id row
        ∧ menu_name row' = menu_name row
        ∧ store_id row' = store_id row
        ∧ (row' ≠ row →
           ∃ s p body,
             cookies w = Some s
             ∧ Profiles (db w) !! user_id s = Some p
             ∧ company_id p = Some (store_id row)
             ∧ request = Some body
             ∧ menu_name row = MenuItems.body_name body).
Proof.
  pose proof (store_scope_same_state w) as Hsame.
  assert (∀ w1, same_state w w1 →
            cookies w1 = cookies w ∧ auth w1 = auth w
            ∧ db w1 = with_StoreMenuItems (StoreMenuItems (db w1)) (db w)
            ∧ length (StoreMenuItems (db w1)) = length (StoreMenuItems (db w))
            ∧ ∀ (k : nat) row, StoreMenuItems (db w) !! k = Some row →
                ∃ row', StoreMenuItems (db w1) !! k = Some row'
                  ∧ store_menu_item_id row' = store_menu_item_id row
                  ∧ item_menu_id row' = item_menu_id row
                  ∧ menu_name row' = menu_name row
                  ∧ store_id row' = store_id row
                  ∧ (row' ≠ row →
                     ∃ s p body,
                       cookies w = Some s
                       ∧ Profiles (db w) !! user_id s = Some p
                       ∧ company_id p = Some (store_id row)
                       ∧ request = Some body
                       ∧ menu_name row = MenuItems.body_name body)) as Hsame_ok.
  { intros w1 (Hc & Ha & Hd & _). rewrite Hd. split_and!; try done.
    - by destruct (db w).
    - intros k row Hk. exists row. split_and!; done. }
  unfold MenuItems.PUT, try_catch, bind.
  destruct (MenuItems.store_scope w) as [[[rejection|store]|thrown] w1] eqn:Hs;
    cbn in Hsame; [by apply Hsame_ok| |by apply Hsame_ok].
  destruct request as [body|]; cbn [request_json throw ret]; [|by apply Hsame_ok].
  destruct (store_scope_passes w store w1 Hs)
    as (s & p & Hcookie & Hprofile & Hstore & _).
  destruct Hsame as (Hc & Ha & Hd & _).
  destruct w1 as [c1 a1 d1 n1 e1 cc1 l1]; cbn in Hc, Ha, Hd. subst c1 a1 d1.
  unfold Supabase.StoreMenuItem_update. run_more.
  destruct e1 as [|[] e1]; wsimpl.
  3-4: apply (Hsame_ok (with_log l1 w)); by destruct w.
  all: split_and!; try done.
  all: try by rewrite length_map.
  all: intros k row Hk; eexists.
  all: (split; [by rewrite list_lookup_fmap, Hk|]).
  all: destruct (apply_StoreMenuItemUpdate_keys
                   {| upd_item_status := negb <$> MenuItems.body_isActive body;
                      upd_item_price := MenuItems.body_price body;
                      upd_item_updated_at := n1 |}
                   store (MenuItems.body_name body) row)
         as (? & ? & ? & ? & Hchanged).
  all: split_and!; try done.
  all: intros [Hx Hy]%Hchanged; exists s, p, body; rewrite Hx, Hy.
  all: split_and!; done.
Qed.

(** ** The store menu: edge cases of an update *)




Lemma apply_StoreMenuItemUpdate_again u1 u2 store n row :
  upd_item_status u2 = upd_item_status u1 →
  upd_item_price u2 = upd_item_price u1 →
  let row1 := Supabase.apply_StoreMenuItemUpdate u1 store n row in
  let row2 := Supabase.apply_StoreMenuItemUpdate u2 store n row1 in
  store_menu_item_id row2 = store_menu_item_id row1
  ∧ item_menu_id row2 = item_menu_id row1
  ∧ menu_name row2 = menu_name row1
  ∧ item_price row2 = item_price row1
  ∧ item_status row2 = item_status row1
  ∧ store_id row2 = store_id row1
  ∧ (item_updated_at row2 = item_updated_at row1
     ∨ item_updated_at row1 = upd_item_updated_at u1
       ∧ item_updated_at row2 = upd_item_updated_at u2)
  ∧ (store_id row2 = store → menu_name row2 = n →
     item_updated_at row2 = upd_item_updated_at u2).
Proof.
  intros Hstatus Hprice. cbn zeta. unfold Supabase.apply_StoreMenuItemUpdate.
  destruct (String.eqb (store_id row) store) eqn:Hs,
    (String.eqb (menu_name row) n) eqn:Hn; cbn; rewrite ?Hs, ?Hn; cbn.
  1: rewrite Hstatus, Hprice;
     destruct (upd_item_price u1), (upd_item_status u1); cbn; split_and!; auto.
  all: split_and!; auto.
  all: intros ?%String.eqb_eq ?%String.eqb_eq; congruence.
Qed.

Lemma Forall2_map_again {A} (P : A → A → Prop) (f g : A → A) (l : list A) :
  (∀ x, P (f x) (g (f x))) → Forall2 P (map f l) (map g (map f l)).
Proof. intros H. induction l; cbn; constructor; auto. Qed.

(** X19.  [PUT /menu-items] does not toggle.  With an environment that
    lets every call through, the same request sent a second time, at
    whatever time [t], gives the same response.  It leaves every table
    but [StoreMenuItem] as the first request left it and, row by row of
    that table, the ids, the name, the price, the status and the store.
    What it does not leave alone is the time stamp: a row that the first
    request stamped with its own time carries [t] afterwards, and so does
    every row of the caller's store with the requested name once the
    request has succeeded. *)
Theorem updateStoreMenuItem_is_not_a_toggle request w t :
  env w = [] →
  let first := MenuItems.PUT request w in
  let second := MenuItems.PUT request (with_now t first.2) in
  response second = response first
  ∧ db second.2 = with_StoreMenuItems (StoreMenuItems (db second.2)) (db first.2)
  ∧ Forall2
      (λ row row',
         store_menu_item_id row' = store_menu_item_id row
         ∧ item_menu_id row' = item_menu_id row
         ∧ menu_name row' = menu_name row
         ∧ item_price row' = item_price row
         ∧ item_status row' = item_status row
         ∧ store_id row' = store_id row
         ∧ (item_updated_at row' = item_updated_at row
            ∨ item_updated_at row = now w ∧ item_updated_at row' = t))
      (StoreMenuItems (db first.2)) (StoreMenuItems (db second.2))
  ∧ ∀ s p body row',
      http_status <$> response first = Some 200 →
      cookies w = Some s →
      Profiles (db w) !! user_id s = Some p →
      request = Some body →
      row' ∈ StoreMenuItems (db second.2) →
      company_id p = Some (store_id row') →
      menu_name row' = MenuItems.body_name body →
      item_updated_at row' = t.
Proof.
  assert (∀ rows : list StoreMenuItem,
            Forall2
              (λ row row',
                 store_menu_item_id row' = store_menu_item_id row
                 ∧ item_menu_id row' = item_menu_id row
                 ∧ menu_name row' = menu_name row
                 ∧ item_price row' = item_price row
                 ∧ item_status row' = item_status row
                 ∧ store_id row' = store_id row
                 ∧ (item_updated_at row' = item_updated_at row
                    ∨ item_updated_at row = now w ∧ item_updated_at row' = t))
              rows rows) as Hsame.
  { intros rows. induction rows; constructor; [split_and!|]; auto. }
  destruct w as [c a d n e cc l]; cbn in Hsame |- *. intros ->.
  unfold response, MenuItems.PUT, MenuItems.store_scope,
    Supabase.auth_getSession, Supabase.Profiles_select_single,
    Supabase.StoreMenuItem_update.
  destruct request as [body|]; run_more.
  all: repeat (case_step; simplify_eq; try congruence).
  all: split; [done|].
  all: split; [by destruct d|].
  all: try (split; [by apply Hsame|]; intros ? ? ? ? ?; discriminate).
  all: split.
  all: try (apply Forall2_map_again; intros row).
  all: try (intros s1 p1 body1 row' _ Hc Hp Hreq Hrow Hstore Hname;
            rewrite <- list_fmap_compose in Hrow;
            apply list_elem_of_fmap in Hrow as (row & Hrow' & _);
            subst row'; unfold compose in *).
  all: match goal with
       | |- context [Supabase.apply_StoreMenuItemUpdate ?u2 ?store ?n
                       (Supabase.apply_StoreMenuItemUpdate ?u1 ?store ?n ?row)] =>
           destruct (apply_StoreMenuItemUpdate_again u1 u2 store n row
                       eq_refl eq_refl)
             as (? & ? & ? & ? & ? & ? & Hstamp & Hcaller)
       end.
  all: try (split_and!; done).
  all: apply Hcaller; cbn in *; congruence.
Qed.

Lemma updateStoreMenuItem_is_not_a_toggle_witness :
  env Sample.menu_world = []
  ∧ response (MenuItems.PUT (Some Sample.deactivate_ramen)
                (with_now 2000
                   (MenuItems.PUT (Some Sample.deactivate_ramen) Sample.menu_world).2))
    = response (MenuItems.PUT (Some Sample.deactivate_ramen) Sample.menu_world)
  ∧ StoreMenuItems
      (db (MenuItems.PUT (Some Sample.deactivate_ramen) Sample.menu_world).2)
    = [ {| store_menu_item_id := 20; item_menu_id := 1; menu_name := "Ramen";
           item_price := Qmake 9 1; item_status := false; store_id := "S1";
           item_updated_at := 1000 |};
        Sample.store_item 21 1 "Ramen" "S2" ]
  ∧ StoreMenuItems
      (db (MenuItems.PUT (Some Sample.deactivate_ramen)
             (with_now 2000
                (MenuItems.PUT (Some Sample.deactivate_ramen) Sample.menu_world).2)).2)
    = [ {| store_menu_item_id := 20; item_menu_id := 1; menu_name := "Ramen";
           item_price := Qmake 9 1; item_status := false; store_id := "S1";
           item_updated_at := 2000 |};
        Sample.store_item 21 1 "Ramen" "S2" ].
Proof.
  split; [reflexivity|].
  split; [|split; vm_compute; reflexivity].
  exact (proj1 (updateStoreMenuItem_is_not_a_toggle (Some Sample.deactivate_ramen)
                  Sample.menu_world 2000 eq_refl)).
Defined.

(** ** Ingredients: the rows returned *)

(** X20.  With the [weekDates] parameter present and the provider and
    the store answering, [GET /ingredients] answers with a success whose
    data is, in table order and without the [store_id] column, exactly
    the rows of [Ingredient] whose store is the company code in the
    metadata of the session (rendered as text) and whose date is one of
    the comma-separated values of the parameter. *)
Theorem listIngredients_rows param w :
  hd Quiet (env w) = Quiet →
  hd Quiet (tl (env w)) = Quiet →
  let storeId := JS.render (cookies w ≫= user_metadata_company_code) in
  let dates := JS.split ","%char param in
  ∃ kept,
    response (Ingredients.GET {| Ingredients.weekDates_param := Some param |} w)
    = Some (Ingredients.createSuccessResponse
              (Ingredients.SuccessResponse true (map Ingredients.selected kept)))
    ∧ sublist kept (Ingredients (db w))
    ∧ ∀ row, row ∈ kept ↔ row ∈ Ingredients (db w)
                           ∧ ingredient_store_id row = storeId
                           ∧ date row ∈ dates.
Proof.
  intros H1 H2. cbn zeta.
  exists (List.filter
            (λ row, String.eqb (ingredient_store_id row)
                      (JS.render (cookies w ≫= user_metadata_company_code))
                    && bool_decide (date row ∈ JS.split ","%char param))
            (Ingredients (db w))).
  split_and!.
  - destruct w as [c a d n e cc l]; cbn in *.
    unfold response, Ingredients.GET, Supabase.auth_getSession,
      Supabase.Ingredient_select.
    cbn [Ingredients.weekDates_param].
    pose proof (split_not_empty ","%char param) as Hs.
    destruct (JS.split ","%char param) as [|d0 ds] eqn:Hsplit; [done|]. clear Hs.
    run_more. rewrite H1; wsimpl. rewrite H2; wsimpl.
    by destruct c.
  - induction (Ingredients (db w)) as [|row rows IH]; cbn; [constructor|].
    destruct (_ && _); by constructor.
  - intros row. rewrite list_elem_of_In, filter_In, <- list_elem_of_In.
    rewrite andb_true_iff, String.eqb_eq, bool_decide_eq_true. tauto.
Qed.

Lemma listIngredients_rows_witness :
  hd Quiet (env Sample.kitchen_world) = Quiet
  ∧ hd Quiet (tl (env Sample.kitchen_world)) = Quiet
  ∧ ∃ kept,
      response (Ingredients.GET
                  {| Ingredients.weekDates_param := Some "2024-01-01,2024-01-08" |}
                  Sample.kitchen_world)
      = Some (Ingredients.createSuccessResponse
                (Ingredients.SuccessResponse true (map Ingredients.selected kept)))
      ∧ sublist kept (Ingredients (db Sample.kitchen_world)).
Proof.
  split; [reflexivity|]. split; [reflexivity|].
  destruct (listIngredients_rows "2024-01-01,2024-01-08" Sample.kitchen_world
              eq_refl eq_refl) as (kept & Hresp & Hsub & _).
  by exists kept.
Defined.

(** ** Ingredients: the dates of the query *)

Lemma concat_cons_char sep ch piece pieces :
  String.concat sep (String ch piece :: pieces)
  = String ch (String.concat sep (piece :: pieces)).
Proof. by destruct pieces. Qed.

(** The dates [GET /ingredients] queries are the comma-separated
    pieces of the [weekDates] parameter: joining them with the separator
    gives back the parameter, no piece contains the separator, and there
    is one piece more than there are separators (so there is always at
    least one). *)
Theorem weekDates_split_join sep s :
  String.concat (String sep EmptyString) (JS.split sep s) = s
  ∧ Forall (λ piece, ¬ In sep (list_ascii_of_string piece)) (JS.split sep s)
  ∧ length (JS.split sep s)
    = S (count_occ ascii_dec (list_ascii_of_string s) sep).
Proof.
  induction s as [|ch s (IHjoin & IHfree & IHlen)]; cbn [JS.split].
  - split_and!; [done| |done]. repeat constructor. by intros [].
  - pose proof (split_not_empty sep s) as Hne.
    destruct (Ascii.eqb_spec ch sep) as [->|Hch].
    + split_and!.
      * destruct (JS.split sep s) as [|piece pieces]; [done|].
        cbn [String.concat] in *. cbn. by rewrite IHjoin.
      * constructor; [by intros []|done].
      * cbn. rewrite IHlen. by destruct (ascii_dec sep sep).
    + destruct (JS.split sep s) as [|piece pieces]; [done|].
      split_and!.
      * rewrite concat_cons_char. by rewrite IHjoin.
      * apply Forall_cons in IHfree as [Hp Hps].
        constructor; [|done]. cbn. intros [?|?]; [congruence|done].
      * cbn in *. rewrite IHlen. by destruct (ascii_dec ch sep).
Qed.

(** ** The catalog: updating *)

(** X21.  The catalog and the user list are open: [PUT /menu], [GET
    /menu] and [GET /users] never look at the session.  Run with any
    other cookies, each gives the same response and has the same
    effects. *)
Theorem open_handlers_ignore_the_session request w c :
  ((Menu.PUT request (with_cookies c w)).1 = (Menu.PUT request w).1
   ∧ (Menu.PUT request (with_cookies c w)).2
     = with_cookies c (Menu.PUT request w).2)
  ∧ ((Catalog.GET (with_cookies c w)).1 = (Catalog.GET w).1
     ∧ (Catalog.GET (with_cookies c w)).2 = with_cookies c (Catalog.GET w).2)
  ∧ ((UserList.GET (with_cookies c w)).1 = (UserList.GET w).1
     ∧ (UserList.GET (with_cookies c w)).2 = with_cookies c (UserList.GET w).2).
Proof.
  destruct w as [c0 a d n e cc l].
  unfold Menu.PUT, Catalog.GET, UserList.GET, promise_all,
    Prisma.menuItem_findFirst, Prisma.menuItem_updateMany, Prisma.unwrap,
    Catalog.menuItem_findMany, Catalog.menuCsv_findMany,
    UserList.Profiles_select.
  destruct request as [body|]; run_more.
  all: destruct e as [|[] [|[] e]]; wsimpl.
  all: repeat match goal with
              | |- context [match ?x with Some _ => _ | None => _ end] =>
                  destruct x; wsimpl
              | |- context [if ?b then _ else _] => destruct b; wsimpl
              end.
  all: done.
Qed.

Lemma updated_rows_status_as_given u n rows row s :
  data_status u = Some s →
  row ∈ map (Prisma.apply_MenuItemUpdate u n) rows →
  name row = n → status row = s.
Proof.
  intros Hu (old & -> & _)%list_elem_of_fmap.
  unfold Prisma.apply_MenuItemUpdate.
  destruct (String.eqb_spec (name old) n); cbn; rewrite ?Hu; cbn; congruence.
Qed.

(** X22.  [PUT /menu] writes the flag as it is given: after a call that
    carries [isActive], answered by the store while no other client
    writes, every catalog row with the given name has [status] equal to
    the requested [isActive] (the store menu negates it, the catalog does
    not). *)
Theorem updateMenuItem_writes_status_as_given w body b :
  Menu.body_isActive body = Some b →
  concurrent w = [] →
  hd Quiet (tl (env w)) = Quiet →
  ∀ row, row ∈ MenuItems (db (Menu.PUT (Some body) w).2) →
         name row = Menu.body_name body → status row = b.
Proof.
  intros Hb Hcc Hq row.
  assert (MenuItems (db (Menu.PUT (Some body) w).2)
          = map (Prisma.apply_MenuItemUpdate
                   {| data_status := Some b;
                      data_price := Menu.body_price body;
                      data_K := Menu.body_K body;
                      data_other := Menu.body_other body;
                      data_updated_at := now w |}
                   (Menu.body_name body))
              (MenuItems (db w))) as ->.
  { unfold Menu.PUT, promise_all, Prisma.menuItem_findFirst,
      Prisma.menuItem_updateMany, Prisma.unwrap.
    destruct w as [c a d t e cc l]; cbn in Hcc, Hq. subst cc.
    run_more. rewrite Hb.
    destruct e as [|f e]; [|destruct f]; cbn in Hq; wsimpl;
      rewrite ?Hq; wsimpl;
      repeat match goal with
             | |- context [match ?x with Some _ => _ | None => _ end] =>
                 destruct x; wsimpl
             | |- context [if ?b then _ else _] => destruct b; wsimpl
             end; reflexivity. }
  intros Hrow Hn.
  eapply updated_rows_status_as_given; [|exact Hrow|exact Hn]. reflexivity.
Qed.

Lemma updateMenuItem_writes_status_as_given_witness :
  let off :=
    {| Menu.body_name := "Ramen"; Menu.body_isActive := Some false;
       Menu.body_price := None; Menu.body_K := None; Menu.body_other := None |} in
  Menu.body_isActive off = Some false
  ∧ concurrent Sample.catalog_world = []
  ∧ hd Quiet (tl (env Sample.catalog_world)) = Quiet
  ∧ ∀ row, row ∈ MenuItems (db (Menu.PUT (Some off) Sample.catalog_world).2) →
           name row = "Ramen" → status row = false.
Proof.
  cbn zeta. do 3 (split; [reflexivity|]).
  exact (updateMenuItem_writes_status_as_given Sample.catalog_world
           {| Menu.body_name := "Ramen"; Menu.body_isActive := Some false;
              Menu.body_price := None; Menu.body_K := None;
              Menu.body_other := None |} false eq_refl eq_refl eq_refl).
Defined.

Lemma apply_MenuItemUpdate_other u n row :
  name row ≠ n → Prisma.apply_MenuItemUpdate u n row = row.
Proof.
  intros H. unfold Prisma.apply_MenuItemUpdate.
  by destruct (String.eqb_spec (name row) n).
Qed.

(** A name the catalog does not have: when no row has the given
    name, no other client writes and the store answers, [PUT /menu]
    answers 404 and the tables are exactly as they were (not even
    [updated_at] moves). *)
Theorem updateMenuItem_unknown_name w body :
  (∀ row, row ∈ MenuItems (db w) → name row ≠ Menu.body_name body) →
  concurrent w = [] →
  hd Quiet (env w) = Quiet →
  hd Quiet (tl (env w)) = Quiet →
  response (Menu.PUT (Some body) w)
  = Some (Menu.createErrorResponse "Available menu item not found" 404)
  ∧ db (Menu.PUT (Some body) w).2 = db w.
Proof.
  intros Hnone Hcc H1 H2.
  assert (JS.find (λ row, String.eqb (name row) (Menu.body_name body))
            (MenuItems (db w)) = None) as Hfind.
  { induction (MenuItems (db w)) as [|row rows IH]; [done|]. cbn.
    destruct (String.eqb_spec (name row) (Menu.body_name body)) as [Heq|_].
    - exfalso. eapply Hnone; [left|done].
    - apply IH. intros r Hr. apply Hnone. by right. }
  assert (map (Prisma.apply_MenuItemUpdate
                 {| data_status := Menu.body_isActive body;
                    data_price := Menu.body_price body;
                    data_K := Menu.body_K body;
                    data_other := Menu.body_other body;
                    data_updated_at := now w |}
                 (Menu.body_name body)) (MenuItems (db w))
          = MenuItems (db w)) as Hmap.
  { rewrite <- (map_id (MenuItems (db w))) at 2.
    apply map_ext_in. intros row Hrow%list_elem_of_In.
    apply apply_MenuItemUpdate_other. by apply Hnone. }
  unfold response, Menu.PUT, promise_all, Prisma.menuItem_findFirst,
    Prisma.menuItem_updateMany, Prisma.unwrap.
  destruct w as [c a d t e cc l]; cbn in *. subst cc.
  run_more. rewrite H1; wsimpl. rewrite H2; wsimpl.
  rewrite Hfind, Hmap; wsimpl. split; [done|]. by destruct d.
Qed.

Lemma updateMenuItem_unknown_name_witness :
  let soba :=
    {| Menu.body_name := "Soba"; Menu.body_isActive := Some true;
       Menu.body_price := None; Menu.body_K := None; Menu.body_other := None |} in
  (∀ row, row ∈ MenuItems (db Sample.catalog_world) → name row ≠ "Soba")
  ∧ concurrent Sample.catalog_world = []
  ∧ hd Quiet (env Sample.catalog_world) = Quiet
  ∧ hd Quiet (tl (env Sample.catalog_world)) = Quiet
  ∧ response (Menu.PUT (Some soba) Sample.catalog_world)
    = Some (Menu.createErrorResponse "Available menu item not found" 404)
  ∧ db (Menu.PUT (Some soba) Sample.catalog_world).2 = db Sample.catalog_world.
Proof.
  cbn zeta.
  assert (∀ row, row ∈ MenuItems (db Sample.catalog_world) → name row ≠ "Soba")
    as Hnone.
  { intros row Hrow. vm_compute in Hrow.
    repeat (apply elem_of_cons in Hrow as [->|Hrow]; [discriminate|]).
    by apply elem_of_nil in Hrow. }
  split; [exact Hnone|]. do 3 (split; [reflexivity|]).
  exact (updateMenuItem_unknown_name Sample.catalog_world
           {| Menu.body_name := "Soba"; Menu.body_isActive := Some true;
              Menu.body_price := None; Menu.body_K := None;
              Menu.body_other := None |} Hnone eq_refl eq_refl eq_refl).
Defined.

(** ** The catalog: listing *)

Global Instance by_menu_id_total : Total by_menu_id.
Proof. intros a b. unfold by_menu_id. lia. Qed.

Lemma transform_out_id menuCsvs items :
  map Catalog.out_id (map (Catalog.transform menuCsvs) items) = map menu_id items.
Proof. rewrite map_map. by apply map_ext. Qed.

(** X23.  When the store answers both queries, [GET /menu] answers with
    a success whose data has one record for each row of the catalog, in
    ascending order of [menu_id]; a record copies the id, name, price,
    status (as [isActive]), description, [K] and [other] of its row. *)
Theorem listMenu_sorted_and_complete w :
  hd Quiet (env w) = Quiet →
  hd Quiet (tl (env w)) = Quiet →
  ∃ items,
    response (Catalog.GET w)
    = Some (Catalog.createSuccessResponse
              (Catalog.SuccessResponse true
                 (map (Catalog.transform (MenuCsvs (db w))) items)))
    ∧ items ≡ₚ MenuItems (db w)
    ∧ Sorted Z.le (map Catalog.out_id
                     (map (Catalog.transform (MenuCsvs (db w))) items))
    ∧ Forall (λ item,
                let r := Catalog.transform (MenuCsvs (db w)) item in
                Catalog.out_id r = menu_id item
                ∧ Catalog.out_name r = name item
                ∧ Catalog.out_price r = price item
                ∧ Catalog.isActive r = status item
                ∧ Catalog.out_description r = description item
                ∧ Catalog.out_K r = K item
                ∧ Catalog.out_other r = other item) items.
Proof.
  intros H1 H2. exists (merge_sort by_menu_id (MenuItems (db w))).
  split_and!.
  - unfold response, Catalog.GET, promise_all, Catalog.menuItem_findMany,
      Catalog.menuCsv_findMany, Prisma.unwrap.
    destruct w as [c a d n e cc l]; cbn in *.
    run_more. rewrite H1; wsimpl. rewrite H2; wsimpl. done.
  - apply merge_sort_Permutation.
  - rewrite transform_out_id.
    pose proof (Sorted_merge_sort by_menu_id (MenuItems (db w))) as Hs.
    induction Hs as [|item items Hs IH Hhd]; cbn; constructor; [done|].
    destruct Hhd; cbn; constructor. done.
  - apply Forall_forall. intros item _. cbn. done.
Qed.

Lemma listMenu_sorted_and_complete_witness :
  hd Quiet (env Scenario.unsorted_catalog) = Quiet
  ∧ hd Quiet (tl (env Scenario.unsorted_catalog)) = Quiet
  ∧ ∃ items,
      response (Catalog.GET Scenario.unsorted_catalog)
      = Some (Catalog.createSuccessResponse
                (Catalog.SuccessResponse true
                   (map (Catalog.transform (MenuCsvs (db Scenario.unsorted_catalog)))
                      items)))
      ∧ items ≡ₚ [Scenario.udon; Sample.ramen; Sample.gyoza].
Proof.
  split; [reflexivity|]. split; [reflexivity|].
  destruct (listMenu_sorted_and_complete Scenario.unsorted_catalog
              eq_refl eq_refl) as (items & Hresp & Hperm & _).
  by exists items.
Defined.

(** X24.  The code of a record is joined on the decimal text of the
    [menu_id]: a record has no code exactly when no row of [MenuCsv] has
    that text as its system code; a code that is present is the code of
    the first such row; and a row of [MenuCsv] never serves two different
    [menu_id]s.  The store menu ([GET /menu-items]) joins the same
    way. *)
Theorem menu_code_join menuCsvs item :
  let code := Catalog.out_menu_code (Catalog.transform menuCsvs item) in
  (code = None ↔
     ∀ csv, csv ∈ menuCsvs → menu_sys csv ≠ JS.toString (menu_id item))
  ∧ (∀ c, code = Some c →
       ∃ before csv after,
         menuCsvs = before ++ csv :: after
         ∧ menu_sys csv = JS.toString (menu_id item)
         ∧ menu_code csv = c
         ∧ ∀ earlier, earlier ∈ before →
                      menu_sys earlier ≠ JS.toString (menu_id item))
  ∧ (∀ other_id, JS.toString other_id = JS.toString (menu_id item) →
                 other_id = menu_id item)
  ∧ ∀ store_item, item_menu_id store_item = menu_id item →
      MenuItems.out_menu_code (MenuItems.transform (Some menuCsvs) store_item)
      = code.
Proof.
  cbn zeta. unfold Catalog.transform, MenuItems.transform; cbn.
  split_and!.
  - induction menuCsvs as [|csv csvs IH]; cbn.
    + split; [|done]. by intros _ csv ?%elem_of_nil.
    + destruct (String.eqb_spec (menu_sys csv) (JS.toString (menu_id item)))
        as [Heq|Hne]; cbn.
      * split; [done|]. intros H. exfalso. eapply H; [left|done].
      * rewrite IH. split.
        -- intros H c [->|?]%elem_of_cons; auto.
        -- intros H c ?. apply H. by right.
  - induction menuCsvs as [|csv csvs IH]; cbn; [done|].
    destruct (String.eqb_spec (menu_sys csv) (JS.toString (menu_id item)))
      as [Heq|Hne]; cbn.
    + intros c [= <-]. exists [], csv, csvs. split_and!; try done.
      by intros ? ?%elem_of_nil.
    + intros c Hc. destruct (IH c Hc) as (before & hit & after & -> & ? & ? & Hb).
      exists (csv :: before), hit, after. split_and!; try done.
      intros earlier [->|?]%elem_of_cons; auto.
  - intros other_id H. by apply (inj pretty) in H.
  - intros store_item ->. done.
Qed.

(** ** Users: listing *)

Lemma listUsers_answer w :
  hd Quiet (env w) = Quiet →
  response (UserList.GET w)
  = Some (Users.createSuccessResponse
            (Users.SuccessResponse true None None
               (Some (map (λ kv, UserList.selected kv.2)
                        (map_to_list (Profiles (db w))))))).
Proof.
  intros H1. unfold response, UserList.GET, UserList.Profiles_select.
  destruct w as [c a d n e cc l]; cbn in *.
  run_more. rewrite H1; wsimpl. done.
Qed.

(** X25.  When the store answers, [GET /users] answers with a success
    that lists every profile once, with the five selected columns: there
    are as many rows as profiles, a row is listed exactly when it is the
    selection of a stored profile, and no two rows share an [id] when
    every profile is stored under its own [id]. *)
Theorem listUsers_lists_every_profile w :
  hd Quiet (env w) = Quiet →
  ∃ users,
    response (UserList.GET w)
    = Some (Users.createSuccessResponse
              (Users.SuccessResponse true None None (Some users)))
    ∧ length users = size (Profiles (db w))
    ∧ (∀ p, p ∈ users ↔
            ∃ i q, Profiles (db w) !! i = Some q ∧ p = UserList.selected q)
    ∧ ((∀ i q, Profiles (db w) !! i = Some q → id q = i) →
       NoDup (map id users)).
Proof.
  intros H1. eexists. split; [by apply listUsers_answer|]. split_and!.
  - by rewrite length_map, length_map_to_list.
  - intros p. rewrite list_elem_of_fmap. split.
    + intros ([i q] & -> & Hin%elem_of_map_to_list). by exists i, q.
    + intros (i & q & Hq & ->). exists (i, q). split; [done|].
      by apply elem_of_map_to_list.
  - intros Hkey.
    replace (map id (map (λ kv, UserList.selected kv.2)
                       (map_to_list (Profiles (db w)))))
      with (map fst (map_to_list (Profiles (db w)))).
    + apply NoDup_fst_map_to_list.
    + rewrite map_map. apply map_ext_in.
      intros [i q] Hin%list_elem_of_In%elem_of_map_to_list. cbn.
      symmetry. by apply Hkey.
Qed.

Lemma listUsers_lists_every_profile_witness :
  hd Quiet (env Sample.users_world) = Quiet
  ∧ ∃ users,
      response (UserList.GET Sample.users_world)
      = Some (Users.createSuccessResponse
                (Users.SuccessResponse true None None (Some users)))
      ∧ length users = size (Profiles (db Sample.users_world)).
Proof.
  assert (hd Quiet (env Sample.users_world) = Quiet) as Hq by reflexivity.
  split; [exact Hq|].
  destruct (listUsers_lists_every_profile Sample.users_world Hq)
    as (users & Hresp & Hlen & _).
  exists users. split; [exact Hresp|exact Hlen].
Defined.

(** X26.  A user created through [POST /users] is listed: after a call
    that answered with a success and a [userId], [GET /users], when the
    store answers it, lists a row with that id, the company code, the
    role and the group of the request, and the requested store name if
    the role is "store" and none otherwise. *)
Theorem created_user_is_listed request w msg userId :
  json <$> response (Users.POST request w)
    = Some (Users.SuccessResponse true msg (Some userId) None) →
  hd Quiet (env (Users.POST request w).2) = Quiet →
  ∃ body users,
    request = Some body
    ∧ response (UserList.GET (Users.POST request w).2)
      = Some (Users.createSuccessResponse
                (Users.SuccessResponse true None None (Some users)))
    ∧ {| id := userId;
         company_code := JS.render (Users.body_companyCode body);
         company_id := None;
         role := JS.render (Users.body_role body);
         store_name :=
           if String.eqb (JS.render (Users.body_role body)) "store"
           then Users.body_storeName body else None;
         group := Users.body_group body |} ∈ users.
Proof.
  intros Hok Hq.
  destruct (createUser_success request w msg userId Hok)
    as (body & cc & pw & r & -> & Hcc & Hpw & Hr & _ & _ & _ & _ & _ & Hdb).
  destruct (listUsers_lists_every_profile _ Hq) as (users & Hresp & _ & Hin & _).
  exists body, users. split; [done|]. split; [done|].
  apply Hin. rewrite Hdb, Hcc, Hr. cbn.
  eexists userId, _. split; [apply lookup_insert_eq|]. done.
Qed.

Lemma created_user_is_listed_witness :
  json <$> response (Users.POST (Some Sample.new_store_user) Sample.users_world)
    = Some (Users.SuccessResponse true (Some "ユーザーを作成しました") (Some "user") None)
  ∧ hd Quiet (env (Users.POST (Some Sample.new_store_user) Sample.users_world).2)
    = Quiet
  ∧ ∃ users,
      response (UserList.GET
                  (Users.POST (Some Sample.new_store_user) Sample.users_world).2)
      = Some (Users.createSuccessResponse
                (Users.SuccessResponse true None None (Some users)))
      ∧ Sample.new_store_profile ∈ users.
Proof.
  assert (json <$> response (Users.POST (Some Sample.new_store_user)
                               Sample.users_world)
          = Some (Users.SuccessResponse true (Some "ユーザーを作成しました")
                    (Some "user") None)) as Hok by (vm_compute; reflexivity).
  assert (hd Quiet (env (Users.POST (Some Sample.new_store_user)
                           Sample.users_world).2) = Quiet) as Hq
    by (vm_compute; reflexivity).
  split; [exact Hok|]. split; [exact Hq|].
  destruct (created_user_is_listed (Some Sample.new_store_user) Sample.users_world
              _ _ Hok Hq) as (body & users & Hbody & Hresp & Hin).
  injection Hbody as <-.
  exists users. split; [exact Hresp|exact Hin].
Defined.

(** X27.  A user deleted through [DELETE /users/{userId}] is no longer
    listed: after a call that answered with a success, every row that
    [GET /users] lists is the selection of a profile stored under another
    id, one that was stored before the call. *)
Theorem deleted_user_is_not_listed userId w :
  json <$> response (UserById.DELETE userId w)
    = Some (UserById.SuccessResponse true None) →
  hd Quiet (env (UserById.DELETE userId w).2) = Quiet →
  ∃ users,
    response (UserList.GET (UserById.DELETE userId w).2)
    = Some (Users.createSuccessResponse
              (Users.SuccessResponse true None None (Some users)))
    ∧ length users = pred (size (Profiles (db w)))
    ∧ ∀ p, p ∈ users →
           ∃ i q, i ≠ userId ∧ Profiles (db w) !! i = Some q
                  ∧ p = UserList.selected q.
Proof.
  intros Hok Hq.
  destruct (deleteUser_success userId w Hok) as ((p0 & Hp0 & _) & _ & _ & Hdb).
  destruct (listUsers_lists_every_profile _ Hq) as (users & Hresp & Hlen & Hin & _).
  exists users. split; [done|]. rewrite Hdb in Hlen, Hin. cbn in Hlen, Hin.
  split.
  - rewrite Hlen. rewrite map_size_delete_Some; [done|by eexists].
  - intros p (i & q & [Hi Hq']%lookup_delete_Some & ->)%Hin. by exists i, q.
Qed.

Lemma deleted_user_is_not_listed_witness :
  json <$> response (UserById.DELETE "u1" Sample.users_world)
    = Some (UserById.SuccessResponse true None)
  ∧ hd Quiet (env (UserById.DELETE "u1" Sample.users_world).2) = Quiet
  ∧ ∃ users,
      response (UserList.GET (UserById.DELETE "u1" Sample.users_world).2)
      = Some (Users.createSuccessResponse
                (Users.SuccessResponse true None None (Some users)))
      ∧ length users = 1%nat.
Proof.
  assert (json <$> response (UserById.DELETE "u1" Sample.users_world)
          = Some (UserById.SuccessResponse true None)) as Hok
    by (vm_compute; reflexivity).
  assert (hd Quiet (env (UserById.DELETE "u1" Sample.users_world).2) = Quiet)
    as Hq by (vm_compute; reflexivity).
  split; [exact Hok|]. split; [exact Hq|].
  destruct (deleted_user_is_not_listed "u1" Sample.users_world Hok Hq)
    as (users & Hresp & Hlen & _).
  exists users. split; [exact Hresp|]. rewrite Hlen. vm_compute. reflexivity.
Defined.

(** ** Logging in *)

Lemma find_credentials e pw (a : gmap string Identity) :
  match JS.find (Login.credentials e pw) (map_to_list a) with
  | Some (i, ident) => a !! i = Some ident ∧ email ident = e ∧ password ident = pw
  | None => ∀ i ident, a !! i = Some ident → ¬ (email ident = e ∧ password ident = pw)
  end.
Proof.
  assert (∀ l : list (string * Identity),
    match JS.find (Login.credentials e pw) l with
    | Some entry => entry ∈ l ∧ email entry.2 = e ∧ password entry.2 = pw
    | None => ∀ entry, entry ∈ l → ¬ (email entry.2 = e ∧ password entry.2 = pw)
    end) as Hfind.
  { induction l as [|entry l IH]; cbn; [by intros ? ?%elem_of_nil|].
    unfold Login.credentials at 1.
    destruct (String.eqb_spec (email entry.2) e) as [He|He]; cbn.
    - destruct (String.eqb_spec (password entry.2) pw) as [Hp|Hp]; cbn.
      + split_and!; [left|done|done].
      + destruct (JS.find _ l).
        * destruct IH as (? & ? & ?). split_and!; [by right|done|done].
        * intros x [->|?]%elem_of_cons; [tauto|by apply IH].
    - destruct (JS.find _ l).
      + destruct IH as (? & ? & ?). split_and!; [by right|done|done].
      + intros x [->|?]%elem_of_cons; [tauto|by apply IH]. }
  specialize (Hfind (map_to_list a)).
  destruct (JS.find _ (map_to_list a)) as [[i ident]|].
  - destruct Hfind as (Hin%elem_of_map_to_list & ? & ?). done.
  - intros i ident Hi. apply (Hfind (i, ident)). by apply elem_of_map_to_list.
Qed.

Section Login.
Context (issue : string → string).

Ltac unfold_login :=
  unfold response, Login.POST, Login.auth_signInWithPassword,
    Supabase.Profiles_select_single.

(** X28.  Wrong credentials: when the provider answers and holds no
    identity with the given email and password, [POST /login] answers 401
    "Authentication failed", the profile is not looked up, and the
    cookies, the identities and the tables are as they were. *)
Theorem login_wrong_credentials body w :
  hd Quiet (env w) = Quiet →
  (∀ i ident, auth w !! i = Some ident →
     ¬ (email ident = Login.body_email body
        ∧ password ident = Login.body_password body)) →
  response (Login.POST issue (Some body) w)
  = Some (Login.createErrorResponse "Authentication failed" 401)
  ∧ same_state w (Login.POST issue (Some body) w).2
  ∧ log (Login.POST issue (Some body) w).2 = log w.
Proof.
  intros H1 Hnone.
  pose proof (find_credentials (Login.body_email body) (Login.body_password body)
                (auth w)) as Hfind.
  destruct w as [c a d n e cc l]; cbn in *. unfold_login. run_more.
  rewrite H1; wsimpl.
  destruct (JS.find _ (map_to_list a)) as [[i ident]|]; wsimpl.
  - destruct Hfind as (Hi & ? & ?). exfalso. by eapply Hnone.
  - done.
Qed.

(** X29.  When [POST /login] answers with a company code and a token,
    the provider holds an identity with the given email and password,
    the company code is the non-empty [company_code] of the profile
    stored under the id of that identity, the token is the one the
    provider issued for that id, unchanged, and the cookies now hold the
    session of that user.  Identities and tables are as they were. *)
Theorem login_success request w companyCode token :
  json <$> response (Login.POST issue request w)
    = Some (Login.LoginResponse companyCode token) →
  ∃ body i ident p,
    request = Some body
    ∧ auth w !! i = Some ident
    ∧ email ident = Login.body_email body
    ∧ password ident = Login.body_password body
    ∧ Profiles (db w) !! i = Some p
    ∧ company_code p = companyCode
    ∧ companyCode ≠ ""
    ∧ token = issue i
    ∧ cookies (Login.POST issue request w).2
      = Some {| user_id := i;
                user_metadata_company_code := Some (meta_company_code ident);
                access_token := issue i |}
    ∧ auth (Login.POST issue request w).2 = auth w
    ∧ db (Login.POST issue request w).2 = db w.
Proof.
  destruct request as [body|]; [|by destruct w].
  pose proof (find_credentials (Login.body_email body) (Login.body_password body)
                (auth w)) as Hfind.
  destruct w as [c a d n e cc l]; cbn in *. unfold_login. run_more.
  destruct e as [|[] e]; wsimpl; try discriminate.
  all: destruct (JS.find _ (map_to_list a)) as [[i ident]|]; wsimpl;
    try discriminate.
  all: destruct Hfind as (Hi & He & Hp).
  all: repeat case_step; try discriminate.
  all: intros [= <- <-]; exists body, i, ident; eexists.
  all: split_and!; try done; try eassumption.
  all: by apply String.eqb_neq.
Qed.

(** A login whose profile is missing: when the credentials are
    right but no profile is stored under the id of the identity, [POST
    /login] answers 404 "Company code not found", yet the session of that
    user is already in the cookies. *)
Theorem login_without_profile body w i ident :
  env w = [] →
  JS.find (Login.credentials (Login.body_email body) (Login.body_password body))
    (map_to_list (auth w)) = Some (i, ident) →
  Profiles (db w) !! i = None →
  response (Login.POST issue (Some body) w)
  = Some (Login.createErrorResponse "Company code not found" 404)
  ∧ cookies (Login.POST issue (Some body) w).2
    = Some (Login.session_of issue (i, ident)).
Proof.
  intros He Hfind Hp.
  destruct w as [c a d n e cc l]; cbn in *. subst e. unfold_login. run_more.
  rewrite Hfind; wsimpl. rewrite Hp; wsimpl. done.
Qed.

End Login.

Lemma login_wrong_credentials_witness :
  hd Quiet (env Scenario.logged_out) = Quiet
  ∧ (∀ i ident, auth Scenario.logged_out !! i = Some ident →
       ¬ (email ident = Login.body_email Scenario.wrong_password
          ∧ password ident = Login.body_password Scenario.wrong_password))
  ∧ response (Login.POST Scenario.issue (Some Scenario.wrong_password)
                Scenario.logged_out)
    = Some (Login.createErrorResponse "Authentication failed" 401).
Proof.
  assert (∀ i ident, auth Scenario.logged_out !! i = Some ident →
            ¬ (email ident = Login.body_email Scenario.wrong_password
               ∧ password ident = Login.body_password Scenario.wrong_password))
    as Hnone.
  { intros i ident Hi [_ Hpw].
    unfold Scenario.logged_out, Sample.menu_world, Sample.users_world in Hi.
    cbn in Hi.
    apply lookup_insert_Some in Hi as [[_ <-]|[_ Hi]]; [discriminate|].
    apply lookup_singleton_Some in Hi as [_ <-]. discriminate. }
  split; [reflexivity|]. split; [exact Hnone|].
  destruct (login_wrong_credentials Scenario.issue Scenario.wrong_password
              Scenario.logged_out eq_refl Hnone) as [Hresp _].
  exact Hresp.
Defined.

Lemma login_success_witness :
  json <$> response (Login.POST Scenario.issue (Some Scenario.shop_login)
                       Scenario.logged_out)
    = Some (Login.LoginResponse "S1" "jwt-u1")
  ∧ cookies (Login.POST Scenario.issue (Some Scenario.shop_login)
               Scenario.logged_out).2
    = Some {| user_id := "u1"; user_metadata_company_code := Some "S1";
              access_token := "jwt-u1" |}
  ∧ db (Login.POST Scenario.issue (Some Scenario.shop_login)
          Scenario.logged_out).2 = db Scenario.logged_out.
Proof.
  assert (json <$> response (Login.POST Scenario.issue (Some Scenario.shop_login)
                               Scenario.logged_out)
          = Some (Login.LoginResponse "S1" "jwt-u1")) as Hok
    by (vm_compute; reflexivity).
  split; [exact Hok|].
  destruct (login_success Scenario.issue (Some Scenario.shop_login)
              Scenario.logged_out _ _ Hok)
    as (body & i & ident & p & _ & _ & _ & _ & _ & _ & _ & _ & _ & _ & Hdb).
  split; [vm_compute; reflexivity|exact Hdb].
Defined.

Lemma login_without_profile_witness :
  env Scenario.profile_lost = []
  ∧ JS.find (Login.credentials (Login.body_email Scenario.shop_login)
               (Login.body_password Scenario.shop_login))
      (map_to_list (auth Scenario.profile_lost))
    = Some ("u1", Sample.identity_of Sample.shop_profile)
  ∧ Profiles (db Scenario.profile_lost) !! "u1" = None
  ∧ response (Login.POST Scenario.issue (Some Scenario.shop_login)
                Scenario.profile_lost)
    = Some (Login.createErrorResponse "Company code not found" 404)
  ∧ cookies (Login.POST Scenario.issue (Some Scenario.shop_login)
               Scenario.profile_lost).2
    = Some {| user_id := "u1"; user_metadata_company_code := Some "S1";
              access_token := "jwt-u1" |}.
Proof.
  assert (JS.find (Login.credentials (Login.body_email Scenario.shop_login)
                     (Login.body_password Scenario.shop_login))
            (map_to_list (auth Scenario.profile_lost))
          = Some ("u1", Sample.identity_of Sample.shop_profile)) as Hfind
    by (vm_compute; reflexivity).
  assert (Profiles (db Scenario.profile_lost) !! "u1" = None) as Hp
    by (vm_compute; reflexivity).
  split; [reflexivity|]. split; [exact Hfind|]. split; [exact Hp|].
  destruct (login_without_profile Scenario.issue Scenario.shop_login
              Scenario.profile_lost _ _ eq_refl Hfind Hp) as [Hresp Hcookies].
  split; [exact Hresp|]. rewrite Hcookies. reflexivity.
Defined.

(** ** Creating, then logging in *)

(** X30.  A user created through [POST /users] can log in: after a call
    that answered with a success and a [userId], and with an environment
    that lets the calls through, [POST /login] with
    [companyCode@example.com] and the password of the request answers
    with the company code of the request and the token the provider
    issues for [userId]. *)
Theorem created_user_can_log_in issue request w msg userId :
  json <$> response (Users.POST request w)
    = Some (Users.SuccessResponse true msg (Some userId) None) →
  env (Users.POST request w).2 = [] →
  ∃ body,
    request = Some body
    ∧ response
        (Login.POST issue
           (Some {| Login.body_email :=
                      String.append (JS.render (Users.body_companyCode body))
                        "@example.com";
                    Login.body_password := JS.render (Users.body_password body) |})
           (Users.POST request w).2)
      = Some (Login.createSuccessResponse
                (Login.LoginResponse (JS.render (Users.body_companyCode body))
                   (issue userId))).
Proof.
  intros Hok Henv.
  destruct (createUser_success request w msg userId Hok)
    as (body & cc & pw & r & -> & Hcc & Hpw & Hr & _ & Hmail & Hfresh & _
        & Hauth & Hdb).
  exists body. split; [done|]. rewrite Hcc, Hpw. cbn [JS.render].
  assert (cc ≠ "") as Hne.
  { revert Hok. unfold response, Users.POST, try_catch, bind, request_json, ret.
    rewrite Hcc. cbn [JS.truthy]. intros Hok ->. by destruct w. }
  pose proof (find_credentials (String.append cc "@example.com") pw
                (auth (Users.POST (Some body) w).2)) as Hfind.
  destruct (Users.POST (Some body) w) as [res w'] eqn:Hrun; cbn in *.
  destruct w' as [c' a' d' n' e' cc' l']; cbn in *. subst a' d' e'.
  unfold response, Login.POST, Login.auth_signInWithPassword,
    Supabase.Profiles_select_single.
  run_more.
  destruct (JS.find _ (map_to_list _)) as [[i ident]|].
  - destruct Hfind as (Hi & He & Hp). wsimpl.
    apply lookup_insert_Some in Hi as [[<- <-]|[_ Hi]].
    + rewrite lookup_insert_eq. wsimpl.
      apply String.eqb_neq in Hne. rewrite Hne. done.
    + exfalso. by eapply Hmail.
  - exfalso. eapply Hfind; [apply lookup_insert_eq|]. done.
Qed.

Lemma created_user_can_log_in_witness :
  json <$> response (Users.POST (Some Sample.new_store_user) Sample.users_world)
    = Some (Users.SuccessResponse true (Some "ユーザーを作成しました") (Some "user") None)
  ∧ env (Users.POST (Some Sample.new_store_user) Sample.users_world).2 = []
  ∧ response
      (Login.POST Scenario.issue
         (Some {| Login.body_email := "S2@example.com";
                  Login.body_password := "pw" |})
         (Users.POST (Some Sample.new_store_user) Sample.users_world).2)
    = Some (Login.createSuccessResponse (Login.LoginResponse "S2" "jwt-user")).
Proof.
  assert (json <$> response (Users.POST (Some Sample.new_store_user)
                               Sample.users_world)
          = Some (Users.SuccessResponse true (Some "ユーザーを作成しました")
                    (Some "user") None)) as Hok by (vm_compute; reflexivity).
  assert (env (Users.POST (Some Sample.new_store_user) Sample.users_world).2 = [])
    as Henv by (vm_compute; reflexivity).
  split; [exact Hok|]. split; [exact Henv|].
  destruct (created_user_can_log_in Scenario.issue (Some Sample.new_store_user)
              Sample.users_world _ _ Hok Henv) as (body & Hbody & Hresp).
  injection Hbody as <-. exact Hresp.
Defined.
